(** * Bakong KHQR integration service: a shallow embedding and its properties

    The development follows the three source files of the service:

    - [khqrService.js]  (class [KHQRService]): currency resolution, QR
      generation through the external KHQR library, MD5 and SHA-256
      fingerprints of the QR string;
    - [bakongAPI.js]    (class [BakongAPIService]): the outbound client with
      its timeout, IPv4 fallback and bounded retry;
    - [server.js]: the status classification and the route handlers that
      maintain the in-memory [payments] ledger.

    JavaScript values are embedded as the inductive type [value]; numbers are
    binary64 floats, strings are sequences of bytes read as UTF-8.  What the
    host runtime computes and this file does not re-implement (decimal
    conversion of numbers, Unicode case mapping) is gathered in the record
    [Runtime]; the outside world (network, clock, the KHQR library) enters
    through explicit arguments.  [String(v)] and [Number(v)] throw on an
    object of JSON that has an own property [toString]; the conversions
    are partial where a value of the provider or of a request reaches
    them.  A handler is run to completion as one step of the server;
    requests that overlap while one of them awaits the provider are not
    modelled.  The deeplink task that the generate handler starts is a
    step of its own, but for its first request, which is made before the
    handler replies. *)

From Stdlib Require Import ZArith String Ascii List Bool Lia.
From Stdlib Require Import Floats Uint63.
From Equations Require Import Equations.
From stdpp Require Import base gmap strings list pretty.

Open Scope string_scope.
Open Scope list_scope.
Set Warnings "-register-all".

(* ===================================================================== *)
(** ** Strings *)
(* ===================================================================== *)

Module Str.

(** Case folding of the regular-expression engine for a pattern without
    the [u] flag: a code unit is compared through its upper-case form, and
    a non-ASCII unit never folds onto an ASCII one.  On UTF-8 bytes this
    is upper-casing of [a-z]. *)
Definition canonicalize (c : ascii) : ascii :=
  let n := nat_of_ascii c in
  if (97 <=? n)%nat && (n <=? 122)%nat then ascii_of_nat (n - 32) else c.

(** The pattern (a literal phrase) matches at the start of [s]. *)
Fixpoint matches_at (pat s : string) : bool :=
  match pat, s with
  | EmptyString, _ => true
  | String p pat', String c s' =>
      Ascii.eqb (canonicalize p) (canonicalize c) && matches_at pat' s'
  | String _ _, EmptyString => false
  end.

(** [/(p1|p2|...)/i.test(s)]: some alternative matches at some position. *)
Fixpoint test_alternatives (alts : list string) (s : string) : bool :=
  existsb (fun p => matches_at p s) alts
  || match s with
     | EmptyString => false
     | String _ s' => test_alternatives alts s'
     end.

Fixpoint rev_onto (s acc : string) : string :=
  match s with
  | EmptyString => acc
  | String c s' => rev_onto s' (String c acc)
  end.

Definition rev (s : string) : string := rev_onto s EmptyString.

(** White space and line terminators of ECMAScript, as UTF-8 sequences:
    TAB LF VT FF CR SP; U+00A0; U+1680; U+2000..U+200A, U+2028, U+2029,
    U+202F; U+205F; U+3000; U+FEFF. *)
Definition ws1 (a : ascii) : bool :=
  let n := nat_of_ascii a in
  ((9 <=? n)%nat && (n <=? 13)%nat) || (n =? 32)%nat.

Definition ws2 (a b : ascii) : bool :=
  (nat_of_ascii a =? 194)%nat && (nat_of_ascii b =? 160)%nat.

Definition ws3 (a b c : ascii) : bool :=
  let x := nat_of_ascii a in
  let y := nat_of_ascii b in
  let z := nat_of_ascii c in
  ((x =? 225) && (y =? 154) && (z =? 128))%nat
  || ((x =? 226) && (y =? 128)
      && (((128 <=? z) && (z <=? 138)) || (z =? 168) || (z =? 169) || (z =? 175)))%nat
  || ((x =? 226) && (y =? 129) && (z =? 159))%nat
  || ((x =? 227) && (y =? 128) && (z =? 128))%nat
  || ((x =? 239) && (y =? 187) && (z =? 191))%nat.

(** Removal of leading white space.  With [fwd = false] the string is
    read backwards, so the bytes of a sequence arrive in reverse order. *)
Fixpoint strip (fwd : bool) (s : string) : string :=
  match s with
  | EmptyString => EmptyString
  | String a s1 =>
      if ws1 a then strip fwd s1
      else match s1 with
           | EmptyString => s
           | String b s2 =>
               if (if fwd then ws2 a b else ws2 b a) then strip fwd s2
               else match s2 with
                    | EmptyString => s
                    | String c s3 =>
                        if (if fwd then ws3 a b c else ws3 c b a)
                        then strip fwd s3 else s
                    end
           end
  end.

(** A byte that is neither white space nor part of a multi-byte white
    space sequence; [strip] never removes one. *)
Definition solid (c : ascii) : bool :=
  negb (ws1 c) && (nat_of_ascii c <? 128)%nat.

Fixpoint has_solid (s : string) : bool :=
  match s with
  | EmptyString => false
  | String c s' => solid c || has_solid s'
  end.

(** The pattern begins with a lower-case letter. *)
Definition starts_with_letter (pat : string) : Prop :=
  match pat with
  | String p _ => (97 <= nat_of_ascii p <= 122)%nat
  | EmptyString => False
  end.

(** [String.prototype.trim]. *)
Definition trim (s : string) : string :=
  rev (strip false (rev (strip true s))).

(** [Array.prototype.join]. *)
Definition join (sep : string) (l : list string) : string :=
  String.concat sep l.

(** [s.replace(/\/+$/, '')]: trailing slashes removed. *)
Fixpoint drop_slashes (s : string) : string :=
  match s with
  | EmptyString => EmptyString
  | String c s' => if Ascii.eqb c "/"%char then drop_slashes s' else s
  end.

Definition strip_trailing_slashes (s : string) : string :=
  rev (drop_slashes (rev s)).

(** [s.includes(sub)] for a literal [sub]: exact substring search. *)
Fixpoint includes (sub s : string) : bool :=
  String.prefix sub s
  || match s with
     | EmptyString => false
     | String _ s' => includes sub s'
     end.

(** [s.substring(0, n)]. *)
Fixpoint take (n : nat) (s : string) : string :=
  match n, s with
  | S n', String c s' => String c (take n' s')
  | _, _ => EmptyString
  end.

End Str.

(* ===================================================================== *)
(** ** JavaScript values and coercions *)
(* ===================================================================== *)

(** A JavaScript value as it appears in this program: what [JSON.parse]
    yields, plus [undefined].  An object is its list of own properties; a
    key occurs once. *)
Inductive value : Type :=
| VUndefined
| VNull
| VBool (b : bool)
| VNum (x : float)
| VStr (s : string)
| VArr (elems : list value)
| VObj (props : list (string * value)).

(** The Numbers that [Number.parseInt] returns: an integer or NaN.  The
    program only prints them, compares them and counts with them. *)
Inductive integral : Type :=
| NaN
| Int (z : Z).

(** What the host computes and is kept uninterpreted here. *)
Record Runtime : Type := {
  (** [ToNumber] applied to a String (StringToNumber). *)
  StringToNumber : string -> float;
  (** [Number::toString(x)], radix 10. *)
  NumberToString : float -> string;
  (** [Number.parseInt(s, 10)]. *)
  parseInt10 : string -> integral;
  (** [Number::toString] on an integral Number. *)
  IntegerToString : Z -> string;
  (** [Number.parseFloat(s)]. *)
  parseFloat : string -> float;
  (** [String.prototype.toLowerCase] and [toUpperCase]. *)
  toLowerCase : string -> string;
  toUpperCase : string -> string
}.

(** A completion: a normal value or a thrown exception. *)
Inductive completion (A : Type) : Type :=
| Normal (a : A)
| Throw (e : value).
Arguments Normal {A} a.
Arguments Throw {A} e.

Definition TypeError (msg : string) : value :=
  VObj [("name", VStr "TypeError"); ("message", VStr msg)].

Module JS.

Fixpoint assoc (k : string) (props : list (string * value)) : value :=
  match props with
  | [] => VUndefined
  | (k', v) :: ps => if String.eqb k k' then v else assoc k ps
  end.

(** [v.k] for a base that is neither [null] nor [undefined]; none of the
    keys read by this program is a built-in property of a primitive or of
    an array. *)
Definition get (v : value) (k : string) : value :=
  match v with
  | VObj ps => assoc k ps
  | _ => VUndefined
  end.

Definition nullish (v : value) : bool :=
  match v with
  | VUndefined | VNull => true
  | _ => false
  end.

(** [v.k] in general: reading a property of [null] or [undefined] throws
    a TypeError, here with the message of V8. *)
Definition member (v : value) (k : string) : completion value :=
  match v with
  | VNull =>
      Throw (TypeError ("Cannot read properties of null (reading '" +:+ k +:+ "')"))
  | VUndefined =>
      Throw (TypeError ("Cannot read properties of undefined (reading '" +:+ k +:+ "')"))
  | _ => Normal (get v k)
  end.

(** [v?.k] *)
Definition opt_member (v : value) (k : string) : value :=
  if nullish v then VUndefined else get v k.

(** [a ?? b] *)
Definition coalesce (a b : value) : value :=
  if nullish a then b else a.

(** [typeof v === 'object'] *)
Definition typeof_object (v : value) : bool :=
  match v with
  | VNull | VArr _ | VObj _ => true
  | _ => false
  end.

(** [typeof v === 'string'] *)
Definition typeof_string (v : value) : bool :=
  match v with
  | VStr _ => true
  | _ => false
  end.

Definition ToBoolean (v : value) : bool :=
  match v with
  | VUndefined | VNull => false
  | VBool b => b
  | VNum x => negb (PrimFloat.eqb x 0 || negb (PrimFloat.eqb x x))
  | VStr s => negb (String.eqb s "")
  | VArr _ | VObj _ => true
  end.

(** [a || b] *)
Definition or (a b : value) : value :=
  if ToBoolean a then a else b.

(** [v === 'lit'] *)
Definition is_string (v : value) (lit : string) : bool :=
  match v with
  | VStr s => String.eqb s lit
  | _ => false
  end.

(** [v === true] *)
Definition is_true (v : value) : bool :=
  match v with
  | VBool true => true
  | _ => false
  end.

(** [v !== 0] *)
Definition is_not_zero (v : value) : bool :=
  match v with
  | VNum x => negb (PrimFloat.eqb x 0)
  | _ => true
  end.

(** [v === undefined] *)
Definition is_undefined (v : value) : bool :=
  match v with
  | VUndefined => true
  | _ => false
  end.

Section Coercions.
Variable rt : Runtime.

(** Whether [String(v)] and [Number(v)] complete.  A primitive always
    converts.  A plain object is converted by the [toString] it inherits,
    unless it has an own property [toString]: a value of JSON is not
    callable, the inherited [valueOf] returns the object itself, and the
    conversion throws a TypeError.  An array is converted by [join], which
    converts each element that is neither [null] nor [undefined]. *)
Fixpoint converts (v : value) : bool :=
  match v with
  | VArr l => forallb converts l
  | VObj ps => negb (existsb (fun kv => String.eqb (fst kv) "toString") ps)
  | _ => true
  end.

(** The TypeError of V8 for a conversion that fails. *)
Definition cannot_convert : value :=
  TypeError "Cannot convert object to primitive value".

(** What [String(v)] returns when it completes.  An array is joined with
    commas, [null] and [undefined] elements giving the empty string; a
    plain object is ["[object Object]"]. *)
Fixpoint StringOf (v : value) : string :=
  match v with
  | VUndefined => "undefined"
  | VNull => "null"
  | VBool true => "true"
  | VBool false => "false"
  | VNum x => NumberToString rt x
  | VStr s => s
  | VArr l =>
      Str.join ","
        (List.map (fun e => match e with
                            | VUndefined | VNull => ""
                            | _ => StringOf e
                            end) l)
  | VObj _ => "[object Object]"
  end.

(** What [Number(v)] returns when it completes. *)
Definition NumberOf (v : value) : float :=
  match v with
  | VUndefined => nan
  | VNull => 0%float
  | VBool true => 1%float
  | VBool false => 0%float
  | VNum x => x
  | VStr s => StringToNumber rt s
  | VArr _ | VObj _ => StringToNumber rt (StringOf v)
  end.

(** [String(v)] and the template literal [`${v}`]. *)
Definition ToString (v : value) : completion string :=
  if converts v then Normal (StringOf v) else Throw cannot_convert.

(** [Number(v)]. *)
Definition ToNumber (v : value) : completion float :=
  if converts v then Normal (NumberOf v) else Throw cannot_convert.

(** [String(n)] and [`${n}`] for the result of [parseInt]. *)
Definition IntegralToString (n : integral) : string :=
  match n with
  | NaN => "NaN"
  | Int z => IntegerToString rt z
  end.

(** [[...].includes(String(v))] for a [v] that converts: it is applied to
    the [code] of the error that [fetch] rejects with, which is a string
    or [undefined]. *)
Definition string_in (v : value) (l : list string) : bool :=
  existsb (String.eqb (StringOf v)) l.

End Coercions.

End JS.

(* ===================================================================== *)
(** ** server.js: status classification *)
(* ===================================================================== *)

Section Classification.
Variable rt : Runtime.

Definition pending_phrases : list string :=
  ["not found"; "not yet"; "pending"; "processing"; "wait"].

(** [isLikelyPendingMessage] *)
Definition isLikelyPendingMessage (message : value) : bool :=
  match message with
  | VStr m =>
      if String.eqb (Str.trim m) "" then false
      else Str.test_alternatives pending_phrases m
  | _ => false
  end.

(** [resolvePaymentStatus].  The two calls of [Number] come before every
    test; [String(errorCode)] is reached after [Number(errorCode)]
    completed. *)
Definition resolvePaymentStatus (result : value) : completion string :=
  if negb (JS.ToBoolean result) || negb (JS.typeof_object result) then Normal "error"
  else
    match JS.ToNumber rt (JS.get result "responseCode") with
    | Throw e => Throw e
    | Normal responseCode =>
        let errorCode := JS.get result "errorCode" in
        match JS.ToNumber rt errorCode with
        | Throw e => Throw e
        | Normal errorCodeNumber =>
            let responseMessage :=
              if JS.typeof_string (JS.get result "responseMessage")
              then JS.get result "responseMessage" else VStr "" in
            if PrimFloat.eqb responseCode 0 then Normal "completed"
            else if PrimFloat.eqb errorCodeNumber 3 then Normal "failed"
            else if PrimFloat.eqb errorCodeNumber 1
                    || isLikelyPendingMessage responseMessage
            then Normal "pending"
            else
              match JS.ToString rt errorCode with
              | Throw e => Throw e
              | Normal text =>
                  if existsb (String.eqb text)
                       ["MISSING_TOKEN"; "TIMEOUT"; "NETWORK_ERROR"; "INVALID_RESPONSE"]
                  then Normal "error"
                  else if PrimFloat.eqb responseCode (-1) then Normal "error"
                  else Normal "error"
              end
        end
    end.

(** [getProviderSummary] *)
Definition getProviderSummary (result : value) : list (string * value) :=
  [ ("responseCode", JS.coalesce (JS.opt_member result "responseCode") VNull);
    ("errorCode", JS.coalesce (JS.opt_member result "errorCode") VNull);
    ("responseMessage", JS.coalesce (JS.opt_member result "responseMessage") VNull) ].

(** [buildStatusMessage] *)
Definition buildStatusMessage (status : string) (result : value) : value :=
  if String.eqb status "completed" then VStr "Payment completed"
  else if String.eqb status "failed"
  then JS.or (JS.opt_member result "responseMessage") (VStr "Payment failed")
  else if String.eqb status "pending"
  then JS.or (JS.opt_member result "responseMessage") (VStr "Payment is still pending")
  else JS.or (JS.opt_member result "responseMessage")
             (VStr "Unable to confirm payment status due to provider error").

End Classification.

(* ===================================================================== *)
(** ** The outside world of the client *)
(* ===================================================================== *)

(** The arguments of one [fetch] call: the URL, the headers, the payload
    that is serialised into the body, the delay of the abort timer and
    whether the IPv4-only agent is used. *)
Record request : Type := {
  url : string;
  headers : list (string * string);
  body : value;
  abort_after : integral;
  ipv4_agent : bool
}.

(** What the program does to the outside world, in order. *)
Inductive event : Type :=
| EvFetch (r : request)
| EvSleep (ms : integral).

Definition trace : Type := list event.

(** The error object that a rejected [fetch] throws. *)
Record fetch_error : Type := {
  name : value;
  code : value;
  message : value
}.

(** The response object: [ok], [status], and the outcome of [json()]
    ([None] when the body does not parse). *)
Record response : Type := {
  ok : bool;
  status : float;
  json : option value
}.

Inductive fetch_outcome : Type :=
| Rejected (e : fetch_error)
| Resolved (r : response).

(** The network answers a [fetch] as a function of everything done so far,
    the request itself being the last event. *)
Definition network : Type := trace -> fetch_outcome.

(** Computations of the client: they extend the trace and complete
    normally or throw. *)
Definition IO (A : Type) : Type := trace -> completion A * trace.

Definition io_ret {A : Type} (a : A) : IO A := fun tr => (Normal a, tr).

Definition io_bind {A B : Type} (m : IO A) (k : A -> IO B) : IO B :=
  fun tr =>
    match m tr with
    | (Normal a, tr') => k a tr'
    | (Throw e, tr') => (Throw e, tr')
    end.

Definition io_throw {A : Type} (e : value) : IO A := fun tr => (Throw e, tr).

Definition io_emit (ev : event) : IO unit := fun tr => (Normal tt, tr ++ [ev]).

Notation "x <- m ;; k" := (io_bind m (fun x => k))
  (at level 100, m at next level, right associativity).
Notation "m ;;; k" := (io_bind m (fun _ => k))
  (at level 100, right associativity).

(** The events of [t'] that come after [t]. *)
Definition events_since (t t' : trace) : trace := drop (length t) t'.

Definition is_fetch (ev : event) : bool :=
  match ev with
  | EvFetch _ => true
  | EvSleep _ => false
  end.

Definition fetches (t : trace) : list request :=
  omap (fun ev => match ev with EvFetch r => Some r | EvSleep _ => None end) t.

(** How many sleeps, and how many requests, a trace holds. *)
Fixpoint count_sleeps (t : trace) : nat :=
  match t with
  | [] => O
  | EvSleep _ :: t' => S (count_sleeps t')
  | EvFetch _ :: t' => count_sleeps t'
  end.

Fixpoint count_fetches (t : trace) : nat :=
  match t with
  | [] => O
  | EvSleep _ :: t' => count_fetches t'
  | EvFetch _ :: t' => S (count_fetches t')
  end.

(** The event is a [fetch] of [u] with the payload [payload]. *)
Definition fetch_of (u : string) (payload : value) (ev : event) : Prop :=
  match ev with
  | EvFetch r => url r = u /\ body r = payload
  | EvSleep _ => False
  end.

(** The event is a [fetch] of [u]. *)
Definition fetch_to (u : string) (ev : event) : Prop :=
  match ev with
  | EvFetch r => url r = u
  | EvSleep _ => False
  end.

(** The event is a sleep, or a [fetch] with these headers. *)
Definition sleep_or_fetch_with (hs : list (string * string)) (ev : event) : Prop :=
  match ev with
  | EvFetch r => headers r = hs
  | EvSleep _ => True
  end.

(** The event is a sleep, or a [fetch] of [u] with the payload [payload]. *)
Definition sleep_or_fetch_of (u : string) (payload : value) (ev : event) : Prop :=
  match ev with
  | EvFetch r => url r = u /\ body r = payload
  | EvSleep _ => True
  end.

(* ===================================================================== *)
(** ** bakongAPI.js: class BakongAPIService *)
(* ===================================================================== *)

(** [process.env]: every variable is a string or absent. *)
Definition environment : Type := gmap string string.

(** [process.env.X || dflt] *)
Definition env_or (env : environment) (x dflt : string) : string :=
  match env !! x with
  | Some s => if String.eqb s "" then dflt else s
  | None => dflt
  end.

(** [process.env.X] is truthy *)
Definition env_set (env : environment) (x : string) : bool :=
  match env !! x with
  | Some s => negb (String.eqb s "")
  | None => false
  end.

(** The [options] argument of [post] and [postWithRetry]. *)
Module Opt.
Record t : Type := {
  timeoutMs : option integral;
  retries : option integral;
  retryDelayMs : option integral;
  forceIpv4 : value;
  ipv4FallbackTried : value
}.

(** [{}] *)
Definition empty : t :=
  {| timeoutMs := None; retries := None; retryDelayMs := None;
     forceIpv4 := VUndefined; ipv4FallbackTried := VUndefined |}.

(** [{ timeoutMs: n }] *)
Definition with_timeout (n : integral) : t :=
  {| timeoutMs := Some n; retries := None; retryDelayMs := None;
     forceIpv4 := VUndefined; ipv4FallbackTried := VUndefined |}.

(** [{ ...options, forceIpv4: true, ipv4FallbackTried: true }] *)
Definition forced (o : t) : t :=
  {| timeoutMs := timeoutMs o; retries := retries o;
     retryDelayMs := retryDelayMs o;
     forceIpv4 := VBool true; ipv4FallbackTried := VBool true |}.

(** How many IPv4 fallbacks a call with these options may still make. *)
Definition fallback_budget (o : t) : nat :=
  if JS.is_true (forceIpv4 o) then 0 else 1.
End Opt.

Module BakongAPIService.

Record t : Type := {
  apiToken : option string;
  baseUrl : string;
  timeoutMs : integral;
  statusTimeoutMs : integral;
  deeplinkTimeoutMs : integral;
  retryAttempts : integral;
  retryDelayMs : integral;
  enableIpv4Fallback : bool
}.

(** [!this.apiToken] is false *)
Definition has_token (this : t) : bool :=
  match apiToken this with
  | Some s => negb (String.eqb s "")
  | None => false
  end.

Definition token_text (this : t) : string :=
  match apiToken this with
  | Some s => s
  | None => "undefined"
  end.

Definition missing_token : value :=
  VObj [ ("responseCode", VNum (-1));
         ("errorCode", VStr "MISSING_TOKEN");
         ("responseMessage", VStr "Bakong API token is missing") ].

Definition retryable_network_errors : list string :=
  ["ENETUNREACH"; "EHOSTUNREACH"; "ETIMEDOUT"; "ECONNREFUSED"; "ECONNRESET"].

Definition retryable_error_codes : list string :=
  ["TIMEOUT"; "NETWORK_ERROR"; "INVALID_RESPONSE"].

Section Methods.
Variable rt : Runtime.
Variable net : network.

(** [constructor(apiToken, baseUrl = 'https://api-bakong.nbc.org.kh')] *)
Definition new (env : environment) (apiToken' baseUrl' : option string) : t :=
  {| apiToken := apiToken';
     baseUrl :=
       Str.strip_trailing_slashes
         (default "https://api-bakong.nbc.org.kh" baseUrl');
     timeoutMs := parseInt10 rt (env_or env "BAKONG_API_TIMEOUT_MS" "10000");
     statusTimeoutMs := parseInt10 rt (env_or env "BAKONG_STATUS_TIMEOUT_MS" "18000");
     deeplinkTimeoutMs := parseInt10 rt (env_or env "BAKONG_DEEPLINK_TIMEOUT_MS" "3500");
     retryAttempts := parseInt10 rt (env_or env "BAKONG_API_RETRY_ATTEMPTS" "1");
     retryDelayMs := parseInt10 rt (env_or env "BAKONG_API_RETRY_DELAY_MS" "450");
     enableIpv4Fallback :=
       negb (String.eqb
               (toLowerCase rt (env_or env "BAKONG_IPV4_FALLBACK" "true"))
               "false") |}.

Variable this : t.

(** [isUsingDevEnvironment] *)
Definition isUsingDevEnvironment : bool := Str.includes "-dev." (baseUrl this).

(** [Number.parseInt(String(o ?? d), 10)] *)
Definition reparse (o : option integral) (d : integral) : integral :=
  parseInt10 rt (JS.IntegralToString rt (default d o)).

Definition request_headers (requiresAuth : bool) : list (string * string) :=
  ("Content-Type", "application/json")
  :: (if requiresAuth then [("Authorization", "Bearer " +:+ token_text this)] else []).

Definition timeout_result (timeout : integral) (options : Opt.t) : value :=
  VObj [ ("responseCode", VNum (-1));
         ("errorCode", VStr "TIMEOUT");
         ("responseMessage",
           VStr (if JS.ToBoolean (Opt.ipv4FallbackTried options)
                 then "Bakong API request timed out after "
                      +:+ JS.IntegralToString rt timeout
                      +:+ "ms (including IPv4 fallback)"
                 else "Bakong API request timed out after "
                      +:+ JS.IntegralToString rt timeout +:+ "ms")) ].

Definition network_error_result (e : fetch_error) : value :=
  VObj [ ("responseCode", VNum (-1));
         ("errorCode", VStr "NETWORK_ERROR");
         ("responseMessage", JS.or (message e) (VStr "Network request failed")) ].

Definition invalid_response_result (r : response) : value :=
  VObj [ ("responseCode", VNum (-1));
         ("errorCode", VStr "INVALID_RESPONSE");
         ("responseMessage",
           VStr ("Invalid response from Bakong API (HTTP "
                 +:+ NumberToString rt (status r) +:+ ")")) ].

Definition http_failure_result (r : response) (result : value) : value :=
  VObj [ ("responseCode", VNum (-1));
         ("errorCode", VNum (status r));
         ("responseMessage",
           VStr ("Bakong API request failed (HTTP "
                 +:+ NumberToString rt (status r) +:+ ")"));
         ("data", result) ].

(** The part of [post] after [fetch] has resolved. *)
Definition read_response (r : response) : completion value :=
  match json r with
  | None => Normal (invalid_response_result r)
  | Some result =>
      if negb (ok r)
      then match JS.member result "responseCode" with
           | Throw e => Throw e
           | Normal rc =>
               if JS.is_undefined rc
               then Normal (http_failure_result r result)
               else Normal result
           end
      else Normal result
  end.

(** The [catch] branch decides to repeat the request over IPv4. *)
Definition wants_ipv4_fallback (options : Opt.t) (e : fetch_error) : bool :=
  let shouldForceIpv4 := JS.is_true (Opt.forceIpv4 options) in
  let canTryIpv4Fallback := enableIpv4Fallback this && negb shouldForceIpv4 in
  let retryableNetworkError := JS.string_in rt (code e) retryable_network_errors in
  canTryIpv4Fallback && (JS.is_string (name e) "AbortError" || retryableNetworkError).

Definition fetch_request (endpoint : string) (payload : value)
    (requiresAuth : bool) (options : Opt.t) : request :=
  {| url := baseUrl this +:+ endpoint;
     headers := request_headers requiresAuth;
     body := payload;
     abort_after := reparse (Opt.timeoutMs options) (timeoutMs this);
     ipv4_agent := JS.is_true (Opt.forceIpv4 options) |}.

(** [post].  The only recursive call passes [forceIpv4: true], after
    which [canTryIpv4Fallback] is false. *)
Equations? post (endpoint : string) (payload : value) (requiresAuth : bool)
    (options : Opt.t) (tr : trace) : completion value * trace
    by wf (Opt.fallback_budget options) lt :=
  post endpoint payload requiresAuth options tr
    with requiresAuth && negb (has_token this) => {
    | true := (Normal missing_token, tr);
    | false
        with net (tr ++ [EvFetch (fetch_request endpoint payload requiresAuth options)]) => {
      | Resolved r :=
          (read_response r,
           tr ++ [EvFetch (fetch_request endpoint payload requiresAuth options)]);
      | Rejected e with Equations.Prop.Logic.inspect (wants_ipv4_fallback options e) => {
        | exist _ true _ :=
            post endpoint payload requiresAuth (Opt.forced options)
              (tr ++ [EvFetch (fetch_request endpoint payload requiresAuth options)]);
        | exist _ false _ :=
            (Normal (if JS.is_string (name e) "AbortError"
                     then timeout_result
                            (reparse (Opt.timeoutMs options) (timeoutMs this)) options
                     else network_error_result e),
             tr ++ [EvFetch (fetch_request endpoint payload requiresAuth options)]) } } }.
Proof.
  unfold wants_ipv4_fallback in *. unfold Opt.fallback_budget. simpl.
  destruct (JS.is_true (Opt.forceIpv4 options)); [|lia].
  rewrite andb_false_r in *. discriminate.
Qed.

(** [post] from the point where its first [fetch] has settled with the
    outcome [o]; [tr] is the trace by then. *)
Definition post_settled (endpoint : string) (payload : value) (requiresAuth : bool)
    (options : Opt.t) (o : fetch_outcome) (tr : trace) : completion value * trace :=
  match o with
  | Resolved r => (read_response r, tr)
  | Rejected e =>
      if wants_ipv4_fallback options e
      then post endpoint payload requiresAuth (Opt.forced options) tr
      else (Normal (if JS.is_string (name e) "AbortError"
                    then timeout_result
                           (reparse (Opt.timeoutMs options) (timeoutMs this)) options
                    else network_error_result e), tr)
  end.

(** [isRetryable], as the truth value the caller tests.  [&&] evaluates
    [Number(result.responseCode)] for a truthy result only, and
    [String(result.errorCode)] only when that number is -1. *)
Definition isRetryable (result : value) : completion bool :=
  if negb (JS.ToBoolean result) then Normal false
  else
    match JS.ToNumber rt (JS.get result "responseCode") with
    | Throw e => Throw e
    | Normal responseCode =>
        if negb (PrimFloat.eqb responseCode (-1)) then Normal false
        else
          match JS.ToString rt (JS.get result "errorCode") with
          | Throw e => Throw e
          | Normal text => Normal (existsb (String.eqb text) retryable_error_codes)
          end
    end.

(** [sleep] *)
Definition sleep (ms : integral) : IO unit := io_emit (EvSleep ms).

(** [retries <= 0] *)
Definition not_positive (n : integral) : bool :=
  match n with
  | NaN => false
  | Int z => (z <=? 0)%Z
  end.

(** How often the test [attempt <= retries] of the loop succeeds when
    [attempt] counts up from 1. *)
Definition iterations (n : integral) : nat :=
  match n with
  | NaN => 0
  | Int z => Z.to_nat z
  end.

(** The [for] loop of [postWithRetry], with [n] iterations left. *)
Fixpoint retry_loop (attempt : IO value) (delay : integral) (n : nat)
    (result : value) : IO value :=
  match n with
  | O => io_ret result
  | S n' =>
      sleep delay ;;;
      result' <- attempt ;;
      match isRetryable result' with
      | Throw e => io_throw e
      | Normal retryable =>
          if negb retryable then io_ret result'
          else retry_loop attempt delay n' result'
      end
  end.

(** [postWithRetry], for the request [attempt] it repeats. *)
Definition with_retry (attempt : IO value) (retries delay : integral) : IO value :=
  result <- attempt ;;
  match isRetryable result with
  | Throw e => io_throw e
  | Normal retryable =>
      if negb retryable || not_positive retries then io_ret result
      else retry_loop attempt delay (iterations retries) result
  end.

Definition postWithRetry (endpoint : string) (payload : value)
    (requiresAuth : bool) (options : Opt.t) : IO value :=
  let retries := reparse (Opt.retries options) (retryAttempts this) in
  let retryDelayMs := reparse (Opt.retryDelayMs options) (retryDelayMs this) in
  with_retry (post endpoint payload requiresAuth options) retries retryDelayMs.

Definition default_sourceInfo : value :=
  VObj [ ("appIconUrl", VStr "https://bakong.nbc.org.kh/images/logo.svg");
         ("appName", VStr "My Shop");
         ("appDeepLinkCallback", VStr "https://yourwebsite.com/payment/success") ].

(** [generateDeeplink] *)
Definition generateDeeplink (qrString sourceInfo : value) : IO value :=
  post "/v1/generate_deeplink_by_qr"
    (VObj [ ("qr", qrString);
            ("sourceInfo", JS.or sourceInfo default_sourceInfo) ])
    false (Opt.with_timeout (deeplinkTimeoutMs this)).

(** The first request of [generateDeeplink], and the call from the point
    where that request has settled. *)
Definition generateDeeplink_request (qrString sourceInfo : value) : request :=
  fetch_request "/v1/generate_deeplink_by_qr"
    (VObj [ ("qr", qrString);
            ("sourceInfo", JS.or sourceInfo default_sourceInfo) ])
    false (Opt.with_timeout (deeplinkTimeoutMs this)).

Definition generateDeeplink_settled (qrString sourceInfo : value)
    (o : fetch_outcome) (tr : trace) : completion value * trace :=
  post_settled "/v1/generate_deeplink_by_qr"
    (VObj [ ("qr", qrString);
            ("sourceInfo", JS.or sourceInfo default_sourceInfo) ])
    false (Opt.with_timeout (deeplinkTimeoutMs this)) o tr.

(** [checkTransactionByMD5] *)
Definition checkTransactionByMD5 (md5Hash : value) : IO value :=
  postWithRetry "/v1/check_transaction_by_md5"
    (VObj [("md5", md5Hash)]) true (Opt.with_timeout (statusTimeoutMs this)).

(** [checkTransactionByHash] *)
Definition checkTransactionByHash (hash : value) : IO value :=
  postWithRetry "/v1/check_transaction_by_hash"
    (VObj [("hash", hash)]) true (Opt.with_timeout (statusTimeoutMs this)).

(** [checkTransactionByShortHash] *)
Definition checkTransactionByShortHash (shortHash amount currency : value) : IO value :=
  postWithRetry "/v1/check_transaction_by_short_hash"
    (VObj [("hash", shortHash); ("amount", amount); ("currency", currency)])
    true (Opt.with_timeout (statusTimeoutMs this)).

(** [checkBakongAccount] *)
Definition checkBakongAccount (accountId : value) : IO value :=
  post "/v1/check_bakong_account" (VObj [("accountId", accountId)]) true Opt.empty.

(** [requestToken] *)
Definition requestToken (email organization project : value) : IO value :=
  post "/v1/request_token"
    (VObj [("email", email); ("organization", organization); ("project", project)])
    false Opt.empty.

(** [verifyToken] *)
Definition verifyToken (code : value) : IO value :=
  post "/v1/verify" (VObj [("code", code)]) false Opt.empty.

(** [renewToken] *)
Definition renewToken (email : value) : IO value :=
  post "/v1/renew_token" (VObj [("email", email)]) false Opt.empty.

End Methods.

End BakongAPIService.

(* ===================================================================== *)
(** ** crypto: the MD5 and SHA-256 digests used by khqrService.js *)
(* ===================================================================== *)

Module Crypto.
Open Scope Z_scope.

Definition w32 (x : Z) : Z := x mod 2 ^ 32.

Definition rotl (x n : Z) : Z :=
  w32 (Z.lor (Z.shiftl x n) (Z.shiftr x (32 - n))).

Definition rotr (x n : Z) : Z :=
  w32 (Z.lor (Z.shiftr x n) (Z.shiftl x (32 - n))).

Definition not32 (x : Z) : Z := Z.lxor x 0xffffffff.

(** [update(s)] with the default encoding: the bytes of the string. *)
Definition bytes_of (s : string) : list Z :=
  List.map (fun c => Z.of_nat (nat_of_ascii c)) (list_ascii_of_string s).

(** The [n] low bytes of [x], least significant first. *)
Fixpoint le_bytes (n : nat) (x : Z) : list Z :=
  match n with
  | O => []
  | S n' => (x mod 256) :: le_bytes n' (x / 256)
  end.

Definition be_bytes (n : nat) (x : Z) : list Z := List.rev (le_bytes n x).

Fixpoint le_word (bs : list Z) : Z :=
  match bs with
  | [] => 0
  | b :: bs' => b + 256 * le_word bs'
  end.

Definition be_word (bs : list Z) : Z := le_word (List.rev bs).

(** The message followed by 0x80, zeros up to 56 modulo 64, and the bit
    length on eight bytes. *)
Definition pad (length_bytes : list Z) (msg : list Z) : list Z :=
  let n := Z.of_nat (length msg) in
  let zeros := Z.to_nat ((55 - n) mod 64) in
  msg ++ [0x80] ++ repeat 0 zeros ++ length_bytes.

(** Consecutive blocks of [size] elements; [fuel] bounds their number. *)
Fixpoint blocks {A : Type} (fuel size : nat) (l : list A) : list (list A) :=
  match fuel, l with
  | O, _ => []
  | _, [] => []
  | S fuel', _ => take size l :: blocks fuel' size (drop size l)
  end.

Definition split_blocks {A : Type} (size : nat) (l : list A) : list (list A) :=
  blocks (length l) size l.

Definition hex_digit (d : Z) : ascii :=
  nth (Z.to_nat d) (list_ascii_of_string "0123456789abcdef") "0"%char.

(** [digest('hex')]: two lower-case hexadecimal digits for each byte. *)
Fixpoint hex (bs : list Z) : string :=
  match bs with
  | [] => EmptyString
  | b :: bs' => String (hex_digit (b / 16)) (String (hex_digit (b mod 16)) (hex bs'))
  end.

Module MD5.

Definition shifts : list Z :=
  [ 7; 12; 17; 22; 7; 12; 17; 22; 7; 12; 17; 22; 7; 12; 17; 22;
    5; 9; 14; 20; 5; 9; 14; 20; 5; 9; 14; 20; 5; 9; 14; 20;
    4; 11; 16; 23; 4; 11; 16; 23; 4; 11; 16; 23; 4; 11; 16; 23;
    6; 10; 15; 21; 6; 10; 15; 21; 6; 10; 15; 21; 6; 10; 15; 21 ].

Definition sines : list Z :=
  [ 0xd76aa478; 0xe8c7b756; 0x242070db; 0xc1bdceee;
    0xf57c0faf; 0x4787c62a; 0xa8304613; 0xfd469501;
    0x698098d8; 0x8b44f7af; 0xffff5bb1; 0x895cd7be;
    0x6b901122; 0xfd987193; 0xa679438e; 0x49b40821;
    0xf61e2562; 0xc040b340; 0x265e5a51; 0xe9b6c7aa;
    0xd62f105d; 0x02441453; 0xd8a1e681; 0xe7d3fbc8;
    0x21e1cde6; 0xc33707d6; 0xf4d50d87; 0x455a14ed;
    0xa9e3e905; 0xfcefa3f8; 0x676f02d9; 0x8d2a4c8a;
    0xfffa3942; 0x8771f681; 0x6d9d6122; 0xfde5380c;
    0xa4beea44; 0x4bdecfa9; 0xf6bb4b60; 0xbebfbc70;
    0x289b7ec6; 0xeaa127fa; 0xd4ef3085; 0x04881d05;
    0xd9d4d039; 0xe6db99e5; 0x1fa27cf8; 0xc4ac5665;
    0xf4292244; 0x432aff97; 0xab9423a7; 0xfc93a039;
    0x655b59c3; 0x8f0ccc92; 0xffeff47d; 0x85845dd1;
    0x6fa87e4f; 0xfe2ce6e0; 0xa3014314; 0x4e0811a1;
    0xf7537e82; 0xbd3af235; 0x2ad7d2bb; 0xeb86d391 ].

Definition state : Type := (Z * Z * Z * Z)%type.

Definition initial : state := (0x67452301, 0xefcdab89, 0x98badcfe, 0x10325476).

Definition round (m : list Z) (st : state) (i : Z) : state :=
  let '(a, b, c, d) := st in
  let '(f, g) :=
    if i <? 16 then (Z.lor (Z.land b c) (Z.land (not32 b) d), i)
    else if i <? 32 then (Z.lor (Z.land d b) (Z.land (not32 d) c), (5 * i + 1) mod 16)
    else if i <? 48 then (Z.lxor (Z.lxor b c) d, (3 * i + 5) mod 16)
    else (Z.lxor c (Z.lor b (not32 d)), (7 * i) mod 16) in
  let f' := w32 (f + a + nth (Z.to_nat i) sines 0 + nth (Z.to_nat g) m 0) in
  (d, w32 (b + rotl f' (nth (Z.to_nat i) shifts 0)), b, c).

Definition compress (st : state) (block : list Z) : state :=
  let m := List.map le_word (split_blocks 4 block) in
  let '(a, b, c, d) := st in
  let '(a', b', c', d') := fold_left (round m) (List.map Z.of_nat (seq 0 64)) st in
  (w32 (a + a'), w32 (b + b'), w32 (c + c'), w32 (d + d')).

Definition digest (msg : list Z) : list Z :=
  let padded := pad (le_bytes 8 (8 * Z.of_nat (length msg))) msg in
  let '(a, b, c, d) := fold_left compress (split_blocks 64 padded) initial in
  le_bytes 4 a ++ le_bytes 4 b ++ le_bytes 4 c ++ le_bytes 4 d.

End MD5.

Module SHA256.

(** The first [n] primes among the numbers from 2 on; [fuel] bounds the
    search. *)
Fixpoint primes_from (fuel : nat) (candidate : Z) (n : nat) (found : list Z) : list Z :=
  match fuel, n with
  | O, _ | _, O => List.rev found
  | S fuel', S n' =>
      if forallb (fun q => negb (candidate mod q =? 0)) found
      then primes_from fuel' (candidate + 1) n' (candidate :: found)
      else primes_from fuel' (candidate + 1) n found
  end.

Definition primes (n : nat) : list Z := primes_from 400 2 n [].

(** The largest [x] below [2 ^ bits] above [acc] with [x ^ 3 <= n]. *)
Fixpoint cube_root (bits : nat) (n acc : Z) : Z :=
  match bits with
  | O => acc
  | S bits' =>
      let x := acc + 2 ^ Z.of_nat bits' in
      if x * x * x <=? n then cube_root bits' n x else cube_root bits' n acc
  end.

(** The round constants: the first 32 bits of the fractional parts of the
    cube roots of the first 64 primes. *)
Definition cube_roots : list Z :=
  Eval vm_compute in List.map (fun q => w32 (cube_root 40 (q * 2 ^ 96) 0)) (primes 64).

(** The initial hash value: the first 32 bits of the fractional parts of
    the square roots of the first 8 primes. *)
Definition initial : list Z :=
  Eval vm_compute in List.map (fun q => w32 (Z.sqrt (q * 2 ^ 64))) (primes 8).

Definition small_sigma0 (x : Z) : Z :=
  Z.lxor (Z.lxor (rotr x 7) (rotr x 18)) (Z.shiftr x 3).

Definition small_sigma1 (x : Z) : Z :=
  Z.lxor (Z.lxor (rotr x 17) (rotr x 19)) (Z.shiftr x 10).

Definition big_sigma0 (x : Z) : Z :=
  Z.lxor (Z.lxor (rotr x 2) (rotr x 13)) (rotr x 22).

Definition big_sigma1 (x : Z) : Z :=
  Z.lxor (Z.lxor (rotr x 6) (rotr x 11)) (rotr x 25).

(** The message schedule, extended by [n] words; [w] holds the words so
    far, the latest first. *)
Fixpoint schedule (n : nat) (w : list Z) : list Z :=
  match n with
  | O => w
  | S n' =>
      schedule n'
        (w32 (small_sigma1 (nth 1 w 0) + nth 6 w 0
              + small_sigma0 (nth 14 w 0) + nth 15 w 0) :: w)
  end.

Definition round (st : list Z) (kw : Z * Z) : list Z :=
  match st with
  | [a; b; c; d; e; f; g; h] =>
      let ch := Z.lxor (Z.land e f) (Z.land (not32 e) g) in
      let maj := Z.lxor (Z.lxor (Z.land a b) (Z.land a c)) (Z.land b c) in
      let t1 := h + big_sigma1 e + ch + fst kw + snd kw in
      let t2 := big_sigma0 a + maj in
      [w32 (t1 + t2); a; b; c; w32 (d + t1); e; f; g]
  | _ => st
  end.

Definition zip_add (x y : list Z) : list Z :=
  List.map (fun p => w32 (fst p + snd p)) (combine x y).

Definition compress (st : list Z) (block : list Z) : list Z :=
  let w0 := List.map be_word (split_blocks 4 block) in
  let w := List.rev (schedule 48 (List.rev w0)) in
  zip_add st (fold_left round (combine cube_roots w) st).

Definition digest (msg : list Z) : list Z :=
  let padded := pad (be_bytes 8 (8 * Z.of_nat (length msg))) msg in
  concat (List.map (be_bytes 4) (fold_left compress (split_blocks 64 padded) initial)).

End SHA256.

End Crypto.

(* ===================================================================== *)
(** ** khqrService.js: class KHQRService *)
(* ===================================================================== *)

(** The arguments of [new IndividualInfo(...)] and [new MerchantInfo(...)]
    of the KHQR library, and the answer of its generators. *)
Record IndividualInfo : Type := {
  ind_accountId : value;
  ind_merchantName : value;
  ind_merchantCity : value;
  ind_optional : list (string * value)
}.

Record MerchantInfo : Type := {
  mer_accountId : value;
  mer_merchantName : value;
  mer_merchantCity : value;
  mer_merchantId : value;
  mer_acquiringBank : value;
  mer_optional : list (string * value)
}.

(** [{ status: { code, message }, data: { qr } }]; [qr] is read only when
    the code is 0. *)
Record KHQRResponse : Type := {
  status_code : value;
  status_message : value;
  data_qr : string
}.

(** The external package [bakong-khqr]: its generators (which may throw)
    and the two currency codes of [khqrData.currency]. *)
Record KHQRLibrary : Type := {
  generateIndividual : IndividualInfo -> completion KHQRResponse;
  generateMerchant : MerchantInfo -> completion KHQRResponse;
  currency_khr : value;
  currency_usd : value
}.

(** What the two generators of the service return. *)
Inductive qr_result : Type :=
| QrFailure (error : value)
| QrSuccess (qrString md5 : string).

Module KHQRService.

(** [generateMD5] *)
Definition generateMD5 (qrString : string) : string :=
  Crypto.hex (Crypto.MD5.digest (Crypto.bytes_of qrString)).

(** [generateShortHash] *)
Definition generateShortHash (qrString : string) : string :=
  let fullHash := Crypto.hex (Crypto.SHA256.digest (Crypto.bytes_of qrString)) in
  Str.take 8 fullHash.

(** Arguments of [generateIndividualQR] and [generateMerchantQR]; a
    property that the caller leaves out is [VUndefined]. *)
Record args : Type := {
  accountId : value;
  merchantName : value;
  merchantId : value;
  acquiringBank : value;
  merchantCity : value;
  amount : value;
  currency : value;
  billNumber : value;
  mobileNumber : value;
  storeLabel : value;
  terminalLabel : value;
  purposeOfTransaction : value
}.

(** The same arguments with another [currency]. *)
Definition with_currency (c : value) (a : args) : args :=
  {| accountId := accountId a;
     merchantName := merchantName a;
     merchantId := merchantId a;
     acquiringBank := acquiringBank a;
     merchantCity := merchantCity a;
     amount := amount a;
     currency := c;
     billNumber := billNumber a;
     mobileNumber := mobileNumber a;
     storeLabel := storeLabel a;
     terminalLabel := terminalLabel a;
     purposeOfTransaction := purposeOfTransaction a |}.

(** A parameter [x = d] of a destructuring pattern. *)
Definition defaulted (v d : value) : value :=
  if JS.is_undefined v then d else v.

(** [obj.k = v], keeping the position of a key already present. *)
Fixpoint set (k : string) (v : value) (props : list (string * value))
    : list (string * value) :=
  match props with
  | [] => [(k, v)]
  | (k', v') :: ps => if String.eqb k k' then (k, v) :: ps else (k', v') :: set k v ps
  end.

(** [if (v) obj.k = v] *)
Definition set_if (k : string) (v : value) (props : list (string * value))
    : list (string * value) :=
  if JS.ToBoolean v then set k v props else props.

(** [{ ...a, ...b }] *)
Definition spread (a b : list (string * value)) : list (string * value) :=
  fold_left (fun acc kv => set (fst kv) (snd kv) acc) b a.

Section Methods.
Variable rt : Runtime.
Variable lib : KHQRLibrary.

(** [resolveCurrency] *)
Definition resolveCurrency (currency : value) : value :=
  if JS.is_string currency "KHR" then currency_khr lib else currency_usd lib.

(** [!v || !String(v).trim()]: [String] is applied to a truthy [v]. *)
Definition is_blank (v : value) : completion bool :=
  if negb (JS.ToBoolean v) then Normal true
  else
    match JS.ToString rt v with
    | Throw e => Throw e
    | Normal text => Normal (String.eqb (Str.trim text) "")
    end.

(** [validateRequiredFields] *)
Definition validateRequiredFields (accountId merchantName : value)
    : completion value :=
  match is_blank accountId with
  | Throw e => Throw e
  | Normal true => Normal (VStr "Bakong account ID is required")
  | Normal false =>
      match is_blank merchantName with
      | Throw e => Throw e
      | Normal true => Normal (VStr "Merchant name is required")
      | Normal false => Normal VNull
      end
  end.

(** [amount > 0] for an amount that converts: the server and the examples
    pass a number. *)
Definition positive (amount : value) : bool :=
  PrimFloat.ltb 0 (JS.NumberOf rt amount).

(** The three assignments guarded by [amount > 0]; [now] is
    [Date.now()]. *)
Definition amount_data (now : float) (amount resolvedCurrency : value)
    : list (string * value) :=
  if positive amount
  then [ ("amount", amount);
         ("currency", resolvedCurrency);
         ("expirationTimestamp", VNum (now + 10 * 60 * 1000)%float) ]
  else [].

Definition finish (r : completion KHQRResponse) : completion qr_result :=
  match r with
  | Throw e => Throw e
  | Normal result =>
      match status_code result with
      | VNum c =>
          if PrimFloat.eqb c 0
          then Normal (QrSuccess (data_qr result) (generateMD5 (data_qr result)))
          else Normal (QrFailure (status_message result))
      | _ => Normal (QrFailure (status_message result))
      end
  end.

(** [generateIndividualQR] *)
Definition generateIndividualQR (now : float) (a : args) : completion qr_result :=
  let merchantCity := defaulted (merchantCity a) (VStr "Phnom Penh") in
  let amount := defaulted (amount a) (VNum 0) in
  let currency := defaulted (currency a) (VStr "USD") in
  let billNumber := defaulted (billNumber a) VNull in
  let mobileNumber := defaulted (mobileNumber a) VNull in
  let storeLabel := defaulted (storeLabel a) VNull in
  let terminalLabel := defaulted (terminalLabel a) VNull in
  let purposeOfTransaction := defaulted (purposeOfTransaction a) VNull in
  match validateRequiredFields (accountId a) (merchantName a) with
  | Throw e => Throw e
  | Normal validationError =>
  if JS.ToBoolean validationError then Normal (QrFailure validationError)
  else
    let resolvedCurrency := resolveCurrency currency in
    let optionalData :=
      set_if "purposeOfTransaction" purposeOfTransaction
        (set_if "terminalLabel" terminalLabel
           (set_if "storeLabel" storeLabel
              (set_if "mobileNumber" mobileNumber
                 (set_if "billNumber" billNumber
                    (amount_data now amount resolvedCurrency))))) in
    let individualInfo :=
      {| ind_accountId := accountId a;
         ind_merchantName := merchantName a;
         ind_merchantCity := merchantCity;
         ind_optional := spread [("currency", resolvedCurrency)] optionalData |} in
    finish (generateIndividual lib individualInfo)
  end.

(** [generateMerchantQR] *)
Definition generateMerchantQR (now : float) (a : args) : completion qr_result :=
  let merchantCity := defaulted (merchantCity a) (VStr "Phnom Penh") in
  let amount := defaulted (amount a) (VNum 0) in
  let currency := defaulted (currency a) (VStr "USD") in
  let billNumber := defaulted (billNumber a) VNull in
  let mobileNumber := defaulted (mobileNumber a) VNull in
  let storeLabel := defaulted (storeLabel a) VNull in
  let terminalLabel := defaulted (terminalLabel a) VNull in
  match validateRequiredFields (accountId a) (merchantName a) with
  | Throw e => Throw e
  | Normal validationError =>
  if JS.ToBoolean validationError then Normal (QrFailure validationError)
  else
    let resolvedCurrency := resolveCurrency currency in
    let optionalData :=
      set_if "terminalLabel" terminalLabel
        (set_if "storeLabel" storeLabel
           (set_if "mobileNumber" mobileNumber
              (set_if "billNumber" billNumber
                 (amount_data now amount resolvedCurrency)))) in
    let merchantInfo :=
      {| mer_accountId := accountId a;
         mer_merchantName := merchantName a;
         mer_merchantCity := merchantCity;
         mer_merchantId := merchantId a;
         mer_acquiringBank := acquiringBank a;
         mer_optional := spread [("currency", resolvedCurrency)] optionalData |} in
    finish (generateMerchant lib merchantInfo)
  end.

End Methods.

End KHQRService.

(* ===================================================================== *)
(** ** The clock *)
(* ===================================================================== *)

Module Clock.
Open Scope Z_scope.

(** [n] on [width] decimal digits, in front of [acc]. *)
Fixpoint digits (width : nat) (n : Z) (acc : string) : string :=
  match width with
  | O => acc
  | S width' =>
      digits width' (n / 10) (String (ascii_of_nat (48 + Z.to_nat (n mod 10))) acc)
  end.

(** Year, month and day of the proleptic Gregorian calendar for a number
    of days since 1970-01-01. *)
Definition civil (days : Z) : Z * Z * Z :=
  let z := days + 719468 in
  let era := z / 146097 in
  let doe := z - era * 146097 in
  let yoe := (doe - doe / 1460 + doe / 36524 - doe / 146096) / 365 in
  let doy := doe - (365 * yoe + yoe / 4 - yoe / 100) in
  let mp := (5 * doy + 2) / 153 in
  let d := doy - (153 * mp + 2) / 5 + 1 in
  let m := if mp <? 10 then mp + 3 else mp - 9 in
  let y := yoe + era * 400 + (if m <=? 2 then 1 else 0) in
  (y, m, d).

(** [new Date(ms).toISOString()] *)
Definition toISOString (ms : Z) : string :=
  let '(y, m, d) := civil (ms / 86400000) in
  let rem := ms mod 86400000 in
  let year :=
    if (0 <=? y) && (y <=? 9999) then digits 4 y ""
    else String (if y <? 0 then "-"%char else "+"%char) (digits 6 (Z.abs y) "") in
  year +:+ "-" +:+ digits 2 m "" +:+ "-" +:+ digits 2 d ""
  +:+ "T" +:+ digits 2 (rem / 3600000) ""
  +:+ ":" +:+ digits 2 (rem / 60000 mod 60) ""
  +:+ ":" +:+ digits 2 (rem / 1000 mod 60) ""
  +:+ "." +:+ digits 3 (rem mod 1000) "" +:+ "Z".

(** An integer as a Number; exact below 2^53. *)
Definition number (z : Z) : float :=
  if z <? 0 then (- PrimFloat.of_uint63 (Uint63.of_Z (- z)))%float
  else PrimFloat.of_uint63 (Uint63.of_Z z).

(** [Date.now()] *)
Definition now (ms : Z) : float := number ms.

End Clock.

(* ===================================================================== *)
(** ** server.js: the ledger and the route handlers *)
(* ===================================================================== *)

(** A payment record of the [payments] map.  A property that has not been
    assigned yet is [VUndefined]. *)
Module Payment.
Record t : Type := {
  billNumber : value;
  amount : float;
  currency : string;
  qrString : string;
  md5 : string;
  description : value;
  status : string;
  createdAt : string;
  deeplinkUrl : value;
  completedAt : value;
  transactionHash : value;
  fromAccount : value;
  manualSettledAt : value;
  lastProviderError : value
}.

(** The own properties, for [{ ...payment }]. *)
Definition props (p : t) : list (string * value) :=
  [ ("billNumber", billNumber p);
    ("amount", VNum (amount p));
    ("currency", VStr (currency p));
    ("qrString", VStr (qrString p));
    ("md5", VStr (md5 p));
    ("description", description p);
    ("status", VStr (status p));
    ("createdAt", VStr (createdAt p));
    ("deeplinkUrl", deeplinkUrl p) ]
  ++ List.filter (fun kv => negb (JS.is_undefined (snd kv)))
       [ ("completedAt", completedAt p);
         ("transactionHash", transactionHash p);
         ("fromAccount", fromAccount p);
         ("manualSettledAt", manualSettledAt p);
         ("lastProviderError", lastProviderError p) ].
End Payment.

(** The state of the server process: the [payments] map and what the
    process has done to the outside world. *)
Record world : Type := {
  payments : gmap string Payment.t;
  log : trace
}.

Definition initial_world : world := {| payments := ∅; log := [] |}.

(** The HTTP answer of a handler: the status code and the JSON body. *)
Record reply : Type := {
  http_status : Z;
  reply_body : value
}.

(** [req]: the parsed body, [req.protocol] and [req.get('host')]. *)
Record http_request : Type := {
  req_body : value;
  req_protocol : string;
  req_host : value
}.

Module Server.

(** [payments.get(k)]: the keys of the map are strings. *)
Definition ledger_get (m : gmap string Payment.t) (k : value) : option Payment.t :=
  match k with
  | VStr s => m !! s
  | _ => None
  end.

(** [payments.set(k, p)], reached only with the key under which
    [payments.get] found [p]. *)
Definition ledger_set (m : gmap string Payment.t) (k : value) (p : Payment.t)
    : gmap string Payment.t :=
  match k with
  | VStr s => <[ s := p ]> m
  | _ => m
  end.

(** [res.status(code).json({ success: false, error })] *)
Definition failure (code : Z) (error : value) : reply :=
  {| http_status := code;
     reply_body := VObj [("success", VBool false); ("error", error)] |}.

(** The [catch] block of a handler. *)
Definition caught (e : value) : reply := failure 500 (JS.get e "message").

(** What the two lookups of the check handler leave in [result],
    [status], [checkedBy] and [fallbackProvider]. *)
Record lookup : Type := {
  result : value;
  status : string;
  checkedBy : string;
  fallbackProvider : value
}.

Section Handlers.
Variable rt : Runtime.
Variable net : network.
Variable lib : KHQRLibrary.
Variable env : environment.
(** [QRCode.toDataURL] *)
Variable toDataURL : string -> completion string.

(** [const bakongAPI = new BakongAPIService(...)] *)
Definition bakongAPI : BakongAPIService.t :=
  BakongAPIService.new rt env (env !! "BAKONG_API_TOKEN") (env !! "BAKONG_API_BASE_URL").

Definition SUPPORTED_CURRENCIES : list string := ["USD"; "KHR"].

(** [normalizeOptionalText] *)
Definition normalizeOptionalText (v : value) : value :=
  match v with
  | VStr s =>
      let trimmedValue := Str.trim s in
      if String.eqb trimmedValue "" then VNull else VStr trimmedValue
  | _ => VNull
  end.

(** [appendWarning]: the template literal converts a truthy
    [existingWarning]. *)
Definition appendWarning (existingWarning : value) (nextWarning : string)
    : completion value :=
  if JS.ToBoolean existingWarning
  then match JS.ToString rt existingWarning with
       | Throw e => Throw e
       | Normal text => Normal (VStr (text +:+ " | " +:+ nextWarning))
       end
  else Normal (VStr nextWarning).

(** [shouldGenerateDeeplinkInBackground] *)
Definition shouldGenerateDeeplinkInBackground : bool :=
  negb (String.eqb (toLowerCase rt (env_or env "DEEPLINK_MODE" "async")) "sync").

(** [isDemoManualSettleEnabled] *)
Definition isDemoManualSettleEnabled : bool :=
  negb (String.eqb
          (toLowerCase rt (env_or env "DEMO_MANUAL_SETTLE_ENABLED" "true")) "false").

Definition dev_warning (warning : value) (text : string) : completion value :=
  if BakongAPIService.isUsingDevEnvironment bakongAPI
  then appendWarning warning text else Normal warning.

(** *** POST /api/payment/check *)

(** The answer for a record that was settled by hand. *)
Definition manual_reply (payment : Payment.t) : reply :=
  {| http_status := 200;
     reply_body :=
       VObj [ ("success", VBool true);
              ("status", VStr "completed");
              ("data",
                VObj [ ("hash", JS.or (Payment.transactionHash payment) VNull);
                       ("fromAccountId",
                         JS.or (Payment.fromAccount payment) (VStr "demo@manual"));
                       ("amount", VNum (Payment.amount payment));
                       ("currency", VStr (Payment.currency payment)) ]);
              ("deeplinkUrl", JS.or (Payment.deeplinkUrl payment) VNull);
              ("message", VStr "Payment marked as completed manually (demo mode)");
              ("errorCode", VNull);
              ("checkedBy", VStr "manual");
              ("provider", VNull);
              ("warning", VStr "Demo manual settle override is enabled.");
              ("manualSettleEnabled", VBool isDemoManualSettleEnabled) ] |}.

(** The condition that guards the short-hash lookup. *)
Definition wants_fallback (status : string) (payment : option Payment.t) : bool :=
  String.eqb status "pending"
  && match payment with
     | Some p => negb (String.eqb (Payment.qrString p) "")
     | None => false
     end
  && env_set env "BAKONG_API_TOKEN".

(** The short-hash lookup and the choice between its result and the
    primary one. *)
Definition fallback (payment : Payment.t) (primary : lookup) : IO lookup :=
  let shortHash := KHQRService.generateShortHash (Payment.qrString payment) in
  shortHashResult <-
    BakongAPIService.checkTransactionByShortHash rt net bakongAPI
      (VStr shortHash) (VNum (Payment.amount payment))
      (VStr (Payment.currency payment)) ;;
  match resolvePaymentStatus rt shortHashResult with
  | Throw e => io_throw e
  | Normal shortHashStatus =>
      let fallbackProvider :=
        VObj (("checkedBy", VStr "short_hash") :: getProviderSummary shortHashResult) in
      if String.eqb shortHashStatus "completed" || String.eqb shortHashStatus "failed"
      then io_ret {| result := shortHashResult; status := shortHashStatus;
                     checkedBy := "short_hash"; fallbackProvider := fallbackProvider |}
      else io_ret {| result := result primary; status := status primary;
                     checkedBy := checkedBy primary;
                     fallbackProvider := fallbackProvider |}
  end.

(** The primary lookup by md5, followed by the fallback when its guard
    holds. *)
Definition reconcile (payment : option Payment.t) (md5 : value) : IO lookup :=
  result <- BakongAPIService.checkTransactionByMD5 rt net bakongAPI md5 ;;
  match resolvePaymentStatus rt result with
  | Throw e => io_throw e
  | Normal status0 =>
      let primary :=
        {| result := result; status := status0;
           checkedBy := "md5"; fallbackProvider := VNull |} in
      match payment with
      | Some p => if wants_fallback (status primary) payment
                  then fallback p primary else io_ret primary
      | None => io_ret primary
      end
  end.

(** The update of the stored record; [now] is
    [new Date().toISOString()]. *)
Definition settle (now : string) (l : lookup) (payment : Payment.t) : option Payment.t :=
  if String.eqb (status l) "completed" then
    Some {| Payment.billNumber := Payment.billNumber payment;
            Payment.amount := Payment.amount payment;
            Payment.currency := Payment.currency payment;
            Payment.qrString := Payment.qrString payment;
            Payment.md5 := Payment.md5 payment;
            Payment.description := Payment.description payment;
            Payment.status := "completed";
            Payment.createdAt := Payment.createdAt payment;
            Payment.deeplinkUrl := Payment.deeplinkUrl payment;
            Payment.completedAt := VStr now;
            Payment.transactionHash :=
              JS.or (JS.opt_member (JS.get (result l) "data") "hash") VNull;
            Payment.fromAccount :=
              JS.or (JS.opt_member (JS.get (result l) "data") "fromAccountId") VNull;
            Payment.manualSettledAt := Payment.manualSettledAt payment;
            Payment.lastProviderError := Payment.lastProviderError payment |}
  else if String.eqb (status l) "failed" then
    Some {| Payment.billNumber := Payment.billNumber payment;
            Payment.amount := Payment.amount payment;
            Payment.currency := Payment.currency payment;
            Payment.qrString := Payment.qrString payment;
            Payment.md5 := Payment.md5 payment;
            Payment.description := Payment.description payment;
            Payment.status := "failed";
            Payment.createdAt := Payment.createdAt payment;
            Payment.deeplinkUrl := Payment.deeplinkUrl payment;
            Payment.completedAt := Payment.completedAt payment;
            Payment.transactionHash := Payment.transactionHash payment;
            Payment.fromAccount := Payment.fromAccount payment;
            Payment.manualSettledAt := Payment.manualSettledAt payment;
            Payment.lastProviderError := Payment.lastProviderError payment |}
  else if String.eqb (status l) "error" then
    Some {| Payment.billNumber := Payment.billNumber payment;
            Payment.amount := Payment.amount payment;
            Payment.currency := Payment.currency payment;
            Payment.qrString := Payment.qrString payment;
            Payment.md5 := Payment.md5 payment;
            Payment.description := Payment.description payment;
            Payment.status := Payment.status payment;
            Payment.createdAt := Payment.createdAt payment;
            Payment.deeplinkUrl := Payment.deeplinkUrl payment;
            Payment.completedAt := Payment.completedAt payment;
            Payment.transactionHash := Payment.transactionHash payment;
            Payment.fromAccount := Payment.fromAccount payment;
            Payment.manualSettledAt := Payment.manualSettledAt payment;
            Payment.lastProviderError :=
              VObj (("checkedAt", VStr now)
                    :: ("checkedBy", VStr (checkedBy l))
                    :: getProviderSummary (result l)) |}
  else None.

(** The ledger after the update. *)
Definition settled (now : string) (l : lookup) (md5 : value)
    (m : gmap string Payment.t) : gmap string Payment.t :=
  match ledger_get m md5 with
  | Some payment =>
      match settle now l payment with
      | Some payment' => ledger_set m md5 payment'
      | None => m
      end
  | None => m
  end.

(** The warnings of the check handler. *)
Definition check_warning (status : string) : completion value :=
  match dev_warning VNull
          "Using Bakong DEV API base URL. Live payments may remain pending." with
  | Throw e => Throw e
  | Normal warning =>
      if String.eqb status "error"
      then appendWarning warning
             "Provider status lookup failed. Please verify API base URL/token and retry."
      else Normal warning
  end.

(** The warnings and the final [res.json({...})]; reading [result.data]
    throws when the provider answered [null]. *)
Definition check_reply (payment : option Payment.t) (l : lookup) : reply :=
  match check_warning (status l) with
  | Throw e => caught e
  | Normal warning =>
      match JS.member (result l) "data" with
      | Throw e => caught e
      | Normal data =>
          {| http_status := 200;
             reply_body :=
               VObj [ ("success", VBool (String.eqb (status l) "completed"));
                      ("status", VStr (status l));
                      ("data", data);
                      ("deeplinkUrl",
                        JS.or (match payment with
                               | Some p => Payment.deeplinkUrl p
                               | None => VUndefined
                               end) VNull);
                      ("message", buildStatusMessage (status l) (result l));
                      ("errorCode", JS.get (result l) "errorCode");
                      ("checkedBy", VStr (checkedBy l));
                      ("provider",
                        VObj (("checkedBy", VStr (checkedBy l))
                              :: getProviderSummary (result l)
                              ++ [("fallback", fallbackProvider l)]));
                      ("warning", warning);
                      ("manualSettleEnabled", VBool isDemoManualSettleEnabled) ] |}
      end
  end.

(** The handler; [now] is the clock reading of [new Date()]. *)
Definition check (req : http_request) (now : string) (w : world) : reply * world :=
  match JS.member (req_body req) "md5" with
  | Throw e => (caught e, w)
  | Normal md5 =>
      if negb (JS.ToBoolean md5)
      then (failure 400 (VStr "MD5 hash is required"), w)
      else
        let payment := ledger_get (payments w) md5 in
        match payment with
        | Some p =>
            if JS.ToBoolean (Payment.manualSettledAt p) then (manual_reply p, w)
            else
              match reconcile payment md5 (log w) with
              | (Throw e, tr) => (caught e, {| payments := payments w; log := tr |})
              | (Normal l, tr) =>
                  (check_reply (ledger_get (settled now l md5 (payments w)) md5) l,
                   {| payments := settled now l md5 (payments w); log := tr |})
              end
        | None =>
            match reconcile payment md5 (log w) with
            | (Throw e, tr) => (caught e, {| payments := payments w; log := tr |})
            | (Normal l, tr) =>
                (check_reply None l, {| payments := payments w; log := tr |})
            end
        end
  end.

(** *** POST /api/payment/mark-paid *)

(** The record after the manual settlement; [completedAt] is
    [new Date().toISOString()] and [now] is [Date.now()]. *)
Definition mark (completedAt : string) (now : float)
    (fromAccountId transactionHash : value) (payment : Payment.t) : Payment.t :=
  {| Payment.billNumber := Payment.billNumber payment;
     Payment.amount := Payment.amount payment;
     Payment.currency := Payment.currency payment;
     Payment.qrString := Payment.qrString payment;
     Payment.md5 := Payment.md5 payment;
     Payment.description := Payment.description payment;
     Payment.status := "completed";
     Payment.createdAt := Payment.createdAt payment;
     Payment.deeplinkUrl := Payment.deeplinkUrl payment;
     Payment.completedAt := VStr completedAt;
     Payment.transactionHash :=
       JS.or (normalizeOptionalText transactionHash)
             (VStr ("manual-" +:+ NumberToString rt now));
     Payment.fromAccount :=
       JS.or (normalizeOptionalText fromAccountId) (VStr "demo@manual");
     Payment.manualSettledAt := VStr completedAt;
     Payment.lastProviderError := Payment.lastProviderError payment |}.

Definition markPaid (req : http_request) (completedAt : string) (now : float)
    (w : world) : reply * world :=
  if negb isDemoManualSettleEnabled
  then (failure 403 (VStr "Manual settle mode is disabled"), w)
  else
    let body := JS.or (req_body req) (VObj []) in
    let md5 := JS.get body "md5" in
    let fromAccountId := JS.get body "fromAccountId" in
    let transactionHash := JS.get body "transactionHash" in
    if negb (JS.ToBoolean md5)
    then (failure 400 (VStr "MD5 hash is required"), w)
    else
      match ledger_get (payments w) md5 with
      | None => (failure 404 (VStr "Payment not found"), w)
      | Some payment =>
          let payment' := mark completedAt now fromAccountId transactionHash payment in
          ({| http_status := 200;
              reply_body :=
                VObj [ ("success", VBool true);
                       ("status", VStr "completed");
                       ("message",
                         VStr "Payment marked as completed manually (demo mode)");
                       ("data",
                         VObj (KHQRService.spread [("md5", md5)]
                                 (Payment.props payment')));
                       ("manualSettleEnabled", VBool true) ] |},
           {| payments := ledger_set (payments w) md5 payment'; log := log w |})
      end.

(** *** POST /api/khqr/generate *)

Definition env_value (x : string) : value :=
  match env !! x with
  | Some s => VStr s
  | None => VUndefined
  end.

(** [req.get('host')] is a header: a string, or [undefined]. *)
Definition sourceInfo (req : http_request) : value :=
  VObj [ ("appIconUrl", VStr "https://bakong.nbc.org.kh/images/logo.svg");
         ("appName", env_value "MERCHANT_NAME");
         ("appDeepLinkCallback",
           VStr (req_protocol req +:+ "://" +:+ JS.StringOf rt (req_host req)
                 +:+ "/payment/callback")) ].

(** [deeplink.data?.shortLink || null] *)
Definition shortLink_of (deeplink : value) : completion value :=
  match JS.member deeplink "data" with
  | Throw e => Throw e
  | Normal data => Normal (JS.or (JS.opt_member data "shortLink") VNull)
  end.

(** The deeplink and the warning of the generate handler, before the
    record is stored. *)
Definition prepare_deeplink (req : http_request) (qrString : string)
    : IO (value * value) :=
  if env_set env "BAKONG_API_TOKEN" then
    if shouldGenerateDeeplinkInBackground then
      match appendWarning VNull
              "Deeplink is being prepared in background. QR scan payment works immediately." with
      | Throw e => io_throw e
      | Normal warning => io_ret (VNull, warning)
      end
    else
      deeplink <-
        BakongAPIService.generateDeeplink rt net bakongAPI (VStr qrString)
          (sourceInfo req) ;;
      match shortLink_of deeplink with
      | Throw e => io_throw e
      | Normal deeplinkUrl =>
          if negb (JS.ToBoolean deeplinkUrl)
             && JS.is_not_zero (JS.get deeplink "responseCode")
          then io_ret (deeplinkUrl,
                       JS.or (JS.get deeplink "responseMessage")
                             (VStr "Unable to generate deeplink"))
          else io_ret (deeplinkUrl, VNull)
      end
  else
    io_ret (VNull, VStr "BAKONG_API_TOKEN is not configured, deeplink is unavailable").

(** The arguments passed to [generateIndividualQR]. *)
Definition qr_args (parsedAmount : float) (resolvedCurrency : string)
    (finalBillNumber resolvedStoreLabel purposeOfTransaction : value)
    : KHQRService.args :=
  {| KHQRService.accountId := env_value "BAKONG_ACCOUNT_ID";
     KHQRService.merchantName := env_value "MERCHANT_NAME";
     KHQRService.merchantId := VUndefined;
     KHQRService.acquiringBank := VUndefined;
     KHQRService.merchantCity := VStr (env_or env "MERCHANT_CITY" "Phnom Penh");
     KHQRService.amount := VNum parsedAmount;
     KHQRService.currency := VStr resolvedCurrency;
     KHQRService.billNumber := finalBillNumber;
     KHQRService.mobileNumber := env_value "MERCHANT_PHONE";
     KHQRService.storeLabel := resolvedStoreLabel;
     KHQRService.terminalLabel := VUndefined;
     KHQRService.purposeOfTransaction := purposeOfTransaction |}.

(** What starting the background task adds to the log: the first
    request of [generateDeeplink], when there is a token and the deeplink
    is not generated before the reply. *)
Definition background_start (req : http_request) (qrString : string) : trace :=
  if env_set env "BAKONG_API_TOKEN" && shouldGenerateDeeplinkInBackground
  then [EvFetch (BakongAPIService.generateDeeplink_request rt bakongAPI
                   (VStr qrString) (sourceInfo req))]
  else [].

(** The handler.  [now_bill] and [now_qr] are the readings of
    [Date.now()] for the bill number and for the expiry of the QR,
    [createdAt] is [new Date().toISOString()].  When the deeplink is
    prepared in the background, the task that the handler starts has
    called [fetch] by the time the handler replies: that request is in the
    log of the handler, and the rest of the task is the separate operation
    [background_deeplink]. *)
Definition generate (req : http_request) (now_bill now_qr : float)
    (createdAt : string) (w : world) : reply * world :=
  match JS.member (req_body req) "amount" with
  | Throw e => (caught e, w)
  | Normal amount =>
      let currency := KHQRService.defaulted (JS.get (req_body req) "currency") (VStr "USD") in
      let billNumber := JS.get (req_body req) "billNumber" in
      let description := JS.get (req_body req) "description" in
      let storeLabel := JS.get (req_body req) "storeLabel" in
      match JS.ToString rt amount with
      | Throw e => (caught e, w)
      | Normal amountText =>
      let parsedAmount := parseFloat rt amountText in
      if negb (PrimFloat.is_finite parsedAmount) || PrimFloat.leb parsedAmount 0
      then (failure 400 (VStr "Amount is required and must be greater than 0"), w)
      else
        match JS.ToString rt currency with
        | Throw e => (caught e, w)
        | Normal currencyText =>
        let resolvedCurrency := toUpperCase rt currencyText in
        if negb (existsb (String.eqb resolvedCurrency) SUPPORTED_CURRENCIES)
        then (failure 400 (VStr "Currency must be either USD or KHR"), w)
        else if negb (env_set env "BAKONG_ACCOUNT_ID") || negb (env_set env "MERCHANT_NAME")
        then (failure 500 (VStr "Server is missing required Bakong configuration"), w)
        else
          let finalBillNumber :=
            JS.or (normalizeOptionalText billNumber)
                  (VStr ("INV-" +:+ NumberToString rt now_bill)) in
          let purposeOfTransaction := normalizeOptionalText description in
          let resolvedStoreLabel :=
            JS.or (normalizeOptionalText storeLabel) (env_value "MERCHANT_NAME") in
          match KHQRService.generateIndividualQR rt lib now_qr
                  (qr_args parsedAmount resolvedCurrency finalBillNumber
                     resolvedStoreLabel purposeOfTransaction) with
          | Throw e => (caught e, w)
          | Normal (QrFailure error) => (failure 500 error, w)
          | Normal (QrSuccess qrString md5) =>
              match toDataURL qrString with
              | Throw e => (caught e, w)
              | Normal qrCodeDataURL =>
                  match prepare_deeplink req qrString (log w) with
                  | (Throw e, tr) => (caught e, {| payments := payments w; log := tr |})
                  | (Normal (deeplinkUrl, warning0), tr) =>
                      match dev_warning warning0
                              "Using Bakong DEV API base URL. Live payments may not reflect in status checks." with
                      | Throw e => (caught e, {| payments := payments w; log := tr |})
                      | Normal warning =>
                      let paymentInfo :=
                        {| Payment.billNumber := finalBillNumber;
                           Payment.amount := parsedAmount;
                           Payment.currency := resolvedCurrency;
                           Payment.qrString := qrString;
                           Payment.md5 := md5;
                           Payment.description := purposeOfTransaction;
                           Payment.status := "pending";
                           Payment.createdAt := createdAt;
                           Payment.deeplinkUrl := deeplinkUrl;
                           Payment.completedAt := VUndefined;
                           Payment.transactionHash := VUndefined;
                           Payment.fromAccount := VUndefined;
                           Payment.manualSettledAt := VUndefined;
                           Payment.lastProviderError := VUndefined |} in
                      ({| http_status := 200;
                          reply_body :=
                            VObj ([ ("success", VBool true);
                                    ("data",
                                      VObj [ ("billNumber", finalBillNumber);
                                             ("qrString", VStr qrString);
                                             ("qrCodeImage", VStr qrCodeDataURL);
                                             ("md5", VStr md5);
                                             ("deeplinkUrl", deeplinkUrl);
                                             ("amount", VNum parsedAmount);
                                             ("currency", VStr resolvedCurrency);
                                             ("manualSettleEnabled",
                                               VBool isDemoManualSettleEnabled) ]) ]
                                  ++ (if JS.ToBoolean warning
                                      then [("warning", warning)] else [])) |},
                       {| payments := <[ md5 := paymentInfo ]> (payments w);
                          log := tr ++ background_start req qrString |})
                      end
                  end
              end
          end
        end
      end
  end.

(** The record with its deeplink filled in. *)
Definition with_deeplink (shortLink : value) (payment : Payment.t) : Payment.t :=
  {| Payment.billNumber := Payment.billNumber payment;
     Payment.amount := Payment.amount payment;
     Payment.currency := Payment.currency payment;
     Payment.qrString := Payment.qrString payment;
     Payment.md5 := Payment.md5 payment;
     Payment.description := Payment.description payment;
     Payment.status := Payment.status payment;
     Payment.createdAt := Payment.createdAt payment;
     Payment.deeplinkUrl := shortLink;
     Payment.completedAt := Payment.completedAt payment;
     Payment.transactionHash := Payment.transactionHash payment;
     Payment.fromAccount := Payment.fromAccount payment;
     Payment.manualSettledAt := Payment.manualSettledAt payment;
     Payment.lastProviderError := Payment.lastProviderError payment |}.

(** The rest of the task that the generate handler leaves running when
    the deeplink is prepared in the background, from the point where its
    request has settled; [started] is the trace up to and with that
    request, so that [net started] is the outcome.  The task completes the
    record stored under [md5], if there still is one.  An exception is
    logged and dropped. *)
Definition background_deeplink (req : http_request) (qrString md5 : string)
    (started : trace) (w : world) : world :=
  match BakongAPIService.generateDeeplink_settled rt net bakongAPI (VStr qrString)
          (sourceInfo req) (net started) (log w) with
  | (Throw _, tr) => {| payments := payments w; log := tr |}
  | (Normal deeplink, tr) =>
      match shortLink_of deeplink with
      | Throw _ => {| payments := payments w; log := tr |}
      | Normal shortLink =>
          if negb (JS.ToBoolean shortLink)
          then {| payments := payments w; log := tr |}
          else
            match payments w !! md5 with
            | None => {| payments := payments w; log := tr |}
            | Some currentPayment =>
                {| payments := <[ md5 := with_deeplink shortLink currentPayment ]> (payments w);
                   log := tr |}
            end
      end
  end.

(** *** GET /api/payment-md5/:md5 *)

(** [{ md5, ...payment }] *)
Definition with_md5 (md5 : string) (payment : Payment.t) : value :=
  VObj (KHQRService.spread [("md5", VStr md5)] (Payment.props payment)).

Definition getPaymentByMd5 (md5 : string) (w : world) : reply :=
  match payments w !! md5 with
  | None => failure 404 (VStr "Payment not found")
  | Some payment =>
      {| http_status := 200;
         reply_body := VObj [("success", VBool true); ("data", with_md5 md5 payment)] |}
  end.

(** *** GET /api/payment/:billNumber *)

(** The loop over [payments.entries()], which are visited in the order in
    which their keys were first inserted; [entries] is that sequence. *)
Fixpoint find_by_bill (billNumber : string) (entries : list (string * Payment.t)) : value :=
  match entries with
  | [] => VNull
  | (md5, paymentData) :: rest =>
      if JS.is_string (Payment.billNumber paymentData) billNumber
      then with_md5 md5 paymentData
      else find_by_bill billNumber rest
  end.

Definition getPaymentByBillNumber (entries : list (string * Payment.t))
    (billNumber : string) : reply :=
  let payment := find_by_bill billNumber entries in
  if negb (JS.ToBoolean payment) then failure 404 (VStr "Payment not found")
  else {| http_status := 200;
          reply_body := VObj [("success", VBool true); ("data", payment)] |}.

(** *** GET /api/payments *)

Definition listPayments (entries : list (string * Payment.t)) : reply :=
  {| http_status := 200;
     reply_body :=
       VObj [ ("success", VBool true);
              ("data", VArr (List.map (fun e => with_md5 (fst e) (snd e)) entries)) ] |}.

(** *** POST /api/account/check *)

Definition accountCheck (req : http_request) (tr : trace) : reply * trace :=
  match JS.member (req_body req) "accountId" with
  | Throw e => (caught e, tr)
  | Normal accountId =>
      if negb (JS.ToBoolean accountId)
      then (failure 400 (VStr "Account ID is required"), tr)
      else
        match BakongAPIService.checkBakongAccount rt net bakongAPI accountId tr with
        | (Throw e, tr') => (caught e, tr')
        | (Normal result, tr') =>
            match JS.member result "responseCode" with
            | Throw e => (caught e, tr')
            | Normal responseCode =>
                ({| http_status := 200;
                    reply_body :=
                      VObj [ ("success", VBool (negb (JS.is_not_zero responseCode)));
                             ("exists", VBool (negb (JS.is_not_zero responseCode)));
                             ("message", JS.get result "responseMessage");
                             ("errorCode", JS.get result "errorCode") ] |},
                 tr')
            end
        end
  end.

(** *** The server as a transition system *)

(** One request served, or one background task run.  Each [t] is a
    reading of the clock, in milliseconds since the epoch, made by
    [Date.now()] or [new Date()].  The deeplink task continues from the
    point where its request, the last event of [started], has settled. *)
Inductive operation : Type :=
| OpGenerate (req : http_request) (t_bill t_qr t_created : Z)
| OpDeeplink (req : http_request) (qrString md5 : string) (started : trace)
| OpCheck (req : http_request) (t : Z)
| OpMarkPaid (req : http_request) (t_completed t_hash : Z).

Definition serve (o : operation) (w : world) : option reply * world :=
  match o with
  | OpGenerate req t_bill t_qr t_created =>
      let '(r, w') :=
        generate req (Clock.now t_bill) (Clock.now t_qr) (Clock.toISOString t_created) w in
      (Some r, w')
  | OpDeeplink req qrString md5 started =>
      (None, background_deeplink req qrString md5 started w)
  | OpCheck req t =>
      let '(r, w') := check req (Clock.toISOString t) w in (Some r, w')
  | OpMarkPaid req t_completed t_hash =>
      let '(r, w') :=
        markPaid req (Clock.toISOString t_completed) (Clock.now t_hash) w in
      (Some r, w')
  end.

Definition step (o : operation) (w : world) : world := snd (serve o w).

(** The operations that update a record already stored. *)
Definition is_update (o : operation) : bool :=
  match o with
  | OpGenerate _ _ _ _ => false
  | OpDeeplink _ _ _ _ | OpCheck _ _ | OpMarkPaid _ _ _ => true
  end.

Definition run (ops : list operation) (w : world) : world :=
  fold_left (fun w o => step o w) ops w.

(** The states the server can be in. *)
Inductive reachable : world -> Prop :=
| reachable_initial : reachable initial_world
| reachable_step o w : reachable w -> reachable (step o w).

End Handlers.

End Server.

(* ===================================================================== *)
(** ** Notions used to state further properties *)
(* ===================================================================== *)

Module Inv.

(** The status of a record agrees with its settlement fields. *)
Definition consistent (p : Payment.t) : Prop :=
  In (Payment.status p) ["pending"; "completed"; "failed"]
  /\ (Payment.status p = "completed" -> JS.ToBoolean (Payment.completedAt p) = true)
  /\ (JS.ToBoolean (Payment.manualSettledAt p) = true ->
      JS.ToBoolean (Payment.completedAt p) = true)
  /\ (Payment.status p = "pending" ->
      Payment.completedAt p = VUndefined
      /\ Payment.transactionHash p = VUndefined
      /\ Payment.fromAccount p = VUndefined
      /\ Payment.manualSettledAt p = VUndefined).

(** A text that is not empty. *)
Definition text (v : value) : Prop := exists s, v = VStr s /\ s <> "".

(** The data of a record is what the generate handler validated. *)
Definition validated (p : Payment.t) : Prop :=
  In (Payment.currency p) ["USD"; "KHR"]
  /\ PrimFloat.is_finite (Payment.amount p) = true
  /\ PrimFloat.leb (Payment.amount p) 0 = false
  /\ text (Payment.billNumber p)
  /\ (Payment.description p = VNull \/ text (Payment.description p))
  /\ Payment.createdAt p <> "".

(** [entries] lists the records of the map [m], each key once. *)
Definition enumerates (entries : list (string * Payment.t)) (m : gmap string Payment.t)
    : Prop :=
  NoDup (List.map fst entries)
  /\ forall k p, In (k, p) entries <-> m !! k = Some p.

(** A value that is blank for [validateRequiredFields]. *)
Definition blank (rt : Runtime) (v : value) : Prop :=
  JS.ToBoolean v = false \/ Str.trim (JS.StringOf rt v) = "".

(** The string ends with a slash. *)
Definition ends_with_slash (s : string) : Prop := exists r, s = r +:+ "/".

(** [n] slashes. *)
Fixpoint slashes (n : nat) : string :=
  match n with
  | O => ""
  | S n' => String "/" (slashes n')
  end.

(** The argument of [new IndividualInfo(...)] that [generateIndividualQR]
    builds once the required fields are validated. *)
Definition individualInfo (rt : Runtime) (lib : KHQRLibrary) (now : float)
    (a : KHQRService.args) : IndividualInfo :=
  let resolvedCurrency :=
    KHQRService.resolveCurrency lib
      (KHQRService.defaulted (KHQRService.currency a) (VStr "USD")) in
  {| ind_accountId := KHQRService.accountId a;
     ind_merchantName := KHQRService.merchantName a;
     ind_merchantCity :=
       KHQRService.defaulted (KHQRService.merchantCity a) (VStr "Phnom Penh");
     ind_optional :=
       KHQRService.spread [("currency", resolvedCurrency)]
         (KHQRService.set_if "purposeOfTransaction"
            (KHQRService.defaulted (KHQRService.purposeOfTransaction a) VNull)
            (KHQRService.set_if "terminalLabel"
               (KHQRService.defaulted (KHQRService.terminalLabel a) VNull)
               (KHQRService.set_if "storeLabel"
                  (KHQRService.defaulted (KHQRService.storeLabel a) VNull)
                  (KHQRService.set_if "mobileNumber"
                     (KHQRService.defaulted (KHQRService.mobileNumber a) VNull)
                     (KHQRService.set_if "billNumber"
                        (KHQRService.defaulted (KHQRService.billNumber a) VNull)
                        (KHQRService.amount_data rt now
                           (KHQRService.defaulted (KHQRService.amount a) (VNum 0))
                           resolvedCurrency)))))) |}.

(** The argument of [new MerchantInfo(...)] that [generateMerchantQR]
    builds once the required fields are validated. *)
Definition merchantInfo (rt : Runtime) (lib : KHQRLibrary) (now : float)
    (a : KHQRService.args) : MerchantInfo :=
  let resolvedCurrency :=
    KHQRService.resolveCurrency lib
      (KHQRService.defaulted (KHQRService.currency a) (VStr "USD")) in
  {| mer_accountId := KHQRService.accountId a;
     mer_merchantName := KHQRService.merchantName a;
     mer_merchantCity :=
       KHQRService.defaulted (KHQRService.merchantCity a) (VStr "Phnom Penh");
     mer_merchantId := KHQRService.merchantId a;
     mer_acquiringBank := KHQRService.acquiringBank a;
     mer_optional :=
       KHQRService.spread [("currency", resolvedCurrency)]
         (KHQRService.set_if "terminalLabel"
            (KHQRService.defaulted (KHQRService.terminalLabel a) VNull)
            (KHQRService.set_if "storeLabel"
               (KHQRService.defaulted (KHQRService.storeLabel a) VNull)
               (KHQRService.set_if "mobileNumber"
                  (KHQRService.defaulted (KHQRService.mobileNumber a) VNull)
                  (KHQRService.set_if "billNumber"
                     (KHQRService.defaulted (KHQRService.billNumber a) VNull)
                     (KHQRService.amount_data rt now
                        (KHQRService.defaulted (KHQRService.amount a) (VNum 0))
                        resolvedCurrency))))) |}.

End Inv.

(* ===================================================================== *)
(** ** The claims in the words of the specification *)
(* ===================================================================== *)

Module Spec.

(** The four states of the status enumeration. *)
Definition statuses : list string := ["pending"; "completed"; "failed"; "error"].

(** Two texts are equal up to the case of their letters. *)
Definition same_text_ci (a b : string) : Prop :=
  List.map Str.canonicalize (list_ascii_of_string a)
  = List.map Str.canonicalize (list_ascii_of_string b).

(** [phrase] occurs in [m], case-insensitively. *)
Definition occurs_ci (phrase m : string) : Prop :=
  exists pre mid post, m = pre +:+ mid +:+ post /\ same_text_ci mid phrase.

(** The message matches a pending-like pattern: it is a string in which
    one of "not found", "not yet", "pending", "processing", "wait"
    occurs, case-insensitively. *)
Definition pending_like (message : value) : Prop :=
  exists m phrase,
    message = VStr m
    /\ In phrase ["not found"; "not yet"; "pending"; "processing"; "wait"]
    /\ occurs_ci phrase m.

(** A provider result object, as opposed to a primitive or [null]. *)
Definition is_result_object (result : value) : Prop :=
  match result with
  | VObj _ | VArr _ => True
  | _ => False
  end.

(** The outcome of the attempt number [n] (counted from 0) of a request
    that is repeated after a pause of [delay] as long as every attempt
    returns: the first attempt is made at once, each later one follows a
    sleep. *)
Fixpoint nth_attempt (attempt : IO value) (delay : integral) (n : nat)
    (tr : trace) : completion value * trace :=
  match n with
  | O => attempt tr
  | S n' =>
      match nth_attempt attempt delay n' tr with
      | (Normal _, tr') => attempt (tr' ++ [EvSleep delay])
      | (Throw e, tr') => (Throw e, tr')
      end
  end.

(** The attempt returned a result that [isRetryable] accepts. *)
Definition retryable_outcome (rt : Runtime) (o : completion value * trace) : Prop :=
  match fst o with
  | Normal v => BakongAPIService.isRetryable rt v = Normal true
  | Throw _ => False
  end.

(** What the retry loop makes of an attempt: its outcome, or the
    exception that [isRetryable] throws on its result. *)
Definition judged (rt : Runtime) (o : completion value * trace)
    : completion value * trace :=
  match o with
  | (Normal v, tr) =>
      match BakongAPIService.isRetryable rt v with
      | Throw e => (Throw e, tr)
      | Normal _ => (Normal v, tr)
      end
  | (Throw e, tr) => (Throw e, tr)
  end.

(** 32 lower-case hexadecimal digits, as the smoke test of the repository
    expects of an md5: [/^[a-f0-9]{32}$/]. *)
Definition lowercase_hex32 (s : string) : Prop :=
  String.length s = 32%nat
  /\ Forall (fun c => In c (list_ascii_of_string "0123456789abcdef"))
       (list_ascii_of_string s).

(** The ledger is keyed by the MD5 of the QR payload of each record. *)
Definition keyed_by_content_hash (m : gmap string Payment.t) : Prop :=
  forall k p, m !! k = Some p ->
    k = KHQRService.generateMD5 (Payment.qrString p) /\ Payment.md5 p = k.

(** What an update of a stored record may do to it: the QR payload and
    its hash stay; the status stays or becomes 'completed' or 'failed'; a
    manual settlement is not undone. *)
Definition evolves (p p' : Payment.t) : Prop :=
  Payment.qrString p' = Payment.qrString p
  /\ Payment.md5 p' = Payment.md5 p
  /\ (Payment.status p' = Payment.status p
      \/ Payment.status p' = "completed"
      \/ Payment.status p' = "failed")
  /\ (JS.ToBoolean (Payment.manualSettledAt p) = true ->
      JS.ToBoolean (Payment.manualSettledAt p') = true).



(** [p'] is [p] but for the field [lastProviderError]. *)
Definition same_but_lastProviderError (p p' : Payment.t) : Prop :=
  Payment.billNumber p' = Payment.billNumber p
  /\ Payment.amount p' = Payment.amount p
  /\ Payment.currency p' = Payment.currency p
  /\ Payment.qrString p' = Payment.qrString p
  /\ Payment.md5 p' = Payment.md5 p
  /\ Payment.description p' = Payment.description p
  /\ Payment.status p' = Payment.status p
  /\ Payment.createdAt p' = Payment.createdAt p
  /\ Payment.deeplinkUrl p' = Payment.deeplinkUrl p
  /\ Payment.completedAt p' = Payment.completedAt p
  /\ Payment.transactionHash p' = Payment.transactionHash p
  /\ Payment.fromAccount p' = Payment.fromAccount p
  /\ Payment.manualSettledAt p' = Payment.manualSettledAt p.

End Spec.

(* ===================================================================== *)
(** ** A runtime and a world to evaluate the model on *)
(* ===================================================================== *)

(** A runtime for ASCII text and integer Numbers: enough of the host to
    run the model on the inputs of the examples below. *)
Module IntegerRuntime.
Open Scope Z_scope.

Definition digit (c : ascii) : option Z :=
  let n := Z.of_nat (nat_of_ascii c) in
  if (48 <=? n) && (n <=? 57) then Some (n - 48) else None.

(** The value of the longest prefix of decimal digits, and whether there
    was a digit and whether the whole string was consumed. *)
Fixpoint leading_digits (s : string) (acc : Z) (seen : bool) : Z * bool * bool :=
  match s with
  | EmptyString => (acc, seen, true)
  | String c s' =>
      match digit c with
      | Some d => leading_digits s' (10 * acc + d) true
      | None => (acc, seen, false)
      end
  end.

Definition signed (s : string) : Z * bool * bool :=
  match s with
  | String "-" s' => let '(z, seen, all) := leading_digits s' 0 false in (- z, seen, all)
  | String "+" s' => leading_digits s' 0 false
  | _ => leading_digits s 0 false
  end.

Definition integer_of (x : float) : option Z :=
  match Prim2SF x with
  | S754_zero _ => Some 0
  | S754_finite s m e =>
      let v := if 0 <=? e then Z.pos m * 2 ^ e else Z.pos m / 2 ^ (- e) in
      if (0 <=? e) || (Z.pos m mod 2 ^ (- e) =? 0)
      then Some (if s then - v else v) else None
  | _ => None
  end.

Definition lower (c : ascii) : ascii :=
  let n := nat_of_ascii c in
  if (65 <=? n)%nat && (n <=? 90)%nat then ascii_of_nat (n + 32) else c.

Fixpoint map_string (f : ascii -> ascii) (s : string) : string :=
  match s with
  | EmptyString => EmptyString
  | String c s' => String (f c) (map_string f s')
  end.

Definition runtime : Runtime :=
  {| StringToNumber := fun s =>
       let t := Str.trim s in
       if String.eqb t "" then 0%float
       else match signed t with
            | (z, true, true) => Clock.number z
            | _ => nan
            end;
     NumberToString := fun x =>
       match integer_of x with
       | Some z => pretty z
       | None => "NaN"
       end;
     parseInt10 := fun s =>
       match signed (Str.strip true s) with
       | (z, true, _) => Int z
       | _ => NaN
       end;
     IntegerToString := pretty;
     parseFloat := fun s =>
       match signed (Str.strip true s) with
       | (z, true, _) => Clock.number z
       | _ => nan
       end;
     toLowerCase := map_string lower;
     toUpperCase := map_string Str.canonicalize |}.

End IntegerRuntime.

(** A shop with an API token, a KHQR library that answers with a fixed
    payload, and some networks. *)
Module Demo.

Definition rt : Runtime := IntegerRuntime.runtime.

Definition env : environment :=
  {[ "BAKONG_API_TOKEN" := "secret-token";
     "BAKONG_ACCOUNT_ID" := "shop@bank";
     "MERCHANT_NAME" := "Demo Shop" ]}.

Definition qr : string := "00020101021229180014shop@bank5204599953038405802KH5909Demo Shop6010Phnom Penh6304ABCD".

Definition lib : KHQRLibrary :=
  {| generateIndividual := fun _ =>
       Normal {| status_code := VNum 0; status_message := VStr "";
                 data_qr := qr |};
     generateMerchant := fun _ =>
       Normal {| status_code := VNum 0; status_message := VStr "";
                 data_qr := qr |};
     currency_khr := VNum 116;
     currency_usd := VNum 840 |}.

Definition toDataURL (s : string) : completion string :=
  Normal ("data:image/png;base64," +:+ s).

Definition answer (body : value) : fetch_outcome :=
  Resolved {| ok := true; status := 200; json := Some body |}.

(** The provider reports error code 3: the transaction failed. *)
Definition net_failed : network := fun _ =>
  answer (VObj [ ("responseCode", VNum 1); ("errorCode", VNum 3);
                 ("responseMessage", VStr "Transaction failed"); ("data", VNull) ]).

(** The provider reports success. *)
Definition net_paid : network := fun _ =>
  answer (VObj [ ("responseCode", VNum 0); ("errorCode", VNull);
                 ("responseMessage", VStr "Success");
                 ("data", VObj [ ("hash", VStr "8a7b6c5d");
                                 ("fromAccountId", VStr "payer@bank") ]) ]).

(** The provider reports success for the first status lookup it receives
    and a failure for every later one. *)
Definition net_paid_then_failed : network := fun tr =>
  if (length (List.filter
                (fun ev => match ev with
                           | EvFetch r => Str.includes "/v1/check_transaction" (url r)
                           | EvSleep _ => false
                           end) tr) <=? 1)%nat
  then net_paid tr else net_failed tr.

(** The provider cannot be reached: every request is aborted. *)
Definition net_down : network := fun _ =>
  Rejected {| name := VStr "AbortError"; code := VUndefined;
              message := VStr "The user aborted a request." |}.

(** The provider answers every request with a null responseCode. *)
Definition net_null_code : network := fun _ =>
  answer (VObj [ ("responseCode", VNull); ("errorCode", VNull);
                 ("responseMessage", VStr "") ]).

(** The lookup by md5 does not find the transaction; the lookup by short
    hash finds it. *)
Definition net_short_hash_only : network := fun tr =>
  match last tr with
  | Some (EvFetch r) =>
      if Str.includes "short_hash" (url r)
      then answer (VObj [ ("responseCode", VNum 0);
                          ("data", VObj [ ("hash", VStr "8a7b6c5d");
                                          ("fromAccountId", VStr "payer@bank") ]) ])
      else answer (VObj [ ("responseCode", VNum 1); ("errorCode", VNum 1);
                          ("responseMessage",
                            VStr "Transaction could not be found. Please check and try again.") ])
  | _ => net_down tr
  end.

(** The client of the shop, and a client built without a token, as in the
    smoke test of the repository. *)
Definition api : BakongAPIService.t := Server.bakongAPI rt env.

Definition api_without_token : BakongAPIService.t :=
  BakongAPIService.new rt ∅ (Some "") (Some "https://api-bakong.nbc.org.kh").

Definition key : string := KHQRService.generateMD5 qr.

Definition post_body (props : list (string * value)) : http_request :=
  {| req_body := VObj props; req_protocol := "https"; req_host := VStr "shop.example" |}.

Definition generate_request : http_request :=
  post_body [("amount", VNum 5); ("currency", VStr "USD"); ("billNumber", VStr "INV-1")].

Definition key_request : http_request := post_body [("md5", VStr key)].


(** The record that the generate handler stores for [generate_request]. *)
Definition stored : Payment.t :=
  {| Payment.billNumber := VStr "INV-1";
     Payment.amount := 5;
     Payment.currency := "USD";
     Payment.qrString := qr;
     Payment.md5 := key;
     Payment.description := VNull;
     Payment.status := "pending";
     Payment.createdAt := "2026-11-02T22:14:00.002Z";
     Payment.deeplinkUrl := VNull;
     Payment.completedAt := VUndefined;
     Payment.transactionHash := VUndefined;
     Payment.fromAccount := VUndefined;
     Payment.manualSettledAt := VUndefined;
     Payment.lastProviderError := VUndefined |}.

(** What the check handler holds after its lookups when the provider
    cannot be reached. *)
Definition timed_out : Server.lookup :=
  {| Server.result :=
       VObj [ ("responseCode", VNum (-1));
              ("errorCode", VStr "TIMEOUT");
              ("responseMessage",
                VStr "Bakong API request timed out after 18000ms (including IPv4 fallback)") ];
     Server.status := "error";
     Server.checkedBy := "md5";
     Server.fallbackProvider := VNull |}.

(** The ledger after one payment was generated. *)
Definition generated (net : network) : world :=
  Server.step rt net lib env toDataURL
    (Server.OpGenerate generate_request 1793657640000 1793657640001 1793657640002)
    initial_world.

End Demo.

(* ===================================================================== *)
(** * Observations on traces *)
(* ===================================================================== *)

Module Obs.

(** What a computation adds to the trace [tr]. *)
Definition emitted {A : Type} (m : IO A) (tr : trace) : trace :=
  events_since tr (snd (m tr)).

(** A request without credentials. *)
Definition plain_fetch (ev : event) : Prop :=
  match ev with
  | EvFetch r => headers r = [("Content-Type", "application/json")]
  | EvSleep _ => False
  end.

(** A sleep, or a request that carries [token] as a bearer token. *)
Definition sleep_or_bearer_fetch (token : string) (ev : event) : Prop :=
  match ev with
  | EvFetch r =>
      headers r = [ ("Content-Type", "application/json");
                    ("Authorization", "Bearer " +:+ token) ]
  | EvSleep _ => True
  end.


(** The network rejects every request. *)
Definition unreachable (net : network) : Prop :=
  forall t, exists e, net t = Rejected e.

(** The result reports a failure of the transport. *)
Definition transport_failure (v : value) : Prop :=
  JS.get v "responseCode" = VNum (-1)
  /\ (JS.get v "errorCode" = VStr "TIMEOUT"
      \/ JS.get v "errorCode" = VStr "NETWORK_ERROR").

End Obs.

(* ===================================================================== *)
(** * Further sample inputs *)
(* ===================================================================== *)

Module Sample.

(** The arguments of the smoke test without an account id. *)
Definition args_without_account : KHQRService.args :=
  {| KHQRService.accountId := VStr "";
     KHQRService.merchantName := VStr "Demo Shop";
     KHQRService.merchantId := VUndefined;
     KHQRService.acquiringBank := VUndefined;
     KHQRService.merchantCity := VUndefined;
     KHQRService.amount := VNum 1;
     KHQRService.currency := VStr "USD";
     KHQRService.billNumber := VUndefined;
     KHQRService.mobileNumber := VUndefined;
     KHQRService.storeLabel := VUndefined;
     KHQRService.terminalLabel := VUndefined;
     KHQRService.purposeOfTransaction := VUndefined |}.

(** Arguments with an account id and a merchant name of white space. *)
Definition args_without_name : KHQRService.args :=
  {| KHQRService.accountId := VStr "jonhsmith@nbcq";
     KHQRService.merchantName := VStr "   ";
     KHQRService.merchantId := VUndefined;
     KHQRService.acquiringBank := VUndefined;
     KHQRService.merchantCity := VUndefined;
     KHQRService.amount := VNum 1;
     KHQRService.currency := VStr "USD";
     KHQRService.billNumber := VUndefined;
     KHQRService.mobileNumber := VUndefined;
     KHQRService.storeLabel := VUndefined;
     KHQRService.terminalLabel := VUndefined;
     KHQRService.purposeOfTransaction := VUndefined |}.

(** Arguments whose account id [String] cannot convert. *)
Definition args_unconvertible : KHQRService.args :=
  {| KHQRService.accountId := VObj [("toString", VNum 1)];
     KHQRService.merchantName := VStr "Demo Shop";
     KHQRService.merchantId := VUndefined;
     KHQRService.acquiringBank := VUndefined;
     KHQRService.merchantCity := VUndefined;
     KHQRService.amount := VNum 1;
     KHQRService.currency := VStr "USD";
     KHQRService.billNumber := VUndefined;
     KHQRService.mobileNumber := VUndefined;
     KHQRService.storeLabel := VUndefined;
     KHQRService.terminalLabel := VUndefined;
     KHQRService.purposeOfTransaction := VUndefined |}.

(** The arguments of the smoke test with valid input. *)
Definition args_valid : KHQRService.args :=
  {| KHQRService.accountId := VStr "jonhsmith@nbcq";
     KHQRService.merchantName := VStr "Demo Shop";
     KHQRService.merchantId := VUndefined;
     KHQRService.acquiringBank := VUndefined;
     KHQRService.merchantCity := VStr "Phnom Penh";
     KHQRService.amount := VNum 1;
     KHQRService.currency := VStr "USD";
     KHQRService.billNumber := VStr "INV-TEST-001";
     KHQRService.mobileNumber := VUndefined;
     KHQRService.storeLabel := VUndefined;
     KHQRService.terminalLabel := VUndefined;
     KHQRService.purposeOfTransaction := VUndefined |}.



(** The provider answers with an error page whose body is JSON [null]. *)
Definition net_null_error : network := fun _ =>
  Resolved {| ok := false; status := 502; json := Some VNull |}.

(** The provider answers with an errorCode that [String] cannot convert. *)
Definition net_unconvertible : network := fun _ =>
  Demo.answer (VObj [ ("responseCode", VNum (-1));
                      ("errorCode", VObj [("toString", VNum 1)]) ]).

(** Every connection attempt is refused. *)
Definition net_refused : network := fun _ =>
  Rejected {| name := VStr "FetchError"; code := VStr "ECONNREFUSED";
              message := VStr "connect ECONNREFUSED" |}.

(** A ledger with the one record [Demo.stored]. *)
Definition one_record : world :=
  {| payments := <[ Demo.key := Demo.stored ]> ∅; log := [] |}.

End Sample.

(* ===================================================================== *)
(** * Properties *)
(* ===================================================================== *)

(** ** The digests agree with the test suite of the repository *)

Example generateMD5_smoke_test :
  KHQRService.generateMD5 "sample-qr-content" = "f2ef9121db78fb8e510b6607b3185cd8".
Proof. vm_compute. reflexivity. Qed.

Example generateMD5_empty :
  KHQRService.generateMD5 "" = "d41d8cd98f00b204e9800998ecf8427e".
Proof. vm_compute. reflexivity. Qed.

Example generateShortHash_abc : KHQRService.generateShortHash "abc" = "ba7816bf".
Proof. vm_compute. reflexivity. Qed.

Example toISOString_example : Clock.toISOString 951782400000 = "2000-02-29T00:00:00.000Z".
Proof. vm_compute. reflexivity. Qed.

(** ** Strings: searching and trimming *)

Module StrFacts.

Lemma matches_at_spec (pat s : string) :
  Str.matches_at pat s = true <->
  exists mid post, s = mid +:+ post /\ Spec.same_text_ci mid pat.
Proof.
  unfold Spec.same_text_ci. revert s.
  induction pat as [|p pat IH]; intros s; simpl.
  - split; [intros _; exists "", s; split; reflexivity |reflexivity].
  - destruct s as [|c s]; simpl.
    + split; [discriminate|].
      intros (mid & post & E & H). destruct mid; simpl in *; discriminate.
    + rewrite andb_true_iff, IH. split.
      * intros [Hc (mid & post & -> & Hm)].
        exists (String c mid), post. simpl. split; [reflexivity|].
        apply Ascii.eqb_eq in Hc. now rewrite Hc, Hm.
      * intros (mid & post & E & Hm).
        destruct mid as [|c' mid]; simpl in *; [discriminate|].
        injection E as -> ->. injection Hm as Hc Hm.
        split; [rewrite Hc; apply Ascii.eqb_refl|].
        exists mid, post. split; [reflexivity | assumption].
Qed.

Lemma test_alternatives_spec (alts : list string) (s : string) :
  Str.test_alternatives alts s = true <->
  exists phrase, In phrase alts /\ Spec.occurs_ci phrase s.
Proof.
  unfold Spec.occurs_ci.
  induction s as [|c s IH]; simpl; rewrite orb_true_iff, existsb_exists.
  - split.
    + intros [(p & Hin & Hm)|]; [|discriminate].
      apply matches_at_spec in Hm as (mid & post & E & Hm).
      exists p. split; [assumption|]. exists "", mid, post. now split.
    + intros (p & Hin & pre & mid & post & E & Hm). left.
      exists p. split; [assumption|].
      destruct pre; simpl in E; [|discriminate].
      apply matches_at_spec. now exists mid, post.
  - rewrite IH. split.
    + intros [(p & Hin & Hm)|(p & Hin & pre & mid & post & -> & Hm)].
      * apply matches_at_spec in Hm as (mid & post & E & Hm).
        exists p. split; [assumption|]. exists "", mid, post. now split.
      * exists p. split; [assumption|]. exists (String c pre), mid, post. now split.
    + intros (p & Hin & pre & mid & post & E & Hm).
      destruct pre as [|c' pre]; simpl in E.
      * left. exists p. split; [assumption|].
        apply matches_at_spec. now exists mid, post.
      * injection E as -> ->. right. exists p. split; [assumption|].
        now exists pre, mid, post.
Qed.

Lemma ws1_not_solid a : Str.ws1 a = true -> Str.solid a = false.
Proof. unfold Str.solid. now intros ->. Qed.

Lemma high_not_solid a : (128 <= nat_of_ascii a)%nat -> Str.solid a = false.
Proof.
  intros H. unfold Str.solid. apply andb_false_iff. right.
  apply Nat.ltb_ge. exact H.
Qed.

Lemma ws2_not_solid a b : Str.ws2 a b = true -> Str.solid a = false /\ Str.solid b = false.
Proof.
  unfold Str.ws2. rewrite andb_true_iff, !Nat.eqb_eq. intros [Ha Hb].
  split; apply high_not_solid; lia.
Qed.

Lemma ws3_not_solid a b c :
  Str.ws3 a b c = true -> Str.solid a = false /\ Str.solid b = false /\ Str.solid c = false.
Proof.
  unfold Str.ws3. cbv zeta.
  rewrite !orb_true_iff, !andb_true_iff, !orb_true_iff, !andb_true_iff,
    !Nat.eqb_eq, !Nat.leb_le.
  intros H. repeat split; apply high_not_solid; lia.
Qed.

Lemma strip_keeps_solid (fwd : bool) (n : nat) :
  forall s, (String.length s <= n)%nat -> Str.has_solid s = true ->
            Str.has_solid (Str.strip fwd s) = true.
Proof.
  induction n as [|n IH]; intros s Hn Hs.
  - destruct s; simpl in *; [discriminate | lia].
  - destruct s as [|a s1]; [discriminate|].
    simpl in Hn. cbn [Str.strip].
    destruct (Str.ws1 a) eqn:E1.
    { apply IH; [lia|]. simpl in Hs. now rewrite (ws1_not_solid _ E1) in Hs. }
    destruct s1 as [|b s2]; [exact Hs|].
    simpl in Hn.
    destruct (if fwd then Str.ws2 a b else Str.ws2 b a) eqn:E2.
    { apply IH; [lia|]. simpl in Hs.
      assert (Str.solid a = false /\ Str.solid b = false) as [Ha Hb]
        by (destruct fwd; apply ws2_not_solid in E2; tauto).
      now rewrite Ha, Hb in Hs. }
    destruct s2 as [|c s3]; [exact Hs|].
    simpl in Hn.
    destruct (if fwd then Str.ws3 a b c else Str.ws3 c b a) eqn:E3; [|exact Hs].
    apply IH; [lia|]. simpl in Hs.
    assert (Str.solid a = false /\ Str.solid b = false /\ Str.solid c = false) as (Ha & Hb & Hc)
      by (destruct fwd; apply ws3_not_solid in E3; tauto).
    now rewrite Ha, Hb, Hc in Hs.
Qed.

Lemma rev_onto_solid (s acc : string) :
  Str.has_solid (Str.rev_onto s acc) = Str.has_solid s || Str.has_solid acc.
Proof.
  revert acc. induction s as [|c s IH]; intros acc; simpl; [reflexivity|].
  rewrite IH. simpl. destruct (Str.solid c), (Str.has_solid s), (Str.has_solid acc); reflexivity.
Qed.

Lemma rev_solid (s : string) : Str.has_solid (Str.rev s) = Str.has_solid s.
Proof. unfold Str.rev. rewrite rev_onto_solid. simpl. apply orb_false_r. Qed.

Lemma trim_keeps_solid (s : string) : Str.has_solid s = true -> Str.has_solid (Str.trim s) = true.
Proof.
  intros H. unfold Str.trim. rewrite rev_solid.
  eapply strip_keeps_solid; [reflexivity|]. rewrite rev_solid.
  eapply strip_keeps_solid; [reflexivity | exact H].
Qed.

Lemma letter_fold (p : ascii) :
  (97 <= nat_of_ascii p <= 122)%nat ->
  forall c, Str.canonicalize c = Str.canonicalize p -> Str.solid c = true.
Proof.
  intros Hp c. unfold Str.canonicalize at 2.
  replace ((97 <=? nat_of_ascii p)%nat && (nat_of_ascii p <=? 122)%nat) with true
    by (symmetry; apply andb_true_iff; split; apply Nat.leb_le; lia).
  intros E.
  assert (nat_of_ascii (Str.canonicalize c) = nat_of_ascii p - 32)%nat as Hn.
  { rewrite E. apply nat_ascii_embedding. lia. }
  clear E. unfold Str.canonicalize in Hn.
  assert (nat_of_ascii c < 128 /\ 33 <= nat_of_ascii c)%nat as [Hlt Hge].
  { destruct ((97 <=? nat_of_ascii c)%nat && (nat_of_ascii c <=? 122)%nat) eqn:Hc.
    - apply andb_true_iff in Hc as [H1 H2]. apply Nat.leb_le in H1, H2. lia.
    - lia. }
  unfold Str.solid, Str.ws1. cbv zeta.
  apply andb_true_iff. split.
  - apply negb_true_iff, orb_false_iff. split.
    + apply andb_false_iff. right. apply Nat.leb_gt. lia.
    + apply Nat.eqb_neq. lia.
  - apply Nat.ltb_lt. exact Hlt.
Qed.

Lemma matches_at_solid (pat s : string) :
  Str.starts_with_letter pat -> Str.matches_at pat s = true -> Str.has_solid s = true.
Proof.
  destruct pat as [|p pat]; [intros []|]. intros Hp.
  destruct s as [|c s]; simpl; [discriminate|].
  rewrite andb_true_iff. intros [Hc _]. apply Ascii.eqb_eq in Hc.
  now rewrite (letter_fold p Hp c (eq_sym Hc)).
Qed.

Lemma test_alternatives_solid (alts : list string) (m : string) :
  Forall Str.starts_with_letter alts ->
  Str.test_alternatives alts m = true -> Str.has_solid m = true.
Proof.
  intros Halts. induction m as [|c m IH]; cbn [Str.test_alternatives].
  - rewrite orb_false_r, existsb_exists. intros (p & Hin & Hm).
    eapply matches_at_solid; [|exact Hm].
    rewrite List.Forall_forall in Halts. now apply Halts.
  - rewrite orb_true_iff, existsb_exists. intros [(p & Hin & Hm)|H].
    + eapply matches_at_solid; [|exact Hm].
      rewrite List.Forall_forall in Halts. now apply Halts.
    + cbn [Str.has_solid]. rewrite (IH H). apply orb_true_r.
Qed.

(** A message in which a pending phrase occurs is not blank. *)
Lemma pending_phrase_not_blank (m : string) :
  Str.test_alternatives pending_phrases m = true -> String.eqb (Str.trim m) "" = false.
Proof.
  intros H.
  assert (Str.has_solid m = true) as Hs.
  { eapply test_alternatives_solid; [|exact H].
    unfold pending_phrases.
    repeat (apply List.Forall_cons; [unfold Str.starts_with_letter; vm_compute; lia|]).
    apply List.Forall_nil. }
  apply trim_keeps_solid in Hs.
  destruct (Str.trim m); [discriminate | reflexivity].
Qed.

End StrFacts.

(** ** server.js: resolvePaymentStatus *)

Module Classification.

Lemma isLikelyPendingMessage_spec (message : value) :
  isLikelyPendingMessage message = true <-> Spec.pending_like message.
Proof.
  unfold Spec.pending_like. destruct message as [| |b|x|m|l|ps]; simpl;
    try (split; [discriminate | intros (m' & ph & E & _); discriminate]).
  fold pending_phrases. split.
  - intros H. exists m.
    destruct (String.eqb (Str.trim m) ""); [discriminate|].
    apply StrFacts.test_alternatives_spec in H as (ph & Hin & Hocc).
    exists ph. now repeat split.
  - intros (m' & ph & E & Hin & Hocc). injection E as <-.
    assert (Str.test_alternatives pending_phrases m = true) as H
      by (apply StrFacts.test_alternatives_spec; now exists ph).
    now rewrite (StrFacts.pending_phrase_not_blank m H).
Qed.

(** Replacing a message that is not a string by the empty string does not
    change the verdict. *)
Lemma message_default (v : value) :
  isLikelyPendingMessage (if JS.typeof_string v then v else VStr "")
  = isLikelyPendingMessage v.
Proof. destruct v; reflexivity. Qed.

Lemma guard_object (result : value) :
  negb (JS.ToBoolean result) || negb (JS.typeof_object result) = false
  <-> Spec.is_result_object result.
Proof.
  destruct result; simpl; rewrite ?orb_true_r;
    split; intros H; try discriminate; try contradiction; try exact I; reflexivity.
Qed.

(** C2, as the code has it.  [resolvePaymentStatus] classifies a provider
    result that is not an object as 'error' without looking further.  For
    an object it first converts responseCode and errorCode with
    [Number(...)], and throws a TypeError when one of them does not
    convert (an object with an own property toString, or an array that
    holds one).  When both convert it returns one of the four statuses
    'pending', 'completed', 'failed', 'error', by this classification, in
    which [responseCode] and [errorCode] are the two numbers: 'completed'
    iff responseCode is 0; otherwise 'failed' iff errorCode is 3;
    otherwise 'pending' iff errorCode is 1 or the responseMessage is a
    string in which one of "not found", "not yet", "pending",
    "processing", "wait" occurs case-insensitively; otherwise 'error'. *)
Theorem resolvePaymentStatus_classification (rt : Runtime) (result : value) :
  let responseCode := JS.NumberOf rt (JS.get result "responseCode") in
  let errorCode := JS.NumberOf rt (JS.get result "errorCode") in
  let responseMessage := JS.get result "responseMessage" in
  let converted :=
    JS.converts (JS.get result "responseCode")
    && JS.converts (JS.get result "errorCode") in
  let outcome := resolvePaymentStatus rt result in
  (forall status, outcome = Normal status -> In status Spec.statuses)
  /\ (forall e, outcome = Throw e <->
                Spec.is_result_object result /\ converted = false
                /\ e = JS.cannot_convert)
  /\ (outcome = Normal "completed" <->
      Spec.is_result_object result /\ converted = true
      /\ (responseCode =? 0)%float = true)
  /\ (outcome = Normal "failed" <->
      Spec.is_result_object result /\ converted = true
      /\ (responseCode =? 0)%float = false
      /\ (errorCode =? 3)%float = true)
  /\ (outcome = Normal "pending" <->
      Spec.is_result_object result /\ converted = true
      /\ (responseCode =? 0)%float = false
      /\ (errorCode =? 3)%float = false
      /\ ((errorCode =? 1)%float = true \/ Spec.pending_like responseMessage))
  /\ (outcome = Normal "error" <->
      ~ Spec.is_result_object result
      \/ (converted = true
          /\ (responseCode =? 0)%float = false /\ (errorCode =? 3)%float = false
          /\ (errorCode =? 1)%float = false /\ ~ Spec.pending_like responseMessage)).
Proof.
  cbv zeta. unfold resolvePaymentStatus.
  rewrite message_default, <- isLikelyPendingMessage_spec.
  destruct (negb (JS.ToBoolean result) || negb (JS.typeof_object result)) eqn:G.
  - assert (~ Spec.is_result_object result) as Hno
      by (intros H; apply guard_object in H; congruence).
    unfold Spec.statuses. simpl In.
    split; [intros status E; injection E as <-; tauto|].
    split; [intros e; split; [discriminate | tauto]|].
    repeat split; try tauto; try discriminate; intros; tauto.
  - apply guard_object in G. unfold JS.ToNumber, JS.ToString.
    destruct (JS.converts (JS.get result "responseCode")); cbn [andb].
    2:{ split; [discriminate|].
        split; [intros e; split; [intros E; injection E as <-; tauto
                                 | intros (_ & _ & ->); reflexivity]|].
        repeat split; try discriminate; intros; intuition discriminate. }
    destruct (JS.converts (JS.get result "errorCode")).
    2:{ split; [discriminate|].
        split; [intros e; split; [intros E; injection E as <-; tauto
                                 | intros (_ & _ & ->); reflexivity]|].
        repeat split; try discriminate; intros; intuition discriminate. }
    destruct (JS.NumberOf rt (JS.get result "responseCode") =? 0)%float;
      destruct (JS.NumberOf rt (JS.get result "errorCode") =? 3)%float;
      destruct (JS.NumberOf rt (JS.get result "errorCode") =? 1)%float;
      destruct (isLikelyPendingMessage (JS.get result "responseMessage"));
      cbn [orb];
      repeat match goal with
             | |- context [if ?b then _ else _] => destruct b
             end;
      unfold Spec.statuses; simpl In;
      (split; [intros status E; injection E as <-; tauto|]);
      (split; [intros e; split; [discriminate | intros (_ & ? & _); discriminate]|]);
      repeat split; intros; try discriminate; try tauto;
      intuition (try discriminate; try congruence).
Qed.

(** C2, as stated, fails: for this provider result, an object whose
    responseCode is 0, no status is returned.  [Number(errorCode)] is
    evaluated before responseCode is tested, and throws. *)
Lemma resolvePaymentStatus_throws :
  resolvePaymentStatus Demo.rt
    (VObj [ ("responseCode", VNum 0);
            ("errorCode", VObj [("toString", VNum 1)]) ])
  = Throw (TypeError "Cannot convert object to primitive value").
Proof. reflexivity. Qed.

Example missing_token_is_error :
  resolvePaymentStatus Demo.rt BakongAPIService.missing_token = Normal "error".
Proof. vm_compute. reflexivity. Qed.

(** A responseCode of [null] or of an empty string is 0 for [Number], so
    such a result is classified as completed. *)
Example null_responseCode_completed (rt : Runtime) :
  resolvePaymentStatus rt (VObj [("responseCode", VNull)]) = Normal "completed".
Proof. reflexivity. Qed.

End Classification.

(** ** bakongAPI.js: post, postWithRetry and the authenticated methods *)

Module Client.
Import BakongAPIService.


Section Post.
Variable rt : Runtime.
Variable net : network.
Variable this : t.

(** The body of [post], one level unfolded. *)
Lemma post_body endpoint payload requiresAuth options tr :
  post rt net this endpoint payload requiresAuth options tr =
  if requiresAuth && negb (has_token this) then (Normal missing_token, tr)
  else
    let tr1 := tr ++ [EvFetch (fetch_request rt this endpoint payload requiresAuth options)] in
    match net tr1 with
    | Resolved r => (read_response rt r, tr1)
    | Rejected e =>
        if wants_ipv4_fallback rt this options e
        then post rt net this endpoint payload requiresAuth (Opt.forced options) tr1
        else (Normal (if JS.is_string (name e) "AbortError"
                      then timeout_result rt
                             (reparse rt (Opt.timeoutMs options) (timeoutMs this)) options
                      else network_error_result e), tr1)
    end.
Proof.
  rewrite post_equation_1.
  destruct (requiresAuth && negb (has_token this)); simpl; [reflexivity|].
  destruct (net _) as [e|r]; simpl; [|reflexivity].
  destruct (Logic.inspect (wants_ipv4_fallback rt this options e)) as [[] E];
    simpl; rewrite E; reflexivity.
Qed.

Lemma forced_no_fallback options e :
  wants_ipv4_fallback rt this (Opt.forced options) e = false.
Proof. unfold wants_ipv4_fallback. simpl. now rewrite andb_false_r. Qed.

(** A call that is already forced to IPv4 makes exactly one request. *)
Lemma post_forced endpoint payload requiresAuth options tr :
  requiresAuth && negb (has_token this) = false ->
  let tr1 := tr ++ [EvFetch (fetch_request rt this endpoint payload requiresAuth
                               (Opt.forced options))] in
  post rt net this endpoint payload requiresAuth (Opt.forced options) tr =
  (match net tr1 with
   | Resolved r => read_response rt r
   | Rejected e =>
       Normal (if JS.is_string (name e) "AbortError"
               then timeout_result rt
                      (reparse rt (Opt.timeoutMs options) (timeoutMs this))
                      (Opt.forced options)
               else network_error_result e)
   end, tr1).
Proof.
  intros G. cbv zeta. rewrite post_body, G. cbv zeta.
  destruct (net _) as [e|r]; [|reflexivity].
  now rewrite forced_no_fallback.
Qed.

(** What a call of [post] adds to the trace: nothing without the token it
    requires; otherwise one request or two, all of them for its URL and
    payload. *)
Lemma post_trace endpoint payload requiresAuth options tr :
  exists evs,
    snd (post rt net this endpoint payload requiresAuth options tr) = tr ++ evs
    /\ Forall (fetch_of (baseUrl this +:+ endpoint) payload) evs
    /\ (length evs <= 2)%nat
    /\ (requiresAuth && negb (has_token this) = true -> evs = [])
    /\ (requiresAuth && negb (has_token this) = false -> evs <> []).
Proof.
  rewrite post_body.
  destruct (requiresAuth && negb (has_token this)) eqn:G.
  - exists []. simpl. rewrite app_nil_r.
    split; [reflexivity|]. split; [constructor|]. split; [lia|].
    split; [reflexivity | discriminate].
  - cbv zeta.
    assert (forall evs : trace,
              Forall (fetch_of (baseUrl this +:+ endpoint) payload) evs ->
              (1 <= length evs <= 2)%nat ->
              Forall (fetch_of (baseUrl this +:+ endpoint) payload) evs
              /\ (length evs <= 2)%nat
              /\ (false = true -> evs = [])
              /\ (false = false -> evs <> [])) as Hfin.
    { intros evs HF Hlen. split; [exact HF|]. split; [lia|].
      split; [discriminate|]. intros _ ->. simpl in Hlen. lia. }
    destruct (net _) as [e|r].
    + destruct (wants_ipv4_fallback rt this options e).
      * rewrite (post_forced _ _ _ _ _ G). cbn [snd].
        eexists [_; _]. rewrite <- app_assoc. split; [reflexivity|].
        apply Hfin; [|simpl; lia].
        repeat constructor.
      * eexists [_]. cbn [snd]. split; [reflexivity|].
        apply Hfin; [|simpl; lia].
        repeat constructor.
    + eexists [_]. cbn [snd]. split; [reflexivity|].
      apply Hfin; [|simpl; lia].
      repeat constructor.
Qed.

Lemma isRetryable_missing_token : isRetryable rt missing_token = Normal false.
Proof. reflexivity. Qed.

(** *** The retry loop *)

Lemma retry_loop_attempts (attempt : IO value) (delay : integral) (tr0 : trace) :
  forall m k v trk,
    Spec.nth_attempt attempt delay k tr0 = (Normal v, trk) ->
    isRetryable rt v = Normal true ->
    (forall j, (j < k)%nat ->
               Spec.retryable_outcome rt (Spec.nth_attempt attempt delay j tr0)) ->
    exists n,
      (k <= n <= k + m)%nat
      /\ retry_loop rt attempt delay m v trk
         = Spec.judged rt (Spec.nth_attempt attempt delay n tr0)
      /\ (forall j, (j < n)%nat ->
                    Spec.retryable_outcome rt (Spec.nth_attempt attempt delay j tr0))
      /\ (n = (k + m)%nat
          \/ ~ Spec.retryable_outcome rt (Spec.nth_attempt attempt delay n tr0)).
Proof.
  induction m as [|m IH]; intros k v trk Hk Hv Hbefore.
  - exists k. simpl. unfold io_ret.
    split; [lia|]. split; [rewrite Hk; unfold Spec.judged; now rewrite Hv|].
    split; [exact Hbefore | left; lia].
  - assert (forall j, (j < S k)%nat ->
              Spec.retryable_outcome rt (Spec.nth_attempt attempt delay j tr0)) as Hupto.
    { intros j Hj. destruct (decide (j = k)) as [->|]; [|apply Hbefore; lia].
      unfold Spec.retryable_outcome. now rewrite Hk. }
    assert (Spec.nth_attempt attempt delay (S k) tr0 = attempt (trk ++ [EvSleep delay]))
      as Hnext by (simpl; now rewrite Hk).
    cbn [retry_loop]. unfold io_bind at 1. unfold sleep, io_emit.
    unfold io_bind.
    destruct (attempt (trk ++ [EvSleep delay])) as [[v'|e] tr'] eqn:Ha.
    + destruct (isRetryable rt v') as [[|]|e] eqn:Hv'; cbn [negb].
      * destruct (IH (S k) v' tr') as (n & Hn & Hrun & Hall & Hlast);
          [congruence | assumption | assumption |].
        exists n. split; [lia|]. split; [exact Hrun|]. split; [exact Hall|].
        destruct Hlast as [->|]; [left; lia | right; assumption].
      * exists (S k). split; [lia|].
        split; [rewrite Hnext; unfold Spec.judged, io_ret; now rewrite Hv'|].
        split; [exact Hupto|].
        right. unfold Spec.retryable_outcome. rewrite Hnext. simpl. congruence.
      * exists (S k). split; [lia|].
        split; [rewrite Hnext; unfold Spec.judged, io_throw; now rewrite Hv'|].
        split; [exact Hupto|].
        right. unfold Spec.retryable_outcome. rewrite Hnext. simpl. congruence.
    + exists (S k). split; [lia|]. split; [now rewrite Hnext|].
      split; [exact Hupto|].
      right. unfold Spec.retryable_outcome. now rewrite Hnext.
Qed.

Lemma with_retry_attempts (attempt : IO value) (retries delay : integral)
    (r : Z) (tr : trace) :
  retries = Int r -> (0 <= r)%Z ->
  exists n,
    (Z.of_nat (S n) <= 1 + r)%Z
    /\ with_retry rt attempt retries delay tr
       = Spec.judged rt (Spec.nth_attempt attempt delay n tr)
    /\ (forall j, (j < n)%nat ->
                  Spec.retryable_outcome rt (Spec.nth_attempt attempt delay j tr))
    /\ (Z.of_nat (S n) = (1 + r)%Z
        \/ ~ Spec.retryable_outcome rt (Spec.nth_attempt attempt delay n tr)).
Proof.
  intros -> Hr. unfold with_retry, io_bind.
  destruct (attempt tr) as [[v|e] tr1] eqn:Ha.
  - destruct (isRetryable rt v) as [[|]|e] eqn:Hv; cbn [negb orb].
    + cbn [not_positive]. destruct (r <=? 0)%Z eqn:Hz.
      * apply Z.leb_le in Hz. exists 0%nat. cbn [Spec.nth_attempt]. rewrite Ha.
        unfold io_ret, Spec.judged. rewrite Hv.
        split; [lia|]. split; [reflexivity|]. split; [intros; lia | left; lia].
      * apply Z.leb_gt in Hz.
        destruct (retry_loop_attempts attempt delay tr (Z.to_nat r) 0 v tr1)
          as (n & Hn & Hrun & Hall & Hlast); [exact Ha | exact Hv | intros; lia |].
        exists n. cbn [iterations].
        split; [lia|]. split; [exact Hrun|]. split; [exact Hall|].
        destruct Hlast as [->|]; [left; lia | right; assumption].
    + exists 0%nat. cbn [Spec.nth_attempt]. rewrite Ha. unfold io_ret, Spec.judged.
      rewrite Hv.
      split; [lia|]. split; [reflexivity|]. split; [intros; lia|].
      right. unfold Spec.retryable_outcome. simpl. congruence.
    + exists 0%nat. cbn [Spec.nth_attempt]. rewrite Ha. unfold io_throw, Spec.judged.
      rewrite Hv.
      split; [lia|]. split; [reflexivity|]. split; [intros; lia|].
      right. unfold Spec.retryable_outcome. simpl. congruence.
  - exists 0%nat. cbn [Spec.nth_attempt]. rewrite Ha.
    split; [lia|]. split; [reflexivity|]. split; [intros; lia|].
    right. unfold Spec.retryable_outcome. simpl. tauto.
Qed.

End Post.

(** What [postWithRetry] adds to the trace: the requests of its first
    attempt, then sleeps and further requests for the same URL and
    payload. *)
Lemma retry_loop_trace rt net this endpoint payload requiresAuth options delay :
  forall m v tr,
  exists evs,
    snd (retry_loop rt (post rt net this endpoint payload requiresAuth options)
           delay m v tr) = tr ++ evs
    /\ Forall (sleep_or_fetch_of (baseUrl this +:+ endpoint) payload) evs.
Proof.
  induction m as [|m IH]; intros v tr.
  - exists []. simpl. rewrite app_nil_r. split; [reflexivity | constructor].
  - cbn [retry_loop]. unfold io_bind at 1. unfold sleep, io_emit. unfold io_bind.
    destruct (post_trace rt net this endpoint payload requiresAuth options
                (tr ++ [EvSleep delay])) as (evs1 & H1 & F1 & _).
    assert (Forall (sleep_or_fetch_of (baseUrl this +:+ endpoint) payload)
              (EvSleep delay :: evs1)) as F.
    { constructor; [exact I|]. eapply Forall_impl; [exact F1|].
      intros [r|ms]; simpl; tauto. }
    destruct (post rt net this endpoint payload requiresAuth options
                (tr ++ [EvSleep delay])) as [[v'|e] tr'] eqn:Hp;
      cbn [snd] in H1; subst tr'.
    + destruct (isRetryable rt v') as [[|]|e]; cbn [negb].
      * destruct (IH v' ((tr ++ [EvSleep delay]) ++ evs1)) as (evs2 & H2 & F2).
        exists ((EvSleep delay :: evs1) ++ evs2). rewrite H2.
        rewrite <- !app_assoc. split; [reflexivity|].
        apply Forall_app. now split.
      * exists (EvSleep delay :: evs1). unfold io_ret. cbn [snd].
        rewrite <- app_assoc. now split.
      * exists (EvSleep delay :: evs1). unfold io_throw. cbn [snd].
        rewrite <- app_assoc. now split.
    + exists (EvSleep delay :: evs1). cbn [snd]. rewrite <- app_assoc. now split.
Qed.

Lemma postWithRetry_trace rt net this endpoint payload requiresAuth options tr :
  exists first rest,
    snd (post rt net this endpoint payload requiresAuth options tr) = tr ++ first
    /\ snd (postWithRetry rt net this endpoint payload requiresAuth options tr)
       = tr ++ first ++ rest
    /\ Forall (fetch_of (baseUrl this +:+ endpoint) payload) first
    /\ Forall (sleep_or_fetch_of (baseUrl this +:+ endpoint) payload) rest
    /\ (requiresAuth && negb (has_token this) = false -> first <> []).
Proof.
  destruct (post_trace rt net this endpoint payload requiresAuth options tr)
    as (first & H1 & F1 & _ & _ & Hne).
  exists first. unfold postWithRetry, with_retry, io_bind.
  destruct (post rt net this endpoint payload requiresAuth options tr)
    as [[v|e] tr1] eqn:Hp; cbn [snd] in H1; subst tr1.
  - destruct (isRetryable rt v) as [retryable|e].
    + destruct (negb retryable || _).
      * exists []. unfold io_ret. cbn [snd]. rewrite app_nil_r.
        repeat split; try assumption. constructor.
      * destruct (retry_loop_trace rt net this endpoint payload requiresAuth options
                    (reparse rt (Opt.retryDelayMs options) (retryDelayMs this))
                    (iterations (reparse rt (Opt.retries options) (retryAttempts this)))
                    v (tr ++ first)) as (rest & H2 & F2).
        exists rest. rewrite H2, <- app_assoc. repeat split; assumption.
    + exists []. unfold io_throw. cbn [snd]. rewrite app_nil_r.
      repeat split; try assumption. constructor.
  - exists []. cbn [snd]. rewrite app_nil_r.
    repeat split; try assumption. constructor.
Qed.

Lemma count_sleeps_app (a b : trace) :
  count_sleeps (a ++ b) = (count_sleeps a + count_sleeps b)%nat.
Proof. induction a as [|[r|ms] a IH]; simpl; [reflexivity | exact IH | now rewrite IH]. Qed.

Lemma count_fetches_app (a b : trace) :
  count_fetches (a ++ b) = (count_fetches a + count_fetches b)%nat.
Proof. induction a as [|[r|ms] a IH]; simpl; [reflexivity | now rewrite IH | exact IH]. Qed.

Lemma only_fetches (u : string) (payload : value) (evs : trace) :
  Forall (fetch_of u payload) evs ->
  count_sleeps evs = 0%nat /\ count_fetches evs = length evs.
Proof.
  induction 1 as [|[r|ms] evs Hev _ IH]; simpl; [split; reflexivity | | contradiction].
  destruct IH as [-> ->]. split; reflexivity.
Qed.

(** A call of [post] never sleeps and makes at most two requests. *)
Lemma post_counts rt net this endpoint payload requiresAuth options tr :
  count_sleeps (snd (post rt net this endpoint payload requiresAuth options tr))
  = count_sleeps tr
  /\ (count_fetches (snd (post rt net this endpoint payload requiresAuth options tr))
      <= count_fetches tr + 2)%nat.
Proof.
  destruct (post_trace rt net this endpoint payload requiresAuth options tr)
    as (evs & -> & F & Hlen & _).
  destruct (only_fetches _ _ _ F) as [Hs Hf].
  rewrite count_sleeps_app, count_fetches_app, Hs, Hf. lia.
Qed.

(** After [n] retries there have been [n] sleeps and at most [2 (n + 1)]
    requests. *)
Lemma nth_attempt_counts rt net this endpoint payload requiresAuth options delay tr :
  forall n,
    (forall j, (j < n)%nat ->
       Spec.retryable_outcome rt
         (Spec.nth_attempt (post rt net this endpoint payload requiresAuth options)
            delay j tr)) ->
    count_sleeps
      (snd (Spec.nth_attempt (post rt net this endpoint payload requiresAuth options)
              delay n tr))
    = (count_sleeps tr + n)%nat
    /\ (count_fetches
          (snd (Spec.nth_attempt (post rt net this endpoint payload requiresAuth options)
                  delay n tr))
        <= count_fetches tr + 2 * S n)%nat.
Proof.
  induction n as [|n IH]; intros Hall.
  - cbn [Spec.nth_attempt].
    destruct (post_counts rt net this endpoint payload requiresAuth options tr). lia.
  - destruct IH as [IHs IHf]; [intros j Hj; apply Hall; lia|].
    specialize (Hall n (Nat.lt_succ_diag_r n)). unfold Spec.retryable_outcome in Hall.
    cbn [Spec.nth_attempt].
    destruct (Spec.nth_attempt _ delay n tr) as [[v|e] trn]; cbn [fst snd] in *;
      [|contradiction].
    destruct (post_counts rt net this endpoint payload requiresAuth options
                (trn ++ [EvSleep delay])) as [Hs Hf].
    rewrite count_sleeps_app in Hs. rewrite count_fetches_app in Hf.
    simpl in Hs, Hf. lia.
Qed.

(** What [isRetryable] accepts, and when it throws. *)
Lemma isRetryable_spec (rt : Runtime) (v : value) :
  (isRetryable rt v = Normal true <->
   JS.converts (JS.get v "responseCode") = true
   /\ (JS.NumberOf rt (JS.get v "responseCode") =? -1)%float = true
   /\ JS.converts (JS.get v "errorCode") = true
   /\ In (JS.StringOf rt (JS.get v "errorCode"))
         ["TIMEOUT"; "NETWORK_ERROR"; "INVALID_RESPONSE"])
  /\ (forall e, isRetryable rt v = Throw e <->
                e = JS.cannot_convert
                /\ (JS.converts (JS.get v "responseCode") = false
                    \/ ((JS.NumberOf rt (JS.get v "responseCode") =? -1)%float = true
                        /\ JS.converts (JS.get v "errorCode") = false))).
Proof.
  assert (JS.ToBoolean v = false ->
          JS.converts (JS.get v "responseCode") = true
          /\ (JS.NumberOf rt (JS.get v "responseCode") =? -1)%float = false) as Hfalsy.
  { destruct v; simpl; try discriminate; intros _; split; reflexivity. }
  unfold isRetryable, JS.ToNumber, JS.ToString, retryable_error_codes.
  destruct (JS.ToBoolean v) eqn:Hv; cbn [negb].
  2:{ destruct (Hfalsy eq_refl) as [H1 H2]. rewrite H1, H2. split.
      - split; [discriminate | intros (_ & ? & _); discriminate].
      - intros e. split; [discriminate|].
        intros (_ & [?|[? _]]); discriminate. }
  clear Hfalsy.
  destruct (JS.converts (JS.get v "responseCode")).
  2:{ split.
      - split; [discriminate | intros (? & _); discriminate].
      - intros e. split; [intros E; injection E as <-; tauto|].
        intros (-> & _). reflexivity. }
  destruct (JS.NumberOf rt (JS.get v "responseCode") =? -1)%float; cbn [negb].
  2:{ split.
      - split; [discriminate | intros (_ & ? & _); discriminate].
      - intros e. split; [discriminate|].
        intros (_ & [?|[? _]]); discriminate. }
  destruct (JS.converts (JS.get v "errorCode")).
  - split.
    + split.
      * intros E. injection E as E.
        rewrite !orb_true_iff, !String.eqb_eq in E.
        split; [reflexivity|]. split; [reflexivity|]. split; [reflexivity|].
        destruct E as [E|[E|[E|E]]]; [rewrite E; simpl; tauto ..|discriminate].
      * intros (_ & _ & _ & Hin). f_equal. apply existsb_exists.
        exists (JS.StringOf rt (JS.get v "errorCode")). split; [assumption|].
        apply String.eqb_refl.
    + intros e. split; [discriminate|].
      intros (_ & [?|[_ ?]]); discriminate.
  - split.
    + split; [discriminate | intros (_ & _ & ? & _); discriminate].
    + intros e. split; [intros E; injection E as <-; tauto|].
      intros (-> & _). reflexivity.
Qed.

(** C4, as the code has it.  A call of [postWithRetry] with a retry count
    [r >= 0] issues [n + 1 <= 1 + r] post requests, with [n] pauses and
    at most [2 (n + 1)] fetches.  Every attempt before the last returned a
    retryable result (so a retry is made only after a retryable result),
    and the last attempt either is the one numbered [r], or did not return
    a retryable result.  What the call yields is the outcome of that last
    attempt as [isRetryable] leaves it: the result of the attempt, or the
    exception that [post] threw, or the TypeError that [isRetryable]
    throws on a result whose responseCode (or, with responseCode -1, whose
    errorCode) does not convert. *)
Theorem postWithRetry_bounded (rt : Runtime) (net : network) (this : t)
    (endpoint : string) (payload : value) (requiresAuth : bool)
    (options : Opt.t) (tr : trace) (r : Z) :
  reparse rt (Opt.retries options) (retryAttempts this) = Int r ->
  (0 <= r)%Z ->
  let attempt := post rt net this endpoint payload requiresAuth options in
  let delay := reparse rt (Opt.retryDelayMs options) (retryDelayMs this) in
  exists n : nat,
    (Z.of_nat (S n) <= 1 + r)%Z
    /\ postWithRetry rt net this endpoint payload requiresAuth options tr
       = Spec.judged rt (Spec.nth_attempt attempt delay n tr)
    /\ snd (postWithRetry rt net this endpoint payload requiresAuth options tr)
       = snd (Spec.nth_attempt attempt delay n tr)
    /\ (forall v, fst (Spec.nth_attempt attempt delay n tr) = Normal v ->
         (forall e, isRetryable rt v <> Throw e) ->
         fst (postWithRetry rt net this endpoint payload requiresAuth options tr)
         = Normal v)
    /\ (forall j, (j < n)%nat ->
                  Spec.retryable_outcome rt (Spec.nth_attempt attempt delay j tr))
    /\ (Z.of_nat (S n) = (1 + r)%Z
        \/ ~ Spec.retryable_outcome rt (Spec.nth_attempt attempt delay n tr))
    /\ count_sleeps
         (snd (postWithRetry rt net this endpoint payload requiresAuth options tr))
       = (count_sleeps tr + n)%nat
    /\ (count_fetches
          (snd (postWithRetry rt net this endpoint payload requiresAuth options tr))
        <= count_fetches tr + 2 * S n)%nat
    /\ (forall v : value,
          (isRetryable rt v = Normal true <->
           JS.converts (JS.get v "responseCode") = true
           /\ (JS.NumberOf rt (JS.get v "responseCode") =? -1)%float = true
           /\ JS.converts (JS.get v "errorCode") = true
           /\ In (JS.StringOf rt (JS.get v "errorCode"))
                 ["TIMEOUT"; "NETWORK_ERROR"; "INVALID_RESPONSE"])
          /\ (forall e, isRetryable rt v = Throw e <->
                        e = JS.cannot_convert
                        /\ (JS.converts (JS.get v "responseCode") = false
                            \/ ((JS.NumberOf rt (JS.get v "responseCode") =? -1)%float
                                = true
                                /\ JS.converts (JS.get v "errorCode") = false)))).
Proof.
  intros Hr Hpos. cbv zeta. unfold postWithRetry.
  destruct (with_retry_attempts rt
              (post rt net this endpoint payload requiresAuth options)
              (reparse rt (Opt.retries options) (retryAttempts this))
              (reparse rt (Opt.retryDelayMs options) (retryDelayMs this))
              r tr Hr Hpos) as (n & Hn & Hrun & Hall & Hlast).
  assert (forall o, snd (Spec.judged rt o) = snd o) as Hsnd.
  { intros [[v|e] t]; unfold Spec.judged; [|reflexivity].
    destruct (isRetryable rt v); reflexivity. }
  exists n. split; [exact Hn|]. split; [exact Hrun|]. rewrite Hrun, Hsnd.
  split; [reflexivity|]. split.
  { intros v Hv Hno. destruct (Spec.nth_attempt _ _ n tr) as [o t]. cbn [fst] in Hv.
    subst o. unfold Spec.judged.
    destruct (isRetryable rt v) as [b|e] eqn:E; [reflexivity|].
    now contradiction (Hno e). }
  split; [exact Hall|]. split; [exact Hlast|].
  destruct (nth_attempt_counts rt net this endpoint payload requiresAuth options
              (reparse rt (Opt.retryDelayMs options) (retryDelayMs this)) tr n Hall)
    as [Hs Hf].
  split; [exact Hs|]. split; [exact Hf | apply isRetryable_spec].
Qed.

Lemma postWithRetry_bounded_witness :
  let attempt :=
    post Demo.rt Demo.net_down Demo.api "/v1/check_transaction_by_md5"
      (VObj [("md5", VStr Demo.key)]) true (Opt.with_timeout (Int 18000)) in
  exists n : nat,
    (Z.of_nat (S n) <= 1 + 1)%Z
    /\ postWithRetry Demo.rt Demo.net_down Demo.api "/v1/check_transaction_by_md5"
         (VObj [("md5", VStr Demo.key)]) true (Opt.with_timeout (Int 18000)) []
       = Spec.judged Demo.rt (Spec.nth_attempt attempt (Int 450) n []).
Proof.
  destruct (postWithRetry_bounded Demo.rt Demo.net_down Demo.api
              "/v1/check_transaction_by_md5" (VObj [("md5", VStr Demo.key)]) true
              (Opt.with_timeout (Int 18000)) [] 1 eq_refl ltac:(lia))
    as (n & Hn & Hrun & _).
  exists n. split; [exact Hn | exact Hrun].
Defined.

(** C4, as stated, fails: the call below returns no result.  The provider
    answers the first request with responseCode -1 and an errorCode that
    is an object with an own property toString; [isRetryable] throws on
    it, and so does the call, after its one request. *)
Lemma postWithRetry_throws :
  postWithRetry Demo.rt Sample.net_unconvertible Demo.api "/v1/check_transaction_by_md5"
    (VObj [("md5", VStr Demo.key)]) true (Opt.with_timeout (Int 18000)) []
  = (Throw (TypeError "Cannot convert object to primitive value"),
     [EvFetch (fetch_request Demo.rt Demo.api "/v1/check_transaction_by_md5"
                 (VObj [("md5", VStr Demo.key)]) true (Opt.with_timeout (Int 18000)))]).
Proof. vm_compute. reflexivity. Qed.

(** With one retry configured and a provider that cannot be reached, two
    post requests are issued, each of two fetches, with one sleep between. *)
Example postWithRetry_provider_down :
  List.map is_fetch
    (snd (checkTransactionByMD5 Demo.rt Demo.net_down Demo.api (VStr Demo.key) []))
  = [true; true; false; true; true].
Proof. vm_compute. reflexivity. Qed.



Example post_timeout_message :
  fst (checkBakongAccount Demo.rt Demo.net_down Demo.api (VStr "shop@bank") [])
  = Normal (VObj [ ("responseCode", VNum (-1));
                   ("errorCode", VStr "TIMEOUT");
                   ("responseMessage",
                     VStr "Bakong API request timed out after 10000ms (including IPv4 fallback)") ]).
Proof. vm_compute. reflexivity. Qed.

(** C8.  When the service holds no API token, each authenticated method
    (checkTransactionByMD5, checkTransactionByHash,
    checkTransactionByShortHash, checkBakongAccount) returns the
    MISSING_TOKEN result and leaves the trace as it was: no request is
    made and, there being no sleep, no retry is attempted. *)
Theorem missing_token_short_circuit (rt : Runtime) (net : network) (this : t)
    (md5Hash hash shortHash amount currency accountId : value) (tr : trace) :
  has_token this = false ->
  checkTransactionByMD5 rt net this md5Hash tr = (Normal missing_token, tr)
  /\ checkTransactionByHash rt net this hash tr = (Normal missing_token, tr)
  /\ checkTransactionByShortHash rt net this shortHash amount currency tr
     = (Normal missing_token, tr)
  /\ checkBakongAccount rt net this accountId tr = (Normal missing_token, tr)
  /\ missing_token
     = VObj [ ("responseCode", VNum (-1));
              ("errorCode", VStr "MISSING_TOKEN");
              ("responseMessage", VStr "Bakong API token is missing") ].
Proof.
  intros H.
  assert (forall endpoint payload options,
            post rt net this endpoint payload true options tr
            = (Normal missing_token, tr)) as Hpost.
  { intros. rewrite post_body, H. reflexivity. }
  assert (forall endpoint payload options,
            postWithRetry rt net this endpoint payload true options tr
            = (Normal missing_token, tr)) as Hretry.
  { intros. unfold postWithRetry, with_retry, io_bind. rewrite Hpost.
    rewrite isRetryable_missing_token. reflexivity. }
  unfold checkTransactionByMD5, checkTransactionByHash,
    checkTransactionByShortHash, checkBakongAccount.
  rewrite !Hretry, Hpost. repeat split.
Qed.

Lemma missing_token_short_circuit_witness :
  checkTransactionByMD5 Demo.rt Demo.net_paid Demo.api_without_token (VStr "dummy-md5") []
  = (Normal missing_token, [])
  /\ checkTransactionByHash Demo.rt Demo.net_paid Demo.api_without_token (VStr "h") []
     = (Normal missing_token, [])
  /\ checkTransactionByShortHash Demo.rt Demo.net_paid Demo.api_without_token
       (VStr "8a7b6c5d") (VNum 5) (VStr "USD") []
     = (Normal missing_token, [])
  /\ checkBakongAccount Demo.rt Demo.net_paid Demo.api_without_token (VStr "shop@bank") []
     = (Normal missing_token, [])
  /\ missing_token
     = VObj [ ("responseCode", VNum (-1));
              ("errorCode", VStr "MISSING_TOKEN");
              ("responseMessage", VStr "Bakong API token is missing") ].
Proof.
  exact (missing_token_short_circuit Demo.rt Demo.net_paid Demo.api_without_token
           (VStr "dummy-md5") (VStr "h") (VStr "8a7b6c5d") (VNum 5) (VStr "USD")
           (VStr "shop@bank") [] eq_refl).
Defined.

End Client.

(** ** khqrService.js: currencies *)

Module Khqr.
Import KHQRService.

Lemma not_KHR (c : value) : c <> VStr "KHR" -> JS.is_string c "KHR" = false.
Proof.
  intros H. destruct c as [| |b|x|s|l|ps]; try reflexivity. simpl.
  apply String.eqb_neq. intros ->. now apply H.
Qed.

Lemma resolve_defaulted (lib : KHQRLibrary) (c : value) :
  c <> VStr "KHR" ->
  resolveCurrency lib (defaulted c (VStr "USD")) = currency_usd lib.
Proof.
  intros H. unfold resolveCurrency, defaulted.
  destruct (JS.is_undefined c); [reflexivity|]. now rewrite (not_KHR c H).
Qed.

Lemma generateIndividualQR_validated rt lib now a :
  validateRequiredFields rt (accountId a) (merchantName a) = Normal VNull ->
  generateIndividualQR rt lib now a
  = finish (generateIndividual lib (Inv.individualInfo rt lib now a)).
Proof. intros H. unfold generateIndividualQR. rewrite H. reflexivity. Qed.

Lemma generateMerchantQR_validated rt lib now a :
  validateRequiredFields rt (accountId a) (merchantName a) = Normal VNull ->
  generateMerchantQR rt lib now a
  = finish (generateMerchant lib (Inv.merchantInfo rt lib now a)).
Proof. intros H. unfold generateMerchantQR. rewrite H. reflexivity. Qed.

Ltac currency_entries :=
  split; [reflexivity|];
  cbn; intros v H;
  repeat (destruct H as [H|H]; [congruence|]);
  destruct H.

Lemma individual_currency rt lib now a :
  JS.assoc "currency" (ind_optional (Inv.individualInfo rt lib now a))
  = resolveCurrency lib (defaulted (currency a) (VStr "USD"))
  /\ forall v, In ("currency", v) (ind_optional (Inv.individualInfo rt lib now a)) ->
       v = resolveCurrency lib (defaulted (currency a) (VStr "USD")).
Proof.
  unfold Inv.individualInfo, ind_optional, amount_data, set_if.
  destruct (positive _ _);
    destruct (JS.ToBoolean (defaulted (billNumber a) VNull));
    destruct (JS.ToBoolean (defaulted (mobileNumber a) VNull));
    destruct (JS.ToBoolean (defaulted (storeLabel a) VNull));
    destruct (JS.ToBoolean (defaulted (terminalLabel a) VNull));
    destruct (JS.ToBoolean (defaulted (purposeOfTransaction a) VNull));
    currency_entries.
Qed.

Lemma merchant_currency rt lib now a :
  JS.assoc "currency" (mer_optional (Inv.merchantInfo rt lib now a))
  = resolveCurrency lib (defaulted (currency a) (VStr "USD"))
  /\ forall v, In ("currency", v) (mer_optional (Inv.merchantInfo rt lib now a)) ->
       v = resolveCurrency lib (defaulted (currency a) (VStr "USD")).
Proof.
  unfold Inv.merchantInfo, mer_optional, amount_data, set_if.
  destruct (positive _ _);
    destruct (JS.ToBoolean (defaulted (billNumber a) VNull));
    destruct (JS.ToBoolean (defaulted (mobileNumber a) VNull));
    destruct (JS.ToBoolean (defaulted (storeLabel a) VNull));
    destruct (JS.ToBoolean (defaulted (terminalLabel a) VNull));
    currency_entries.
Qed.

(** C9.  [resolveCurrency] maps the string 'KHR' to the KHR code and every
    other value (lower-case 'khr', [undefined], an unsupported currency) to
    the USD code.  A call of [generateIndividualQR] or [generateMerchantQR]
    whose currency is not 'KHR', whose required fields are present and
    whose amount is one that [amount > 0] can convert, is not rejected for
    its currency: it hands the library the information record of the
    source, in which the key 'currency' holds the USD code and no other
    value, and answers with what the library makes of that record.  With
    or without valid required fields, both functions answer such a call
    exactly as they answer the same call with the currency 'USD'. *)
Theorem resolveCurrency_defaults_to_usd (rt : Runtime) (lib : KHQRLibrary) :
  resolveCurrency lib (VStr "KHR") = currency_khr lib
  /\ (forall c : value, c <> VStr "KHR" -> resolveCurrency lib c = currency_usd lib)
  /\ resolveCurrency lib (VStr "khr") = currency_usd lib
  /\ resolveCurrency lib VUndefined = currency_usd lib
  /\ (forall (now : float) (a : args),
        currency a <> VStr "KHR" ->
        validateRequiredFields rt (accountId a) (merchantName a) = Normal VNull ->
        JS.converts (defaulted (amount a) (VNum 0)) = true ->
        generateIndividualQR rt lib now a
        = finish (generateIndividual lib (Inv.individualInfo rt lib now a))
        /\ JS.assoc "currency" (ind_optional (Inv.individualInfo rt lib now a))
           = currency_usd lib
        /\ (forall v, In ("currency", v) (ind_optional (Inv.individualInfo rt lib now a)) ->
            v = currency_usd lib)
        /\ generateMerchantQR rt lib now a
           = finish (generateMerchant lib (Inv.merchantInfo rt lib now a))
        /\ JS.assoc "currency" (mer_optional (Inv.merchantInfo rt lib now a))
           = currency_usd lib
        /\ (forall v, In ("currency", v) (mer_optional (Inv.merchantInfo rt lib now a)) ->
            v = currency_usd lib))
  /\ (forall (now : float) (a : args),
        currency a <> VStr "KHR" ->
        generateIndividualQR rt lib now a
        = generateIndividualQR rt lib now (with_currency (VStr "USD") a)
        /\ generateMerchantQR rt lib now a
           = generateMerchantQR rt lib now (with_currency (VStr "USD") a)).
Proof.
  split; [reflexivity|]. split.
  { intros c H. unfold resolveCurrency. now rewrite (not_KHR c H). }
  split; [reflexivity|]. split; [reflexivity|]. split.
  { intros now a H V _.
    destruct (individual_currency rt lib now a) as [Ia Ii].
    destruct (merchant_currency rt lib now a) as [Ma Mi].
    rewrite (resolve_defaulted lib (currency a) H) in Ia, Ii, Ma, Mi.
    split; [now apply generateIndividualQR_validated|].
    split; [exact Ia|]. split; [exact Ii|].
    split; [now apply generateMerchantQR_validated|].
    split; [exact Ma | exact Mi]. }
  intros now a H.
  unfold generateIndividualQR, generateMerchantQR. cbn [with_currency
    accountId merchantName merchantId acquiringBank merchantCity amount currency
    billNumber mobileNumber storeLabel terminalLabel purposeOfTransaction].
  rewrite (resolve_defaulted lib (currency a) H).
  replace (resolveCurrency lib (defaulted (VStr "USD") (VStr "USD")))
    with (currency_usd lib) by reflexivity.
  split; reflexivity.
Qed.

Lemma resolveCurrency_defaults_to_usd_witness :
  resolveCurrency Demo.lib (VStr "EUR") = VNum 840
  /\ JS.assoc "currency"
       (mer_optional
          (Inv.merchantInfo Demo.rt Demo.lib 0
             (Server.qr_args Demo.env 5 "EUR" (VStr "INV-1") VNull VNull)))
     = VNum 840
  /\ generateIndividualQR Demo.rt Demo.lib 0
       (Server.qr_args Demo.env 5 "EUR" (VStr "INV-1") VNull VNull)
     = generateIndividualQR Demo.rt Demo.lib 0
         (with_currency (VStr "USD")
            (Server.qr_args Demo.env 5 "EUR" (VStr "INV-1") VNull VNull)).
Proof.
  destruct (resolveCurrency_defaults_to_usd Demo.rt Demo.lib) as (_ & Hc & _ & _ & Hv & Hq).
  split; [|split].
  - apply (Hc (VStr "EUR")). discriminate.
  - destruct (Hv 0%float (Server.qr_args Demo.env 5 "EUR" (VStr "INV-1") VNull VNull))
      as (_ & _ & _ & _ & M & _);
      [discriminate | vm_compute; reflexivity | reflexivity | exact M].
  - apply (Hq 0%float (Server.qr_args Demo.env 5 "EUR" (VStr "INV-1") VNull VNull)).
    discriminate.
Defined.

(** The currency handed to the library for a payment in euros. *)
Example euro_is_encoded_as_usd :
  JS.assoc "currency"
    (spread [("currency", resolveCurrency Demo.lib (VStr "EUR"))]
       (amount_data Demo.rt 0 (VNum 5) (resolveCurrency Demo.lib (VStr "EUR"))))
  = VNum 840.
Proof. vm_compute. reflexivity. Qed.

Lemma hex_length (bs : list Z) : String.length (Crypto.hex bs) = (2 * length bs)%nat.
Proof. induction bs as [|b bs IH]; simpl; [reflexivity|]. rewrite IH. lia. Qed.

Lemma hex_digit_lowercase (d : Z) :
  In (Crypto.hex_digit d) (list_ascii_of_string "0123456789abcdef").
Proof.
  unfold Crypto.hex_digit.
  destruct (Nat.lt_ge_cases (Z.to_nat d)
              (length (list_ascii_of_string "0123456789abcdef"))) as [H|H].
  - now apply nth_In.
  - rewrite nth_overflow by assumption. simpl. tauto.
Qed.

Lemma hex_lowercase (bs : list Z) :
  Forall (fun c => In c (list_ascii_of_string "0123456789abcdef"))
    (list_ascii_of_string (Crypto.hex bs)).
Proof.
  induction bs as [|b bs IH]; simpl; [constructor|].
  constructor; [apply hex_digit_lowercase|].
  constructor; [apply hex_digit_lowercase | exact IH].
Qed.

Lemma le_bytes_length (n : nat) (x : Z) : length (Crypto.le_bytes n x) = n.
Proof. revert x. induction n as [|n IH]; intros x; simpl; [reflexivity | now rewrite IH]. Qed.

(** [generateMD5] returns 32 lower-case hexadecimal digits. *)
Lemma generateMD5_format (qrString : string) : Spec.lowercase_hex32 (generateMD5 qrString).
Proof.
  unfold Spec.lowercase_hex32, generateMD5. split; [|apply hex_lowercase].
  rewrite hex_length. unfold Crypto.MD5.digest.
  destruct (fold_left _ _ _) as [[[a b] c] d].
  rewrite !length_app, !le_bytes_length. reflexivity.
Qed.

Lemma finish_md5 (r : completion KHQRResponse) (q m : string) :
  finish r = Normal (QrSuccess q m) -> m = generateMD5 q.
Proof.
  unfold finish. destruct r as [res|e]; [|discriminate].
  destruct (status_code res); try discriminate.
  destruct (PrimFloat.eqb x 0); [|discriminate].
  intros E. injection E as <- <-. reflexivity.
Qed.

Lemma generateIndividualQR_md5 rt lib now a q m :
  generateIndividualQR rt lib now a = Normal (QrSuccess q m) -> m = generateMD5 q.
Proof.
  unfold generateIndividualQR.
  destruct (validateRequiredFields _ _ _) as [v|e]; [|discriminate].
  destruct (JS.ToBoolean v); [discriminate|]. apply finish_md5.
Qed.

End Khqr.

(** ** server.js: what each operation does to the ledger *)

Module Ledger.
Import Server.

Lemma toISOString_not_empty (ms : Z) : Clock.toISOString ms <> "".
Proof.
  unfold Clock.toISOString. destruct (Clock.civil _) as [[y m] d].
  destruct ((0 <=? y)%Z && (y <=? 9999)%Z).
  - destruct (Clock.digits 4 y ""); simpl; discriminate.
  - simpl. discriminate.
Qed.

Lemma truthy_text (s : string) : s <> "" -> JS.ToBoolean (VStr s) = true.
Proof. intros H. simpl. apply negb_true_iff, String.eqb_neq, H. Qed.

Lemma truthy_key (v : value) (m : gmap string Payment.t) (p : Payment.t) :
  ledger_get m v = Some p -> exists k, v = VStr k /\ m !! k = Some p.
Proof. destruct v; simpl; try discriminate. eauto. Qed.

Section Effects.
Variable rt : Runtime.
Variable net : network.
Variable lib : KHQRLibrary.
Variable env : environment.
Variable toDataURL : string -> completion string.

Lemma settle_evolves now l p p' : settle now l p = Some p' -> Spec.evolves p p'.
Proof.
  unfold settle, Spec.evolves.
  destruct (String.eqb (status l) "completed");
    [|destruct (String.eqb (status l) "failed");
      [|destruct (String.eqb (status l) "error"); [|discriminate]]];
    intros E; injection E as <-; simpl; tauto.
Qed.

Lemma settle_error now l p :
  status l = "error" ->
  exists p',
    settle now l p = Some p'
    /\ Spec.same_but_lastProviderError p p'
    /\ Payment.lastProviderError p'
       = VObj (("checkedAt", VStr now) :: ("checkedBy", VStr (checkedBy l))
               :: getProviderSummary (result l)).
Proof.
  intros H. unfold settle. rewrite H. cbn [String.eqb Ascii.eqb Bool.eqb].
  eexists. split; [reflexivity|]. unfold Spec.same_but_lastProviderError.
  simpl. repeat split.
Qed.

(** The check handler leaves the ledger alone or replaces one record,
    found under the key of the request, by its settled form. *)
Lemma check_effect req now w :
  payments (snd (check rt net env req now w)) = payments w
  \/ exists k p l tr p',
       JS.member (req_body req) "md5" = Normal (VStr k)
       /\ k <> ""
       /\ payments w !! k = Some p
       /\ JS.ToBoolean (Payment.manualSettledAt p) = false
       /\ reconcile rt net env (Some p) (VStr k) (log w) = (Normal l, tr)
       /\ settle now l p = Some p'
       /\ snd (check rt net env req now w)
          = {| payments := <[ k := p' ]> (payments w); log := tr |}.
Proof.
  unfold check.
  destruct (JS.member (req_body req) "md5") as [md5|e]; [|now left].
  destruct (JS.ToBoolean md5) eqn:Hmd5; cbn [negb]; [|now left].
  destruct (ledger_get (payments w) md5) as [p|] eqn:Hget.
  - apply truthy_key in Hget as (k & -> & Hk).
    destruct (JS.ToBoolean (Payment.manualSettledAt p)) eqn:Hman; [now left|].
    destruct (reconcile rt net env (Some p) (VStr k) (log w)) as [[l|e] tr] eqn:Hrec;
      [|now left].
    cbn [snd payments]. unfold settled. cbn [ledger_get]. rewrite Hk.
    destruct (settle now l p) as [p'|] eqn:Hs; [|now left].
    right. exists k, p, l, tr, p'.
    repeat split; try assumption.
    simpl in Hmd5. apply negb_true_iff, String.eqb_neq in Hmd5. exact Hmd5.
  - destruct (reconcile rt net env None md5 (log w)) as [[l|e] tr]; now left.
Qed.

Lemma markPaid_effect req completedAt now w :
  payments (snd (markPaid rt env req completedAt now w)) = payments w
  \/ exists k p,
       JS.get (JS.or (req_body req) (VObj [])) "md5" = VStr k
       /\ k <> ""
       /\ isDemoManualSettleEnabled rt env = true
       /\ payments w !! k = Some p
       /\ snd (markPaid rt env req completedAt now w)
          = {| payments :=
                 <[ k := mark rt completedAt now
                           (JS.get (JS.or (req_body req) (VObj [])) "fromAccountId")
                           (JS.get (JS.or (req_body req) (VObj [])) "transactionHash")
                           p ]> (payments w);
               log := log w |}.
Proof.
  unfold markPaid.
  destruct (isDemoManualSettleEnabled rt env); cbn [negb]; [|now left].
  destruct (JS.ToBoolean (JS.get _ "md5")) eqn:Hmd5; cbn [negb]; [|now left].
  destruct (ledger_get (payments w) _) as [p|] eqn:Hget; [|now left].
  apply truthy_key in Hget as (k & Hk & Hp).
  right. exists k, p. rewrite Hk in *. cbn [snd ledger_set].
  repeat split; try assumption; try reflexivity.
  simpl in Hmd5. apply negb_true_iff, String.eqb_neq in Hmd5. exact Hmd5.
Qed.

Lemma mark_evolves completedAt now f h p :
  completedAt <> "" -> Spec.evolves p (mark rt completedAt now f h p).
Proof.
  intros H. unfold Spec.evolves. cbn [mark Payment.qrString Payment.md5
    Payment.status Payment.manualSettledAt].
  repeat split; [tauto|]. intros _. now apply truthy_text.
Qed.

Lemma background_effect req qrString md5 started w :
  payments (background_deeplink rt net env req qrString md5 started w) = payments w
  \/ exists p shortLink,
       payments w !! md5 = Some p
       /\ payments (background_deeplink rt net env req qrString md5 started w)
          = <[ md5 := with_deeplink shortLink p ]> (payments w).
Proof.
  unfold background_deeplink.
  destruct (BakongAPIService.generateDeeplink_settled _ _ _ _ _ _ _) as [[d|e] tr];
    [|now left].
  destruct (shortLink_of d) as [sl|e]; [|now left].
  destruct (JS.ToBoolean sl); cbn [negb]; [|now left].
  destruct (payments w !! md5) as [p|] eqn:Hp; [|now left].
  right. now exists p, sl.
Qed.

Lemma with_deeplink_evolves shortLink p : Spec.evolves p (with_deeplink shortLink p).
Proof. unfold Spec.evolves. simpl. tauto. Qed.

Lemma generate_effect req now_bill now_qr createdAt w :
  payments (snd (generate rt net lib env toDataURL req now_bill now_qr createdAt w))
  = payments w
  \/ exists q p,
       payments (snd (generate rt net lib env toDataURL req now_bill now_qr createdAt w))
       = <[ KHQRService.generateMD5 q := p ]> (payments w)
       /\ Payment.qrString p = q
       /\ Payment.md5 p = KHQRService.generateMD5 q
       /\ Payment.status p = "pending".
Proof.
  unfold generate.
  destruct (JS.member (req_body req) "amount") as [amount|e]; [|now left].
  destruct (JS.ToString rt amount) as [amountText|e]; [|now left].
  destruct (negb _ || _); [now left|].
  destruct (JS.ToString rt _) as [currencyText|e]; [|now left].
  destruct (negb (existsb _ _)); [now left|].
  destruct (negb _ || negb _); [now left|].
  destruct (KHQRService.generateIndividualQR _ _ _ _) as [[err|q m]|e] eqn:Hqr;
    [now left | | now left].
  apply Khqr.generateIndividualQR_md5 in Hqr as ->.
  destruct (toDataURL q) as [img|e]; [|now left].
  destruct (prepare_deeplink rt net env req q (log w)) as [[[dl warn]|e] tr]; [|now left].
  destruct (dev_warning rt env warn _) as [warning|e]; [|now left].
  right. eexists q, _. cbn [snd payments]. split; [reflexivity|].
  repeat split.
Qed.

(** An operation that updates a stored record leaves the ledger alone or
    replaces one record by a record that it [evolves] into. *)
Lemma update_effect o w :
  is_update o = true ->
  payments (step rt net lib env toDataURL o w) = payments w
  \/ exists k p p',
       payments w !! k = Some p
       /\ payments (step rt net lib env toDataURL o w) = <[ k := p' ]> (payments w)
       /\ Spec.evolves p p'.
Proof.
  destruct o as [req t1 t2 t3|req q md5 started|req t|req t1 t2]; intros Hu;
    [discriminate| | |]; unfold step, serve.
  - cbn [snd].
    destruct (background_effect req q md5 started w) as [H|(p & sl & Hp & H)];
      [now left|].
    right. exists md5, p, (with_deeplink sl p).
    split; [assumption|]. split; [assumption|]. apply with_deeplink_evolves.
  - destruct (check rt net env req (Clock.toISOString t) w) as [r w'] eqn:Hc.
    cbn [snd].
    destruct (check_effect req (Clock.toISOString t) w)
      as [H|(k & p & l & tr & p' & _ & _ & Hp & _ & _ & Hs & H)];
      rewrite Hc in H; cbn [snd] in H; [now left|].
    right. exists k, p, p'. split; [assumption|]. split; [now rewrite H|].
    eapply settle_evolves; eassumption.
  - destruct (markPaid rt env req (Clock.toISOString t1) (Clock.now t2) w)
      as [r w'] eqn:Hm.
    cbn [snd].
    destruct (markPaid_effect req (Clock.toISOString t1) (Clock.now t2) w)
      as [H|(k & p & _ & _ & _ & Hp & H)];
      rewrite Hm in H; cbn [snd] in H; [now left|].
    right. exists k, p. eexists. split; [assumption|]. split; [now rewrite H|].
    apply mark_evolves, toISOString_not_empty.
Qed.

(** After an update, every record is still there, under its key, and is
    what the record before [evolves] into. *)
Lemma update_keeps_records o w k p :
  is_update o = true ->
  payments w !! k = Some p ->
  exists p',
    payments (step rt net lib env toDataURL o w) !! k = Some p' /\ Spec.evolves p p'.
Proof.
  intros Hu Hk.
  assert (Spec.evolves p p) as Hrefl by (unfold Spec.evolves; tauto).
  destruct (update_effect o w Hu) as [H|(k' & q & q' & Hq & H & Hev)].
  - exists p. now rewrite H.
  - rewrite H. destruct (decide (k' = k)) as [->|Hne].
    + exists q'. rewrite lookup_insert_eq. split; [reflexivity|]. congruence.
    + exists p. rewrite lookup_insert_ne by assumption. now split.
Qed.

Lemma update_keeps_keys o w :
  is_update o = true ->
  dom (payments (step rt net lib env toDataURL o w)) = dom (payments w).
Proof.
  intros Hu.
  destruct (update_effect o w Hu) as [H|(k & p & p' & Hp & H & _)]; rewrite H;
    [reflexivity|].
  apply dom_insert_lookup_L. now exists p.
Qed.

End Effects.

(** C1, as the code has it.  An operation that updates a stored record
    (the check handler, the mark-paid handler, the background deeplink
    task) keeps the record in the ledger, and its status either stays what
    it was or becomes 'completed' or 'failed'.  The status never becomes
    'error': an error classification leaves it untouched.  The previous
    status is not consulted. *)
Theorem status_changes_only_to_completed_or_failed
    (rt : Runtime) (net : network) (lib : KHQRLibrary) (env : environment)
    (toDataURL : string -> completion string)
    (o : operation) (w : world) (k : string) (p : Payment.t) :
  is_update o = true ->
  payments w !! k = Some p ->
  exists p',
    payments (step rt net lib env toDataURL o w) !! k = Some p'
    /\ (Payment.status p' = Payment.status p
        \/ Payment.status p' = "completed"
        \/ Payment.status p' = "failed")
    /\ (Payment.status p' = "error" -> Payment.status p = "error").
Proof.
  intros Hu Hk.
  destruct (update_keeps_records rt net lib env toDataURL o w k p Hu Hk)
    as (p' & Hp' & _ & _ & Hst & _).
  exists p'. split; [assumption|]. split; [assumption|].
  destruct Hst as [->|[->| ->]]; [tauto | discriminate | discriminate].
Qed.

Lemma status_changes_only_to_completed_or_failed_witness :
  exists p',
    payments (step Demo.rt Demo.net_failed Demo.lib Demo.env Demo.toDataURL
                (OpCheck Demo.key_request 1793657700000)
                (Demo.generated Demo.net_failed)) !! Demo.key = Some p'
    /\ (Payment.status p' = Payment.status Demo.stored
        \/ Payment.status p' = "completed"
        \/ Payment.status p' = "failed")
    /\ (Payment.status p' = "error" -> Payment.status Demo.stored = "error").
Proof.
  apply (status_changes_only_to_completed_or_failed Demo.rt Demo.net_failed Demo.lib
           Demo.env Demo.toDataURL (OpCheck Demo.key_request 1793657700000)
           (Demo.generated Demo.net_failed) Demo.key Demo.stored).
  - reflexivity.
  - vm_compute. reflexivity.
Defined.

(** C1, as stated, fails.  With a provider that first reports success and
    then failure, two status checks move a record from 'pending' to
    'completed' and on to 'failed'; the mark-paid handler then moves it
    from 'failed' to 'completed'. *)
Lemma settled_status_changes_again :
  let serve net o w := step Demo.rt net Demo.lib Demo.env Demo.toDataURL o w in
  let w0 := Demo.generated Demo.net_paid_then_failed in
  let w1 := serve Demo.net_paid_then_failed (OpCheck Demo.key_request 1793657700000) w0 in
  let w2 := serve Demo.net_paid_then_failed (OpCheck Demo.key_request 1793657760000) w1 in
  let w3 :=
    serve Demo.net_paid_then_failed
      (OpMarkPaid Demo.key_request 1793657820000 1793657820001) w2 in
  Payment.status <$> payments w0 !! Demo.key = Some "pending"
  /\ Payment.status <$> payments w1 !! Demo.key = Some "completed"
  /\ Payment.status <$> payments w2 !! Demo.key = Some "failed"
  /\ Payment.status <$> payments w3 !! Demo.key = Some "completed".
Proof. vm_compute. repeat split. Qed.

Lemma keyed_insert (m : gmap string Payment.t) (k : string) (p : Payment.t) :
  Spec.keyed_by_content_hash m ->
  k = KHQRService.generateMD5 (Payment.qrString p) -> Payment.md5 p = k ->
  Spec.keyed_by_content_hash (<[ k := p ]> m).
Proof.
  intros Hm Hk Hp k' p'. destruct (decide (k = k')) as [<-|Hne].
  - rewrite lookup_insert_eq. intros E. injection E as <-. now split.
  - rewrite lookup_insert_ne by assumption. apply Hm.
Qed.

Lemma reachable_keyed rt net lib env toDataURL w :
  reachable rt net lib env toDataURL w -> Spec.keyed_by_content_hash (payments w).
Proof.
  induction 1 as [|o w Hw IH].
  - intros k p. cbn [initial_world payments]. rewrite lookup_empty. discriminate.
  - destruct (is_update o) eqn:Hu.
    + destruct (update_effect rt net lib env toDataURL o w Hu)
        as [->|(k & p & p' & Hp & -> & Hq & Hm & _)]; [assumption|].
      destruct (IH k p Hp) as [Hk Hmd]. apply keyed_insert; [assumption| |]; congruence.
    + destruct o as [req t1 t2 t3| | |]; try discriminate.
      unfold step, serve.
      destruct (generate _ _ _ _ _ _ _ _ _ w) as [r w'] eqn:Hg. cbn [snd].
      pose proof (generate_effect rt net lib env toDataURL req (Clock.now t1)
                    (Clock.now t2) (Clock.toISOString t3) w) as H.
      rewrite Hg in H. cbn [snd] in H.
      destruct H as [->|(q & p & -> & Hq & Hm & _)]; [assumption|].
      apply keyed_insert; [assumption| |]; congruence.
Qed.

(** C6.  In every state the server can reach, each entry of the payments
    map is keyed by the MD5 digest of the qrString of its record, written
    as 32 lower-case hexadecimal digits, which is also the record's md5
    field; and every later update of a record (deeplink completion, status
    check, manual settle) stores it back under that same key, with the
    same qrString, adding and removing no key. *)
Theorem ledger_keyed_by_md5
    (rt : Runtime) (net : network) (lib : KHQRLibrary) (env : environment)
    (toDataURL : string -> completion string) (w : world) :
  reachable rt net lib env toDataURL w ->
  Spec.keyed_by_content_hash (payments w)
  /\ (forall k p, payments w !! k = Some p -> Spec.lowercase_hex32 k)
  /\ (forall o, is_update o = true ->
        dom (payments (step rt net lib env toDataURL o w)) = dom (payments w)
        /\ forall k p, payments w !! k = Some p ->
             exists p',
               payments (step rt net lib env toDataURL o w) !! k = Some p'
               /\ Payment.qrString p' = Payment.qrString p
               /\ k = KHQRService.generateMD5 (Payment.qrString p')).
Proof.
  intros Hw. split; [exact (reachable_keyed rt net lib env toDataURL w Hw)|].
  split.
  { intros k p Hk.
    destruct (reachable_keyed rt net lib env toDataURL w Hw k p Hk) as [-> _].
    apply Khqr.generateMD5_format. }
  intros o Hu. split; [now apply update_keeps_keys|].
  intros k p Hk.
  destruct (update_keeps_records rt net lib env toDataURL o w k p Hu Hk)
    as (p' & Hp' & Hq & _).
  exists p'. split; [assumption|]. split; [assumption|].
  rewrite Hq. now apply (reachable_keyed rt net lib env toDataURL w Hw k p).
Qed.

Lemma ledger_keyed_by_md5_witness :
  let w := Demo.generated Demo.net_failed in
  Spec.keyed_by_content_hash (payments w)
  /\ (forall k p, payments w !! k = Some p -> Spec.lowercase_hex32 k)
  /\ (forall o, is_update o = true ->
        dom (payments (step Demo.rt Demo.net_failed Demo.lib Demo.env Demo.toDataURL o w))
        = dom (payments w)
        /\ forall k p, payments w !! k = Some p ->
             exists p',
               payments (step Demo.rt Demo.net_failed Demo.lib Demo.env Demo.toDataURL o w)
                 !! k = Some p'
               /\ Payment.qrString p' = Payment.qrString p
               /\ k = KHQRService.generateMD5 (Payment.qrString p')).
Proof.
  apply (ledger_keyed_by_md5 Demo.rt Demo.net_failed Demo.lib Demo.env Demo.toDataURL
           (Demo.generated Demo.net_failed)).
  exact (reachable_step Demo.rt Demo.net_failed Demo.lib Demo.env Demo.toDataURL
           (OpGenerate Demo.generate_request 1793657640000 1793657640001 1793657640002)
           initial_world
           (reachable_initial Demo.rt Demo.net_failed Demo.lib Demo.env Demo.toDataURL)).
Defined.

(** The digest is 32 lower-case hexadecimal digits. *)
Example stored_key : Demo.key = "898e24c19b7b106ecd703c5f056eae38".
Proof. vm_compute. reflexivity. Qed.

(** C7.  When a status check of a payment present in the ledger (and not
    settled by hand) resolves to 'error', the handler replaces the record
    by one that differs in the field lastProviderError only: status,
    billNumber, amount, currency, qrString, md5, description, createdAt,
    deeplinkUrl, completedAt, transactionHash, fromAccount and
    manualSettledAt are unchanged, so the next check queries the provider
    again. *)
Theorem check_error_touches_lastProviderError_only
    (rt : Runtime) (net : network) (env : environment)
    (req : http_request) (now : string) (w : world)
    (k : string) (p : Payment.t) (l : lookup) (tr : trace) :
  JS.member (req_body req) "md5" = Normal (VStr k) ->
  k <> "" ->
  payments w !! k = Some p ->
  JS.ToBoolean (Payment.manualSettledAt p) = false ->
  reconcile rt net env (Some p) (VStr k) (log w) = (Normal l, tr) ->
  status l = "error" ->
  exists p',
    snd (check rt net env req now w)
    = {| payments := <[ k := p' ]> (payments w); log := tr |}
    /\ Spec.same_but_lastProviderError p p'
    /\ Payment.lastProviderError p'
       = VObj (("checkedAt", VStr now) :: ("checkedBy", VStr (checkedBy l))
               :: getProviderSummary (result l))
    /\ JS.ToBoolean (Payment.manualSettledAt p') = false.
Proof.
  intros Hmd5 Hk Hp Hman Hrec Hst.
  destruct (settle_error now l p Hst) as (p' & Hs & Hsame & Hlast).
  exists p'. split.
  - unfold check. rewrite Hmd5. rewrite (truthy_text k Hk). cbn [negb ledger_get].
    rewrite Hp, Hman, Hrec. cbn [snd]. unfold settled. cbn [ledger_get ledger_set].
    now rewrite Hp, Hs.
  - split; [assumption|]. split; [assumption|].
    destruct Hsame as (_ & _ & _ & _ & _ & _ & _ & _ & _ & _ & _ & _ & ->). assumption.
Qed.

Lemma check_error_touches_lastProviderError_only_witness :
  let w := Demo.generated Demo.net_down in
  let tr := snd (reconcile Demo.rt Demo.net_down Demo.env (Some Demo.stored)
                   (VStr Demo.key) (log w)) in
  exists p',
    snd (check Demo.rt Demo.net_down Demo.env Demo.key_request
           "2026-11-02T22:15:00.000Z" w)
    = {| payments := <[ Demo.key := p' ]> (payments w); log := tr |}
    /\ Spec.same_but_lastProviderError Demo.stored p'
    /\ Payment.lastProviderError p'
       = VObj (("checkedAt", VStr "2026-11-02T22:15:00.000Z")
               :: ("checkedBy", VStr (checkedBy Demo.timed_out))
               :: getProviderSummary (result Demo.timed_out))
    /\ JS.ToBoolean (Payment.manualSettledAt p') = false.
Proof.
  apply (check_error_touches_lastProviderError_only Demo.rt Demo.net_down Demo.env
           Demo.key_request "2026-11-02T22:15:00.000Z" (Demo.generated Demo.net_down)
           Demo.key Demo.stored Demo.timed_out).
  - reflexivity.
  - vm_compute. discriminate.
  - vm_compute. reflexivity.
  - reflexivity.
  - vm_compute. reflexivity.
  - reflexivity.
Defined.







(** After the manual settlement, the provider is not asked again even
    though it would report a failure. *)
Example manual_settlement_example :
  let serve o w := step Demo.rt Demo.net_failed Demo.lib Demo.env Demo.toDataURL o w in
  let w1 := serve (OpMarkPaid Demo.key_request 1793657700000 1793657700001)
              (Demo.generated Demo.net_failed) in
  let w2 := serve (OpCheck Demo.key_request 1793657760000) w1 in
  log w2 = log (Demo.generated Demo.net_failed)
  /\ Payment.status <$> payments w2 !! Demo.key = Some "completed".
Proof. vm_compute. split; reflexivity. Qed.

End Ledger.

(** ** server.js: the short-hash fallback of the check handler *)

Module Fallback.
Import Server.

Lemma append_cancel (a b c : string) : a +:+ b = a +:+ c -> b = c.
Proof. induction a as [|x a IH]; simpl; [tauto|]. intros E. injection E. exact IH. Qed.

Lemma events_since_app (tr evs : trace) : events_since tr (tr ++ evs) = evs.
Proof. unfold events_since. apply drop_app_length. Qed.

Lemma md5_lookup_is_no_short_hash_fetch (base : string) (payload : value) (evs : trace) :
  Forall (sleep_or_fetch_of (base +:+ "/v1/check_transaction_by_md5") payload) evs ->
  ~ Exists (fetch_to (base +:+ "/v1/check_transaction_by_short_hash")) evs.
Proof.
  intros HF HE. apply Exists_exists in HE as (ev & Hin & Hev).
  rewrite Forall_forall in HF. specialize (HF ev Hin).
  destruct ev as [r|ms]; simpl in *; [|assumption].
  destruct HF as [Hu _]. rewrite Hu in Hev. apply append_cancel in Hev. discriminate.
Qed.

Lemma object_member (r : value) (k : string) :
  Spec.is_result_object r -> JS.member r k = Normal (JS.get r k).
Proof. destruct r; simpl; try tauto; reflexivity. Qed.

Section Check.
Variable rt : Runtime.
Variable net : network.
Variable env : environment.

Lemma has_token_env :
  BakongAPIService.has_token (bakongAPI rt env) = env_set env "BAKONG_API_TOKEN".
Proof. reflexivity. Qed.

Lemma classified_is_object (r : value) (s : string) :
  resolvePaymentStatus rt r = Normal s -> s <> "error" -> Spec.is_result_object r.
Proof.
  intros E H. apply Classification.guard_object.
  unfold resolvePaymentStatus in E.
  destruct (negb (JS.ToBoolean r) || negb (JS.typeof_object r)); [|reflexivity].
  injection E as <-. now contradiction H.
Qed.

(** The warnings of the check handler are strings: joining them does not
    throw. *)
Lemma check_warning_normal (st : string) :
  exists warning, check_warning rt env st = Normal warning.
Proof.
  unfold check_warning, dev_warning, appendWarning.
  destruct (BakongAPIService.isUsingDevEnvironment _);
    destruct (String.eqb st "error"); simpl; eauto.
Qed.

(** The fields of the answer that report the lookup. *)
Lemma check_reply_fields (payment : option Payment.t) (l : lookup) :
  Spec.is_result_object (result l) ->
  JS.get (reply_body (check_reply rt env payment l)) "checkedBy" = VStr (checkedBy l)
  /\ JS.get (reply_body (check_reply rt env payment l)) "status" = VStr (status l)
  /\ JS.get (reply_body (check_reply rt env payment l)) "errorCode"
     = JS.get (result l) "errorCode"
  /\ JS.get (reply_body (check_reply rt env payment l)) "data" = JS.get (result l) "data".
Proof.
  intros H. unfold check_reply.
  destruct (check_warning_normal (status l)) as [warning ->].
  rewrite (object_member _ _ H). simpl. repeat split.
Qed.

(** The lookups of the handler, case by case. *)
Lemma reconcile_cases (payment : option Payment.t) (md5 : value) (tr : trace) :
  let first := BakongAPIService.checkTransactionByMD5 rt net (bakongAPI rt env) md5 tr in
  match fst first with
  | Throw e => reconcile rt net env payment md5 tr = (Throw e, snd first)
  | Normal r1 =>
      match resolvePaymentStatus rt r1 with
      | Throw e => reconcile rt net env payment md5 tr = (Throw e, snd first)
      | Normal s1 =>
          let primary :=
            {| result := r1; status := s1;
               checkedBy := "md5"; fallbackProvider := VNull |} in
          match payment with
          | Some p =>
              if wants_fallback env s1 payment
              then reconcile rt net env payment md5 tr
                   = fallback rt net env p primary (snd first)
              else reconcile rt net env payment md5 tr = (Normal primary, snd first)
          | None => reconcile rt net env payment md5 tr = (Normal primary, snd first)
          end
      end
  end.
Proof.
  cbv zeta. unfold reconcile, io_bind.
  destruct (BakongAPIService.checkTransactionByMD5 _ _ _ md5 tr) as [[r1|e] tr1];
    cbn [fst snd]; [|reflexivity].
  destruct (resolvePaymentStatus rt r1) as [s1|e]; [|reflexivity].
  destruct payment as [p|]; [|reflexivity].
  cbn [status]. destruct (wants_fallback env _ _); reflexivity.
Qed.

(** Where the trace of the handler comes from. *)
Lemma check_log req now w :
  log (snd (check rt net env req now w)) = log w
  \/ exists md5,
       JS.member (req_body req) "md5" = Normal md5
       /\ log (snd (check rt net env req now w))
          = snd (reconcile rt net env (ledger_get (payments w) md5) md5 (log w)).
Proof.
  unfold check.
  destruct (JS.member (req_body req) "md5") as [md5|e]; [|now left].
  destruct (JS.ToBoolean md5); cbn [negb]; [|now left].
  destruct (ledger_get (payments w) md5) as [p|] eqn:Hget.
  - destruct (JS.ToBoolean (Payment.manualSettledAt p)); [now left|].
    right. exists md5. rewrite Hget. split; [reflexivity|].
    destruct (reconcile rt net env (Some p) md5 (log w)) as [[l|e] tr]; reflexivity.
  - right. exists md5. rewrite Hget. split; [reflexivity|].
    destruct (reconcile rt net env None md5 (log w)) as [[l|e] tr]; reflexivity.
Qed.

End Check.

(** C3.  In the check handler, a request to the short-hash endpoint is
    made only if the primary lookup by md5 classified as 'pending', the
    payment is in the ledger with a non-empty qrString, and an API token
    is configured.  When these hold for a payment that was not settled by
    hand, checkTransactionByShortHash is called with the first 8
    hexadecimal characters of the SHA-256 of the stored qrString and with
    the stored amount and currency.  When its result is classified, it
    replaces the primary one (checkedBy 'short_hash', with the status,
    errorCode and data of the fallback) exactly when it classifies as
    'completed' or 'failed'; otherwise the answer keeps checkedBy 'md5' and
    the primary result.  When the classification of its result throws, the
    handler answers with the error and no result is replaced: the ledger
    is untouched. *)
Theorem short_hash_fallback_rule (rt : Runtime) (net : network) (env : environment)
    (req : http_request) (now : string) (w : world) :
  let api := bakongAPI rt env in
  let u := BakongAPIService.baseUrl api +:+ "/v1/check_transaction_by_short_hash" in
  let outcome := check rt net env req now w in
  (Exists (fetch_to u) (events_since (log w) (log (snd outcome))) ->
   exists k p r1 tr1,
     JS.member (req_body req) "md5" = Normal (VStr k)
     /\ payments w !! k = Some p
     /\ BakongAPIService.checkTransactionByMD5 rt net api (VStr k) (log w)
        = (Normal r1, tr1)
     /\ resolvePaymentStatus rt r1 = Normal "pending"
     /\ Payment.qrString p <> ""
     /\ env_set env "BAKONG_API_TOKEN" = true)
  /\ (forall k p r1 tr1,
        JS.member (req_body req) "md5" = Normal (VStr k) ->
        k <> "" ->
        payments w !! k = Some p ->
        JS.ToBoolean (Payment.manualSettledAt p) = false ->
        BakongAPIService.checkTransactionByMD5 rt net api (VStr k) (log w)
        = (Normal r1, tr1) ->
        resolvePaymentStatus rt r1 = Normal "pending" ->
        Payment.qrString p <> "" ->
        env_set env "BAKONG_API_TOKEN" = true ->
        let shortHash :=
          Str.take 8 (Crypto.hex (Crypto.SHA256.digest
                                    (Crypto.bytes_of (Payment.qrString p)))) in
        let payload :=
          VObj [ ("hash", VStr shortHash);
                 ("amount", VNum (Payment.amount p));
                 ("currency", VStr (Payment.currency p)) ] in
        let second :=
          BakongAPIService.checkTransactionByShortHash rt net api
            (VStr shortHash) (VNum (Payment.amount p)) (VStr (Payment.currency p)) tr1 in
        log (snd outcome) = snd second
        /\ Exists (fetch_of u payload) (events_since tr1 (snd second))
        /\ (forall r2 s2,
              fst second = Normal r2 ->
              resolvePaymentStatus rt r2 = Normal s2 ->
              let replaced := s2 = "completed" \/ s2 = "failed" in
              let answer := reply_body (fst outcome) in
              (JS.get answer "checkedBy" = VStr "short_hash" <-> replaced)
              /\ (replaced ->
                  JS.get answer "status" = VStr s2
                  /\ JS.get answer "errorCode" = JS.get r2 "errorCode"
                  /\ JS.get answer "data" = JS.get r2 "data")
              /\ (~ replaced ->
                  JS.get answer "checkedBy" = VStr "md5"
                  /\ JS.get answer "status" = VStr "pending"
                  /\ JS.get answer "errorCode" = JS.get r1 "errorCode"
                  /\ JS.get answer "data" = JS.get r1 "data"))
        /\ (forall r2 e,
              fst second = Normal r2 ->
              resolvePaymentStatus rt r2 = Throw e ->
              fst outcome = caught e
              /\ payments (snd outcome) = payments w)).
Proof.
  cbv zeta. split.
  - (* only when *)
    intros HE.
    destruct (check_log rt net env req now w) as [Hlog|(md5 & Hmd5 & Hlog)];
      rewrite Hlog in HE.
    { exfalso. rewrite <- (app_nil_r (log w)) in HE at 2.
      rewrite events_since_app in HE. inversion HE. }
    pose proof (reconcile_cases rt net env (ledger_get (payments w) md5) md5 (log w)) as Hc.
    cbv zeta in Hc.
    destruct (Client.postWithRetry_trace rt net (bakongAPI rt env)
                "/v1/check_transaction_by_md5" (VObj [("md5", md5)]) true
                (Opt.with_timeout (BakongAPIService.statusTimeoutMs (bakongAPI rt env)))
                (log w)) as (first & rest & _ & Htr & F1 & F2 & _).
    fold (BakongAPIService.checkTransactionByMD5 rt net (bakongAPI rt env) md5 (log w))
      in Htr.
    assert (~ Exists (fetch_to (BakongAPIService.baseUrl (bakongAPI rt env)
                                +:+ "/v1/check_transaction_by_short_hash"))
              (events_since (log w)
                 (snd (BakongAPIService.checkTransactionByMD5 rt net (bakongAPI rt env)
                         md5 (log w))))) as Hno.
    { rewrite Htr, events_since_app.
      apply (md5_lookup_is_no_short_hash_fetch _ (VObj [("md5", md5)])).
      apply Forall_app. split; [|assumption].
      eapply Forall_impl; [exact F1|]. intros [r|ms]; simpl; tauto. }
    destruct (BakongAPIService.checkTransactionByMD5 rt net (bakongAPI rt env) md5 (log w))
      as [[r1|e] tr1] eqn:Hfirst; cbn [fst snd] in Hc, Hno.
    2:{ rewrite Hc in HE. cbn [snd] in HE. contradiction. }
    destruct (resolvePaymentStatus rt r1) as [s1|e] eqn:Hs1.
    2:{ rewrite Hc in HE. cbn [snd] in HE. contradiction. }
    destruct (ledger_get (payments w) md5) as [p|] eqn:Hget.
    2:{ rewrite Hc in HE. cbn [snd] in HE. contradiction. }
    destruct (wants_fallback env s1 (Some p)) eqn:Hw.
    2:{ rewrite Hc in HE. cbn [snd] in HE. contradiction. }
    apply Ledger.truthy_key in Hget as (k & -> & Hk).
    unfold wants_fallback in Hw.
    apply andb_true_iff in Hw as [Hw Htok]. apply andb_true_iff in Hw as [Hst Hqr].
    apply String.eqb_eq in Hst. subst s1.
    exists k, p, r1, tr1.
    split; [assumption|]. split; [assumption|]. split; [assumption|].
    split; [assumption|].
    split; [now apply String.eqb_neq, negb_true_iff|assumption].
  - (* when, and with what result *)
    intros k p r1 tr1 Hmd5 Hk Hp Hman Hfirst Hst Hqr Htok.
    pose proof (reconcile_cases rt net env (Some p) (VStr k) (log w)) as Hc.
    cbv zeta in Hc. rewrite Hfirst in Hc. cbn [fst snd] in Hc. rewrite Hst in Hc.
    assert (wants_fallback env "pending" (Some p) = true) as Hw.
    { unfold wants_fallback. rewrite Htok.
      apply String.eqb_neq in Hqr. now rewrite Hqr. }
    rewrite Hw in Hc. unfold fallback, io_bind in Hc.
    fold (KHQRService.generateShortHash (Payment.qrString p)).
    destruct (Client.postWithRetry_trace rt net (bakongAPI rt env)
                "/v1/check_transaction_by_short_hash"
                (VObj [ ("hash", VStr (KHQRService.generateShortHash (Payment.qrString p)));
                        ("amount", VNum (Payment.amount p));
                        ("currency", VStr (Payment.currency p)) ]) true
                (Opt.with_timeout (BakongAPIService.statusTimeoutMs (bakongAPI rt env)))
                tr1) as (first & rest & _ & Htr & F1 & _ & Hne).
    fold (BakongAPIService.checkTransactionByShortHash rt net (bakongAPI rt env)
            (VStr (KHQRService.generateShortHash (Payment.qrString p)))
            (VNum (Payment.amount p)) (VStr (Payment.currency p)) tr1) in Htr.
    assert (first <> []) as Hfirst_ne.
    { apply Hne. rewrite has_token_env, Htok. reflexivity. }
    assert (Spec.is_result_object r1) as Hobj1.
    { apply (classified_is_object rt r1 "pending" Hst). discriminate. }
    assert (Exists (fetch_of (BakongAPIService.baseUrl (bakongAPI rt env)
                              +:+ "/v1/check_transaction_by_short_hash")
                      (VObj [ ("hash", VStr (KHQRService.generateShortHash
                                               (Payment.qrString p)));
                              ("amount", VNum (Payment.amount p));
                              ("currency", VStr (Payment.currency p)) ]))
              (events_since tr1
                 (snd (BakongAPIService.checkTransactionByShortHash rt net
                         (bakongAPI rt env)
                         (VStr (KHQRService.generateShortHash (Payment.qrString p)))
                         (VNum (Payment.amount p)) (VStr (Payment.currency p)) tr1))))
      as HEx.
    { rewrite Htr, events_since_app. apply Exists_app. left.
      destruct first as [|ev first]; [contradiction|].
      apply Exists_cons_hd. now apply Forall_cons in F1 as [F1 _]. }
    destruct (BakongAPIService.checkTransactionByShortHash rt net (bakongAPI rt env)
                (VStr (KHQRService.generateShortHash (Payment.qrString p)))
                (VNum (Payment.amount p)) (VStr (Payment.currency p)) tr1)
      as [[r2|e] tr2] eqn:Hsecond; cbn [fst snd] in *.
    + (* the fallback returned *)
      unfold check. rewrite Hmd5, (Ledger.truthy_text k Hk). cbn [negb ledger_get].
      rewrite Hp, Hman, Hc.
      destruct (resolvePaymentStatus rt r2) as [s2|e2] eqn:Hs2.
      * (* and is classified *)
        destruct (String.eqb s2 "completed" || String.eqb s2 "failed") eqn:Hrep;
          unfold io_ret; cbn [fst snd log].
        -- assert (s2 = "completed" \/ s2 = "failed") as Hor.
           { apply orb_true_iff in Hrep as [H|H]; apply String.eqb_eq in H; tauto. }
           assert (Spec.is_result_object r2) as Hobj2.
           { apply (classified_is_object rt r2 s2 Hs2).
             destruct Hor as [-> | ->]; discriminate. }
           split; [reflexivity|]. split; [assumption|]. split; [|intros; congruence].
           intros r2' s2' E Es. injection E as <-.
           rewrite Hs2 in Es. injection Es as <-.
           match goal with
           | |- context [check_reply rt env ?pay ?l] =>
               destruct (check_reply_fields rt env pay l Hobj2) as (H1 & H2 & H3 & H4)
           end.
           cbn [checkedBy status result] in H1, H2, H3, H4.
           rewrite H1, H2, H3, H4.
           split; [tauto|]. split; [tauto|]. tauto.
        -- assert (~ (s2 = "completed" \/ s2 = "failed")) as Hnor.
           { apply orb_false_iff in Hrep as [H1 H2].
             apply String.eqb_neq in H1, H2. tauto. }
           split; [reflexivity|]. split; [assumption|]. split; [|intros; congruence].
           intros r2' s2' E Es. injection E as <-.
           rewrite Hs2 in Es. injection Es as <-.
           cbn [checkedBy status result].
           match goal with
           | |- context [check_reply rt env ?pay ?l] =>
               destruct (check_reply_fields rt env pay l Hobj1) as (H1 & H2 & H3 & H4)
           end.
           cbn [checkedBy status result] in H1, H2, H3, H4.
           rewrite H1, H2, H3, H4.
           split; [|split; [tauto|]].
           ++ split; [discriminate | tauto].
           ++ intros _. repeat split.
      * (* and its classification throws *)
        unfold io_throw. cbn [fst snd log payments].
        split; [reflexivity|]. split; [assumption|]. split; [intros; congruence|].
        intros r2' e' E Es. injection E as <-.
        rewrite Hs2 in Es. injection Es as <-. now split.
    + (* the fallback threw *)
      unfold check. rewrite Hmd5, (Ledger.truthy_text k Hk). cbn [negb ledger_get].
      rewrite Hp, Hman, Hc. cbn [fst snd log].
      split; [reflexivity|]. split; [assumption|]. split; intros; discriminate.
Qed.

Lemma short_hash_fallback_rule_witness :
  let w := Demo.generated Demo.net_short_hash_only in
  let outcome :=
    check Demo.rt Demo.net_short_hash_only Demo.env Demo.key_request
      "2026-11-02T22:15:00.000Z" w in
  resolvePaymentStatus Demo.rt
    (VObj [ ("responseCode", VNum 0);
            ("data", VObj [ ("hash", VStr "8a7b6c5d");
                            ("fromAccountId", VStr "payer@bank") ]) ])
  = Normal "completed"
  /\ (JS.get (reply_body (fst outcome)) "checkedBy" = VStr "short_hash"
      <-> "completed" = "completed" \/ "completed" = "failed").
Proof.
  split; [vm_compute; reflexivity|].
  destruct (short_hash_fallback_rule Demo.rt Demo.net_short_hash_only Demo.env
              Demo.key_request "2026-11-02T22:15:00.000Z"
              (Demo.generated Demo.net_short_hash_only)) as [_ H].
  cbv zeta in H.
  destruct (H Demo.key Demo.stored
              (VObj [ ("responseCode", VNum 1); ("errorCode", VNum 1);
                      ("responseMessage",
                        VStr "Transaction could not be found. Please check and try again.") ])
              (log (Demo.generated Demo.net_short_hash_only)
               ++ [EvFetch
                     {| url := "https://api-bakong.nbc.org.kh/v1/check_transaction_by_md5";
                        headers := [ ("Content-Type", "application/json");
                                     ("Authorization", "Bearer secret-token") ];
                        body := VObj [("md5", VStr Demo.key)];
                        abort_after := Int 18000;
                        ipv4_agent := false |}]))
    as (_ & _ & Hr & _).
  - reflexivity.
  - vm_compute. discriminate.
  - vm_compute. reflexivity.
  - reflexivity.
  - vm_compute. reflexivity.
  - vm_compute. reflexivity.
  - vm_compute. discriminate.
  - vm_compute. reflexivity.
  - destruct (Hr (VObj [ ("responseCode", VNum 0);
                         ("data", VObj [ ("hash", VStr "8a7b6c5d");
                                         ("fromAccountId", VStr "payer@bank") ]) ])
                 "completed") as [Hr' _].
    + vm_compute. reflexivity.
    + vm_compute. reflexivity.
    + exact Hr'.
Defined.

(** The requests of that status check: the lookup by md5, then the lookup
    by short hash. *)
Example short_hash_fallback_requests :
  let w := Demo.generated Demo.net_short_hash_only in
  let outcome :=
    check Demo.rt Demo.net_short_hash_only Demo.env Demo.key_request
      "2026-11-02T22:15:00.000Z" w in
  fetches (events_since (log w) (log (snd outcome)))
  = [ {| url := "https://api-bakong.nbc.org.kh/v1/check_transaction_by_md5";
         headers := [ ("Content-Type", "application/json");
                      ("Authorization", "Bearer secret-token") ];
         body := VObj [("md5", VStr Demo.key)];
         abort_after := Int 18000;
         ipv4_agent := false |};
      {| url := "https://api-bakong.nbc.org.kh/v1/check_transaction_by_short_hash";
         headers := [ ("Content-Type", "application/json");
                      ("Authorization", "Bearer secret-token") ];
         body := VObj [ ("hash", VStr "602a6620"); ("amount", VNum 5);
                        ("currency", VStr "USD") ];
         abort_after := Int 18000;
         ipv4_agent := false |} ].
Proof. vm_compute. reflexivity. Qed.

End Fallback.

(* ===================================================================== *)
(** * Further properties of the code *)
(* ===================================================================== *)

(** ** khqrService.js: validation, generated hashes, what the library receives *)

Module KhqrMore.
Import KHQRService.

(** The three outcomes of the test [!v || !String(v).trim()]. *)
Lemma is_blank_cases (rt : Runtime) (v : value) :
  (JS.converts v = true /\ Inv.blank rt v /\ is_blank rt v = Normal true)
  \/ (JS.converts v = true /\ ~ Inv.blank rt v /\ is_blank rt v = Normal false)
  \/ (JS.converts v = false /\ is_blank rt v = Throw JS.cannot_convert).
Proof.
  unfold is_blank, JS.ToString, Inv.blank.
  destruct (JS.ToBoolean v) eqn:T; cbn [negb].
  - destruct (JS.converts v); [|right; right; now split].
    destruct (String.eqb (Str.trim (JS.StringOf rt v)) "") eqn:B.
    + left. apply String.eqb_eq in B. tauto.
    + right. left. apply String.eqb_neq in B.
      split; [reflexivity|]. split; [|reflexivity]. intros [H|H]; congruence.
  - left. split; [|tauto]. destruct v; try reflexivity; discriminate.
Qed.

Lemma validate_values (rt : Runtime) (acct name v : value) :
  validateRequiredFields rt acct name = Normal v ->
  JS.ToBoolean v = true
  \/ (v = VNull /\ ~ Inv.blank rt acct /\ ~ Inv.blank rt name).
Proof.
  unfold validateRequiredFields.
  destruct (is_blank_cases rt acct) as [(_ & _ & ->)|[(_ & Ha & ->)|(_ & ->)]];
    [intros E; injection E as <-; now left | | discriminate].
  destruct (is_blank_cases rt name) as [(_ & _ & ->)|[(_ & Hn & ->)|(_ & ->)]];
    [intros E; injection E as <-; now left | | discriminate].
  intros E; injection E as <-. right. tauto.
Qed.

(** X1.  Both generators examine the account id and then the merchant
    name before they consult the KHQR library, so what follows is the
    same for every library.  A blank account id (missing, falsy, or white
    space only) gives the failure 'Bakong account ID is required'; an
    account id that is there with a blank merchant name gives the failure
    'Merchant name is required'; and an account id that [String] cannot
    convert, or one that is there with such a merchant name, makes both
    generators throw the TypeError of the conversion. *)
Theorem required_fields_checked_first (rt : Runtime) (now : float) (a : args) :
  let both (r : completion qr_result) :=
    forall lib : KHQRLibrary,
      generateIndividualQR rt lib now a = r /\ generateMerchantQR rt lib now a = r in
  (JS.converts (accountId a) = true -> Inv.blank rt (accountId a) ->
   both (Normal (QrFailure (VStr "Bakong account ID is required"))))
  /\ (JS.converts (accountId a) = true -> ~ Inv.blank rt (accountId a) ->
      JS.converts (merchantName a) = true -> Inv.blank rt (merchantName a) ->
      both (Normal (QrFailure (VStr "Merchant name is required"))))
  /\ (JS.converts (accountId a) = false ->
      both (Throw JS.cannot_convert))
  /\ (JS.converts (accountId a) = true -> ~ Inv.blank rt (accountId a) ->
      JS.converts (merchantName a) = false ->
      both (Throw JS.cannot_convert)).
Proof.
  cbv zeta. unfold generateIndividualQR, generateMerchantQR, validateRequiredFields.
  destruct (is_blank_cases rt (accountId a))
    as [(Ca & Ha & ->)|[(Ca & Ha & ->)|(Ca & ->)]];
    [ | destruct (is_blank_cases rt (merchantName a))
          as [(Cn & Hn & ->)|[(Cn & Hn & ->)|(Cn & ->)]] | ];
    repeat split; intros; try congruence; try contradiction; reflexivity.
Qed.

Lemma required_fields_checked_first_witness :
  (forall lib : KHQRLibrary,
     generateIndividualQR Demo.rt lib 0 Sample.args_without_account
     = Normal (QrFailure (VStr "Bakong account ID is required"))
     /\ generateMerchantQR Demo.rt lib 0 Sample.args_without_account
        = Normal (QrFailure (VStr "Bakong account ID is required")))
  /\ (forall lib : KHQRLibrary,
        generateIndividualQR Demo.rt lib 0 Sample.args_without_name
        = Normal (QrFailure (VStr "Merchant name is required"))
        /\ generateMerchantQR Demo.rt lib 0 Sample.args_without_name
           = Normal (QrFailure (VStr "Merchant name is required")))
  /\ (forall lib : KHQRLibrary,
        generateIndividualQR Demo.rt lib 0 Sample.args_unconvertible
        = Throw JS.cannot_convert
        /\ generateMerchantQR Demo.rt lib 0 Sample.args_unconvertible
           = Throw JS.cannot_convert).
Proof.
  split; [|split].
  - destruct (required_fields_checked_first Demo.rt 0 Sample.args_without_account)
      as (H & _).
    apply H; [reflexivity | left; reflexivity].
  - destruct (required_fields_checked_first Demo.rt 0 Sample.args_without_name)
      as (_ & H & _).
    apply H; [reflexivity | intros [E|E]; discriminate E | reflexivity
             | right; reflexivity].
  - destruct (required_fields_checked_first Demo.rt 0 Sample.args_unconvertible)
      as (_ & _ & H & _).
    apply H. reflexivity.
Defined.

(** X2.  When a generator succeeds, the md5 it returns is the MD5 digest
    of the QR string it returns, written as 32 lower-case hexadecimal
    digits, and neither required field was blank. *)
Theorem generated_md5_is_digest (rt : Runtime) (lib : KHQRLibrary) (now : float)
    (a : args) (q m : string) :
  generateIndividualQR rt lib now a = Normal (QrSuccess q m)
  \/ generateMerchantQR rt lib now a = Normal (QrSuccess q m) ->
  m = generateMD5 q
  /\ Spec.lowercase_hex32 m
  /\ ~ Inv.blank rt (accountId a)
  /\ ~ Inv.blank rt (merchantName a).
Proof.
  intros H. unfold generateIndividualQR, generateMerchantQR in H.
  destruct (validateRequiredFields rt (accountId a) (merchantName a)) as [v|e] eqn:E;
    [|destruct H; discriminate].
  destruct (validate_values rt _ _ v E) as [T|(-> & Hna & Hnn)].
  { rewrite T in H. destruct H; discriminate. }
  cbn [JS.ToBoolean] in H.
  assert (m = generateMD5 q) as ->
    by (destruct H as [H|H]; exact (Khqr.finish_md5 _ _ _ H)).
  split; [reflexivity|]. split; [apply Khqr.generateMD5_format|]. now split.
Qed.

Lemma generated_md5_is_digest_witness :
  Demo.key = generateMD5 Demo.qr
  /\ Spec.lowercase_hex32 Demo.key
  /\ ~ Inv.blank Demo.rt (accountId Sample.args_valid)
  /\ ~ Inv.blank Demo.rt (merchantName Sample.args_valid).
Proof.
  apply (generated_md5_is_digest Demo.rt Demo.lib 0 Sample.args_valid
           Demo.qr Demo.key).
  left. vm_compute. reflexivity.
Defined.




Lemma round_length (st : list Z) (kw : Z * Z) :
  length (Crypto.SHA256.round st kw) = length st.
Proof.
  unfold Crypto.SHA256.round.
  repeat (destruct st as [|? st]; try reflexivity).
Qed.

Lemma compress_length (st block : list Z) :
  length (Crypto.SHA256.compress st block) = length st.
Proof.
  unfold Crypto.SHA256.compress, Crypto.SHA256.zip_add.
  rewrite length_map, length_combine.
  assert (forall l s, length (fold_left Crypto.SHA256.round l s) = length s) as ->.
  { induction l as [|x l IH]; intros s; simpl; [reflexivity|].
    now rewrite IH, round_length. }
  apply Nat.min_id.
Qed.

Lemma digest_length (msg : list Z) : length (Crypto.SHA256.digest msg) = 32%nat.
Proof.
  unfold Crypto.SHA256.digest.
  assert (forall l s, length (fold_left Crypto.SHA256.compress l s) = length s) as H.
  { induction l as [|x l IH]; intros s; simpl; [reflexivity|].
    now rewrite IH, compress_length. }
  specialize (H (Crypto.split_blocks 64
                   (Crypto.pad (Crypto.be_bytes 8 (8 * Z.of_nat (length msg))) msg))
                Crypto.SHA256.initial).
  destruct (fold_left _ _ _) as [|a [|b [|c [|d [|e [|f [|g [|h [|i l]]]]]]]]];
    try discriminate H.
  cbn [List.map concat]. rewrite !length_app. unfold Crypto.be_bytes.
  rewrite !length_rev, !Khqr.le_bytes_length. reflexivity.
Qed.

Lemma take_append (n : nat) (s : string) :
  (n <= String.length s)%nat ->
  exists rest, s = Str.take n s +:+ rest /\ String.length (Str.take n s) = n.
Proof.
  revert s. induction n as [|n IH]; intros s H.
  - exists s. destruct s; split; reflexivity.
  - destruct s as [|c s]; [simpl in H; lia|].
    destruct (IH s) as (rest & E & L); [simpl in H; lia|].
    exists rest. split.
    + change (String c s = String c (Str.take n s +:+ rest)). now f_equal.
    + simpl. now rewrite L.
Qed.

Lemma Forall_prefix (P : ascii -> Prop) (s t : string) :
  Forall P (list_ascii_of_string (s +:+ t)) -> Forall P (list_ascii_of_string s).
Proof.
  induction s as [|c s IH]; simpl; [constructor|].
  intros H. inversion H; subst. constructor; auto.
Qed.

(** X4.  [generateShortHash] returns the first eight characters of the
    SHA-256 digest in hexadecimal: eight lower-case hexadecimal digits,
    followed in the full digest by 56 more. *)
Theorem generateShortHash_format (qrString : string) :
  String.length (generateShortHash qrString) = 8%nat
  /\ Forall (fun c => In c (list_ascii_of_string "0123456789abcdef"))
       (list_ascii_of_string (generateShortHash qrString))
  /\ exists rest,
       Crypto.hex (Crypto.SHA256.digest (Crypto.bytes_of qrString))
       = generateShortHash qrString +:+ rest
       /\ String.length rest = 56%nat.
Proof.
  unfold generateShortHash. cbv zeta.
  set (full := Crypto.hex (Crypto.SHA256.digest (Crypto.bytes_of qrString))).
  assert (String.length full = 64%nat) as HL.
  { unfold full. rewrite Khqr.hex_length, digest_length. reflexivity. }
  destruct (take_append 8 full) as (rest & E & L); [lia|].
  split; [exact L|]. split.
  - apply (Forall_prefix _ _ rest). rewrite <- E. apply Khqr.hex_lowercase.
  - exists rest. split; [exact E|].
    assert (String.length full = (String.length (Str.take 8 full) + String.length rest)%nat)
      as H.
    { rewrite E at 1. clear. generalize (Str.take 8 full) as s.
      induction s as [|c s IH]; simpl; [reflexivity | now rewrite IH]. }
    lia.
Qed.

End KhqrMore.

(** ** bakongAPI.js: credentials, exceptions, exhaustion of the retries *)

Module ClientMore.
Import BakongAPIService.

Lemma emitted_app {A : Type} (m : IO A) (tr evs : trace) :
  snd (m tr) = tr ++ evs -> Obs.emitted m tr = evs.
Proof. intros E. unfold Obs.emitted. rewrite E. apply Fallback.events_since_app. Qed.

Section Post.
Variable rt : Runtime.
Variable net : network.
Variable this : t.

(** The requests of one call of [post]. *)
Lemma post_events endpoint payload requiresAuth options tr :
  let r1 := EvFetch (fetch_request rt this endpoint payload requiresAuth options) in
  let r2 := EvFetch (fetch_request rt this endpoint payload requiresAuth
                       (Opt.forced options)) in
  (requiresAuth && negb (has_token this) = true
   /\ post rt net this endpoint payload requiresAuth options tr
      = (Normal missing_token, tr))
  \/ (requiresAuth && negb (has_token this) = false
      /\ (snd (post rt net this endpoint payload requiresAuth options tr) = tr ++ [r1]
          \/ snd (post rt net this endpoint payload requiresAuth options tr)
             = tr ++ [r1; r2])).
Proof.
  cbv zeta. rewrite Client.post_body.
  destruct (requiresAuth && negb (has_token this)) eqn:G; [left; now split|].
  right. split; [reflexivity|]. cbv zeta.
  destruct (net _) as [e|r]; [|left; reflexivity].
  destruct (wants_ipv4_fallback rt this options e); [|left; reflexivity].
  right. rewrite (Client.post_forced rt net this _ _ _ _ _ G). cbn [snd].
  now rewrite <- app_assoc.
Qed.

Lemma post_forall (P : event -> Prop) endpoint payload requiresAuth options :
  (forall o, P (EvFetch (fetch_request rt this endpoint payload requiresAuth o))) ->
  forall tr, exists evs,
    snd (post rt net this endpoint payload requiresAuth options tr) = tr ++ evs
    /\ Forall P evs
    /\ (requiresAuth && negb (has_token this) = false -> evs <> []).
Proof.
  intros HP tr.
  destruct (post_events endpoint payload requiresAuth options tr)
    as [[G E]|[G [E|E]]].
  - exists []. rewrite E, app_nil_r. split; [reflexivity|]. split; [constructor|].
    congruence.
  - eexists [_]. split; [exact E|]. split; [|discriminate].
    repeat constructor; apply HP.
  - eexists [_; _]. split; [exact E|]. split; [|discriminate].
    repeat constructor; apply HP.
Qed.

Lemma retry_loop_forall (P : event -> Prop) (attempt : IO value) (delay : integral) :
  (forall tr, exists evs, snd (attempt tr) = tr ++ evs /\ Forall P evs) ->
  P (EvSleep delay) ->
  forall m v tr, exists evs,
    snd (retry_loop rt attempt delay m v tr) = tr ++ evs /\ Forall P evs.
Proof.
  intros Ha Hs. induction m as [|m IH]; intros v tr.
  - exists []. simpl. rewrite app_nil_r. split; [reflexivity | constructor].
  - cbn [retry_loop]. unfold io_bind at 1. unfold sleep, io_emit. unfold io_bind.
    destruct (Ha (tr ++ [EvSleep delay])) as (evs1 & H1 & F1).
    destruct (attempt (tr ++ [EvSleep delay])) as [[v'|e] tr'] eqn:Hp;
      cbn [snd] in H1; subst tr'.
    + destruct (isRetryable rt v') as [[|]|e]; cbn [negb].
      * destruct (IH v' ((tr ++ [EvSleep delay]) ++ evs1)) as (evs2 & H2 & F2).
        exists ((EvSleep delay :: evs1) ++ evs2). rewrite H2.
        rewrite <- !app_assoc. split; [reflexivity|].
        apply Forall_app. split; [now constructor | assumption].
      * exists (EvSleep delay :: evs1). unfold io_ret. cbn [snd].
        rewrite <- app_assoc. split; [reflexivity | now constructor].
      * exists (EvSleep delay :: evs1). unfold io_throw. cbn [snd].
        rewrite <- app_assoc. split; [reflexivity | now constructor].
    + exists (EvSleep delay :: evs1). cbn [snd]. rewrite <- app_assoc.
      split; [reflexivity | now constructor].
Qed.

Lemma postWithRetry_forall (P : event -> Prop) endpoint payload requiresAuth options :
  (forall o, P (EvFetch (fetch_request rt this endpoint payload requiresAuth o))) ->
  (forall ms, P (EvSleep ms)) ->
  forall tr, exists evs,
    snd (postWithRetry rt net this endpoint payload requiresAuth options tr) = tr ++ evs
    /\ Forall P evs.
Proof.
  intros HP Hs tr. unfold postWithRetry, with_retry, io_bind.
  destruct (post_forall P endpoint payload requiresAuth options HP tr)
    as (first & H1 & F1 & _).
  destruct (post rt net this endpoint payload requiresAuth options tr)
    as [[v|e] tr1] eqn:Hp; cbn [snd] in H1; subst tr1.
  - destruct (isRetryable rt v) as [retryable|e]; [|exists first; now split].
    destruct (negb retryable || _).
    + exists first. now split.
    + destruct (retry_loop_forall P
                  (post rt net this endpoint payload requiresAuth options)
                  (reparse rt (Opt.retryDelayMs options) (retryDelayMs this)))
        with (m := iterations (reparse rt (Opt.retries options) (retryAttempts this)))
             (v := v) (tr := tr ++ first) as (rest & H2 & F2).
      * intros tr'.
        destruct (post_forall P endpoint payload requiresAuth options HP tr')
          as (evs & H & F & _). now exists evs.
      * apply Hs.
      * exists (first ++ rest). rewrite H2, <- app_assoc. split; [reflexivity|].
        apply Forall_app. now split.
  - exists first. now split.
Qed.

End Post.

(** X5.  The three registration methods and [generateDeeplink] are sent
    whether or not a token is configured: each makes at least one request
    and at most two, and none of their requests carries an Authorization
    header, so the token never goes out with them. *)
Theorem unauthenticated_methods_send_no_token (rt : Runtime) (net : network)
    (this : t) (m : IO value) (tr : trace) :
  (exists email organization project, m = requestToken rt net this email organization project)
  \/ (exists code, m = verifyToken rt net this code)
  \/ (exists email, m = renewToken rt net this email)
  \/ (exists qrString sourceInfo, m = generateDeeplink rt net this qrString sourceInfo) ->
  snd (m tr) = tr ++ Obs.emitted m tr
  /\ Forall Obs.plain_fetch (Obs.emitted m tr)
  /\ (1 <= length (Obs.emitted m tr) <= 2)%nat.
Proof.
  intros H.
  assert (exists endpoint payload options, m = post rt net this endpoint payload false options)
    as (endpoint & payload & options & ->).
  { destruct H as [(a & b & c & ->)|[(a & ->)|[(a & ->)|(a & b & ->)]]];
      unfold requestToken, verifyToken, renewToken, generateDeeplink; eauto. }
  destruct (post_events rt net this endpoint payload false options tr)
    as [[G _]|[_ [E|E]]]; [discriminate| |];
    rewrite (emitted_app _ _ _ E); (split; [exact E|]);
    (split; [repeat constructor | simpl; lia]).
Qed.

Lemma unauthenticated_methods_send_no_token_witness :
  snd (verifyToken Demo.rt Demo.net_paid Demo.api_without_token (VStr "123456") [])
  = [] ++ Obs.emitted (verifyToken Demo.rt Demo.net_paid Demo.api_without_token
                         (VStr "123456")) []
  /\ Forall Obs.plain_fetch
       (Obs.emitted (verifyToken Demo.rt Demo.net_paid Demo.api_without_token
                       (VStr "123456")) [])
  /\ (1 <= length (Obs.emitted (verifyToken Demo.rt Demo.net_paid
                                  Demo.api_without_token (VStr "123456")) []) <= 2)%nat.
Proof.
  apply (unauthenticated_methods_send_no_token Demo.rt Demo.net_paid
           Demo.api_without_token).
  right. left. exists (VStr "123456"). reflexivity.
Defined.

(** X6.  The four methods that read the state of a transaction or of an
    account authenticate every request they make: with a token configured,
    each request carries exactly the Content-Type header and
    [Authorization: Bearer <token>], during the retries as well, and at
    least one request is made. *)
Theorem authenticated_methods_send_bearer_token (rt : Runtime) (net : network)
    (this : t) (token : string) (m : IO value) (tr : trace) :
  apiToken this = Some token -> token <> "" ->
  (exists md5, m = checkTransactionByMD5 rt net this md5)
  \/ (exists hash, m = checkTransactionByHash rt net this hash)
  \/ (exists shortHash amount currency,
        m = checkTransactionByShortHash rt net this shortHash amount currency)
  \/ (exists accountId, m = checkBakongAccount rt net this accountId) ->
  snd (m tr) = tr ++ Obs.emitted m tr
  /\ Forall (Obs.sleep_or_bearer_fetch token) (Obs.emitted m tr)
  /\ Exists (fun ev => is_fetch ev = true) (Obs.emitted m tr).
Proof.
  intros Htok Hne H.
  assert (has_token this = true) as Hhas.
  { unfold has_token. rewrite Htok. now apply negb_true_iff, String.eqb_neq. }
  assert (forall endpoint payload o,
            Obs.sleep_or_bearer_fetch token
              (EvFetch (fetch_request rt this endpoint payload true o))) as HP.
  { intros. simpl. unfold request_headers, token_text. now rewrite Htok. }
  assert (forall endpoint payload options,
            m = post rt net this endpoint payload true options
            \/ m = postWithRetry rt net this endpoint payload true options ->
            snd (m tr) = tr ++ Obs.emitted m tr
            /\ Forall (Obs.sleep_or_bearer_fetch token) (Obs.emitted m tr)
            /\ Exists (fun ev => is_fetch ev = true) (Obs.emitted m tr)) as Hgen.
  { intros endpoint payload options [->| ->].
    - destruct (post_events rt net this endpoint payload true options tr)
        as [[G _]|[_ [E|E]]]; [rewrite Hhas in G; discriminate| |];
        rewrite (emitted_app _ _ _ E); (split; [exact E|]);
        (split; [repeat constructor; apply HP | now constructor]).
    - destruct (Client.postWithRetry_trace rt net this endpoint payload true options tr)
        as (first & rest & _ & E & F1 & _ & Hne1).
      destruct (postWithRetry_forall rt net this (Obs.sleep_or_bearer_fetch token)
                  endpoint payload true options (HP endpoint payload)
                  (fun _ => I) tr) as (evs & E' & F).
      rewrite (emitted_app _ _ _ E'). split; [exact E'|]. split; [exact F|].
      assert (evs = first ++ rest) as -> by (rewrite E in E'; now apply app_inv_head in E').
      destruct first as [|[r|ms] first]; [rewrite Hhas in Hne1; now destruct Hne1 | | ].
      + now constructor.
      + inversion F1; subst. contradiction. }
  destruct H as [(a & ->)|[(a & ->)|[(a & b & c & ->)|(a & ->)]]];
    unfold checkTransactionByMD5, checkTransactionByHash, checkTransactionByShortHash,
      checkBakongAccount; eapply Hgen; eauto.
Qed.

Lemma authenticated_methods_send_bearer_token_witness :
  snd (checkTransactionByMD5 Demo.rt Demo.net_down Demo.api (VStr Demo.key) [])
  = [] ++ Obs.emitted (checkTransactionByMD5 Demo.rt Demo.net_down Demo.api
                         (VStr Demo.key)) []
  /\ Forall (Obs.sleep_or_bearer_fetch "secret-token")
       (Obs.emitted (checkTransactionByMD5 Demo.rt Demo.net_down Demo.api
                       (VStr Demo.key)) [])
  /\ Exists (fun ev => is_fetch ev = true)
       (Obs.emitted (checkTransactionByMD5 Demo.rt Demo.net_down Demo.api
                       (VStr Demo.key)) []).
Proof.
  apply (authenticated_methods_send_bearer_token Demo.rt Demo.net_down Demo.api
           "secret-token").
  - reflexivity.
  - discriminate.
  - left. exists (VStr Demo.key). reflexivity.
Defined.

(** X7.  [post] throws in one situation only: the provider answered with
    an HTTP error status and a JSON body that is [null], so that reading
    [result.responseCode] fails.  Every other outcome, a missing token, a
    rejected or aborted request, an unparsable body, is returned as a
    result object. *)
Theorem post_throws_only_on_null_error_body (rt : Runtime) (net : network)
    (this : t) (endpoint : string) (payload : value) (requiresAuth : bool)
    (options : Opt.t) (tr : trace) (e : value) :
  fst (post rt net this endpoint payload requiresAuth options tr) = Throw e ->
  exists r b,
    net (snd (post rt net this endpoint payload requiresAuth options tr)) = Resolved r
    /\ ok r = false
    /\ json r = Some b
    /\ JS.nullish b = true
    /\ JS.member b "responseCode" = Throw e.
Proof.
  assert (forall r, read_response rt r = Throw e ->
            exists b, ok r = false /\ json r = Some b /\ JS.nullish b = true
                      /\ JS.member b "responseCode" = Throw e) as Hread.
  { intros r. unfold read_response.
    destruct (json r) as [b|]; [|discriminate].
    destruct (ok r); cbn [negb]; [discriminate|].
    destruct (JS.member b "responseCode") as [rc|e'] eqn:Hm.
    - destruct (JS.is_undefined rc); discriminate.
    - intros E. injection E as ->. exists b.
      split; [reflexivity|]. split; [reflexivity|]. split; [|exact Hm].
      destruct b; try discriminate Hm; reflexivity. }
  rewrite Client.post_body.
  destruct (requiresAuth && negb (has_token this)) eqn:G; [discriminate|].
  cbv zeta.
  destruct (net (tr ++ [EvFetch (fetch_request rt this endpoint payload requiresAuth
                                   options)])) as [e1|r] eqn:Hnet.
  - destruct (wants_ipv4_fallback rt this options e1); [|discriminate].
    rewrite (Client.post_forced rt net this _ _ _ _ _ G). cbv zeta. cbn [fst snd].
    match goal with
    | |- context [match net ?t with _ => _ end] =>
        destruct (net t) as [e2|r] eqn:Hnet2; [discriminate|]
    end.
    intros E. destruct (Hread r E) as (b & H). exists r, b. now split.
  - cbn [fst snd]. intros E. destruct (Hread r E) as (b & H).
    exists r, b. rewrite Hnet. now split.
Qed.

Lemma post_throws_only_on_null_error_body_witness :
  exists r b,
    Sample.net_null_error
      (snd (post Demo.rt Sample.net_null_error Demo.api "/v1/check_bakong_account"
              (VObj [("accountId", VStr "shop@bank")]) true Opt.empty []))
    = Resolved r
    /\ ok r = false
    /\ json r = Some b
    /\ JS.nullish b = true
    /\ JS.member b "responseCode"
       = Throw (TypeError "Cannot read properties of null (reading 'responseCode')").
Proof.
  apply (post_throws_only_on_null_error_body Demo.rt Sample.net_null_error Demo.api
           "/v1/check_bakong_account" (VObj [("accountId", VStr "shop@bank")]) true
           Opt.empty []).
  vm_compute. reflexivity.
Defined.

Lemma transport_failure_retryable (rt : Runtime) (this : t) (options : Opt.t)
    (e : fetch_error) :
  let v := if JS.is_string (name e) "AbortError"
           then timeout_result rt
                  (reparse rt (Opt.timeoutMs options) (timeoutMs this)) options
           else network_error_result e in
  Obs.transport_failure v /\ isRetryable rt v = Normal true.
Proof.
  cbv zeta. destruct (JS.is_string (name e) "AbortError").
  - split; [split; [reflexivity | left; reflexivity] | reflexivity].
  - split; [split; [reflexivity | right; reflexivity] | reflexivity].
Qed.

Lemma post_unreachable rt net this endpoint payload requiresAuth options tr :
  Obs.unreachable net ->
  requiresAuth && negb (has_token this) = false ->
  exists v tr',
    post rt net this endpoint payload requiresAuth options tr = (Normal v, tr')
    /\ Obs.transport_failure v
    /\ isRetryable rt v = Normal true
    /\ (count_fetches tr + 1 <= count_fetches tr')%nat.
Proof.
  intros Hnet G. rewrite Client.post_body, G. cbv zeta.
  destruct (Hnet (tr ++ [EvFetch (fetch_request rt this endpoint payload requiresAuth
                                     options)])) as [e1 ->].
  destruct (wants_ipv4_fallback rt this options e1).
  - rewrite (Client.post_forced rt net this _ _ _ _ _ G). cbv zeta.
    destruct (Hnet ((tr ++ [EvFetch (fetch_request rt this endpoint payload requiresAuth
                                       options)])
                    ++ [EvFetch (fetch_request rt this endpoint payload requiresAuth
                                   (Opt.forced options))])) as [e2 ->].
    eexists _, _. split; [reflexivity|].
    destruct (transport_failure_retryable rt this (Opt.forced options) e2) as [H1 H2].
    split; [exact H1|]. split; [exact H2|].
    rewrite !Client.count_fetches_app. simpl. lia.
  - eexists _, _. split; [reflexivity|].
    destruct (transport_failure_retryable rt this options e1) as [H1 H2].
    split; [exact H1|]. split; [exact H2|].
    rewrite !Client.count_fetches_app. simpl. lia.
Qed.

Lemma nth_attempt_unreachable rt net this endpoint payload requiresAuth options delay tr :
  Obs.unreachable net ->
  requiresAuth && negb (has_token this) = false ->
  forall n, exists v tr',
    Spec.nth_attempt (post rt net this endpoint payload requiresAuth options) delay n tr
    = (Normal v, tr')
    /\ Obs.transport_failure v
    /\ isRetryable rt v = Normal true
    /\ (count_fetches tr + S n <= count_fetches tr')%nat.
Proof.
  intros Hnet G. induction n as [|n (v & tr' & E & _ & _ & Hc)].
  - cbn [Spec.nth_attempt].
    destruct (post_unreachable rt net this endpoint payload requiresAuth options tr
                Hnet G) as (v & tr' & E & H1 & H2 & H3).
    exists v, tr'. split; [exact E|]. split; [exact H1|]. split; [exact H2 | lia].
  - cbn [Spec.nth_attempt]. rewrite E.
    destruct (post_unreachable rt net this endpoint payload requiresAuth options
                (tr' ++ [EvSleep delay]) Hnet G) as (v2 & tr2 & E2 & H1 & H2 & H3).
    exists v2, tr2. rewrite Client.count_fetches_app in H3. simpl in H3.
    split; [exact E2|]. split; [exact H1|]. split; [exact H2 | lia].
Qed.

(** X8.  When the provider cannot be reached at all, [postWithRetry]
    with a retry count [r >= 0] neither throws nor loops: it pauses
    exactly [r] times, makes between [r + 1] and [2 (r + 1)] requests,
    and returns a result with response code -1 and error code TIMEOUT or
    NETWORK_ERROR. *)
Theorem retries_exhausted_when_unreachable (rt : Runtime) (net : network) (this : t)
    (endpoint : string) (payload : value) (requiresAuth : bool)
    (options : Opt.t) (tr : trace) (r : Z) :
  Obs.unreachable net ->
  requiresAuth && negb (has_token this) = false ->
  reparse rt (Opt.retries options) (retryAttempts this) = Int r ->
  (0 <= r)%Z ->
  exists v tr',
    postWithRetry rt net this endpoint payload requiresAuth options tr = (Normal v, tr')
    /\ Obs.transport_failure v
    /\ count_sleeps tr' = (count_sleeps tr + Z.to_nat r)%nat
    /\ (count_fetches tr + (Z.to_nat r + 1) <= count_fetches tr'
        <= count_fetches tr + 2 * (Z.to_nat r + 1))%nat.
Proof.
  intros Hnet G Hr Hpos. unfold postWithRetry.
  set (delay := reparse rt (Opt.retryDelayMs options) (retryDelayMs this)).
  destruct (Client.with_retry_attempts rt
              (post rt net this endpoint payload requiresAuth options)
              (reparse rt (Opt.retries options) (retryAttempts this))
              delay r tr Hr Hpos) as (n & Hn & Hrun & Hall & Hlast).
  destruct (nth_attempt_unreachable rt net this endpoint payload requiresAuth options
              delay tr Hnet G n) as (v & tr' & E & H1 & H2 & H3).
  assert (n = Z.to_nat r) as Hnr.
  { destruct Hlast as [Hl|Hl]; [lia|].
    exfalso. apply Hl. unfold Spec.retryable_outcome. rewrite E. exact H2. }
  destruct (Client.nth_attempt_counts rt net this endpoint payload requiresAuth options
              delay tr n Hall) as [Hs Hf].
  rewrite E in Hs, Hf. cbn [snd] in Hs, Hf.
  exists v, tr'. rewrite Hrun, E. unfold Spec.judged. rewrite H2.
  split; [reflexivity|]. split; [exact H1|].
  subst n. split; [exact Hs | lia].
Qed.

Lemma retries_exhausted_when_unreachable_witness :
  exists v tr',
    postWithRetry Demo.rt Sample.net_refused Demo.api "/v1/check_transaction_by_md5"
      (VObj [("md5", VStr Demo.key)]) true (Opt.with_timeout (Int 18000)) []
    = (Normal v, tr')
    /\ Obs.transport_failure v
    /\ count_sleeps tr' = (count_sleeps [] + Z.to_nat 1)%nat
    /\ (count_fetches [] + (Z.to_nat 1 + 1) <= count_fetches tr'
        <= count_fetches [] + 2 * (Z.to_nat 1 + 1))%nat.
Proof.
  apply (retries_exhausted_when_unreachable Demo.rt Sample.net_refused Demo.api
           "/v1/check_transaction_by_md5" (VObj [("md5", VStr Demo.key)]) true
           (Opt.with_timeout (Int 18000)) [] 1).
  - intros t. eexists. reflexivity.
  - reflexivity.
  - reflexivity.
  - lia.
Defined.

Lemma drop_slashes_spec (s : string) :
  exists n, s = Inv.slashes n +:+ Str.drop_slashes s
            /\ (forall r, Str.drop_slashes s <> String "/" r).
Proof.
  induction s as [|c s (n & E & H)].
  - exists 0%nat. split; [reflexivity | discriminate].
  - simpl. destruct (Ascii.eqb c "/") eqn:Hc.
    + apply Ascii.eqb_eq in Hc. subst c. exists (S n). split; [|exact H].
      change (String "/" s = String "/" (Inv.slashes n +:+ Str.drop_slashes s)).
      now f_equal.
    + exists 0%nat. split; [reflexivity|]. intros r Er. injection Er as -> _.
      discriminate.
Qed.

Lemma append_assoc (a b c : string) : (a +:+ b) +:+ c = a +:+ (b +:+ c).
Proof.
  induction a as [|x a IH]; [reflexivity|].
  change (String x ((a +:+ b) +:+ c) = String x (a +:+ (b +:+ c))). now f_equal.
Qed.

Lemma append_nil_r (a : string) : a +:+ "" = a.
Proof.
  induction a as [|x a IH]; [reflexivity|].
  change (String x (a +:+ "") = String x a). now f_equal.
Qed.

Lemma rev_onto_spec (s acc : string) :
  Str.rev_onto s acc = Str.rev_onto s "" +:+ acc.
Proof.
  revert acc. induction s as [|c s IH]; intros acc; simpl; [reflexivity|].
  rewrite (IH (String c acc)), (IH (String c "")).
  rewrite append_assoc. reflexivity.
Qed.

Lemma rev_append (a b : string) : Str.rev (a +:+ b) = Str.rev b +:+ Str.rev a.
Proof.
  unfold Str.rev. induction a as [|c a IH]; simpl.
  - now rewrite append_nil_r.
  - rewrite rev_onto_spec, IH, (rev_onto_spec a (String c "")).
    now rewrite append_assoc.
Qed.

Lemma rev_involutive (s : string) : Str.rev (Str.rev s) = s.
Proof.
  induction s as [|c s IH]; [reflexivity|].
  change (String c s) with (String c "" +:+ s) at 1.
  rewrite rev_append, rev_append, IH. reflexivity.
Qed.

Lemma slashes_snoc (n : nat) : Inv.slashes n +:+ "/" = Inv.slashes (S n).
Proof.
  induction n as [|n IH]; [reflexivity|].
  change (String "/" (Inv.slashes n +:+ "/") = String "/" (Inv.slashes (S n))).
  now f_equal.
Qed.

Lemma rev_slashes (n : nat) : Str.rev (Inv.slashes n) = Inv.slashes n.
Proof.
  induction n as [|n IH]; [reflexivity|].
  change (Inv.slashes (S n)) with (String "/" "" +:+ Inv.slashes n) at 1.
  rewrite rev_append, IH. apply slashes_snoc.
Qed.

(** X9.  The constructor removes every trailing slash of the base URL
    and nothing else: the stored URL does not end in a slash, and the URL
    given is the stored one followed by slashes only.  Every request that
    a call of [post] adds to the trace, the retry over IPv4 as well, goes
    to the stored URL followed by the endpoint and carries the payload;
    and a call that does not lack a token it requires makes a request. *)
Theorem baseUrl_without_trailing_slash (rt : Runtime) (env : environment)
    (token : option string) (given : string) :
  let this := new rt env token (Some given) in
  ~ Inv.ends_with_slash (baseUrl this)
  /\ (exists n, given = baseUrl this +:+ Inv.slashes n)
  /\ (forall endpoint payload requiresAuth options,
        url (fetch_request rt this endpoint payload requiresAuth options)
        = baseUrl this +:+ endpoint)
  /\ forall net endpoint payload requiresAuth options tr,
       exists evs,
         snd (post rt net this endpoint payload requiresAuth options tr) = tr ++ evs
         /\ Forall (fetch_of (baseUrl this +:+ endpoint) payload) evs
         /\ (requiresAuth && negb (has_token this) = false -> evs <> []).
Proof.
  cbv zeta.
  assert (~ Inv.ends_with_slash (baseUrl (new rt env token (Some given)))
          /\ (exists n, given = baseUrl (new rt env token (Some given))
                                +:+ Inv.slashes n)) as [H1 H2].
  { cbn [new baseUrl default]. unfold Str.strip_trailing_slashes.
    destruct (drop_slashes_spec (Str.rev given)) as (n & E & H). split.
    - intros [r Er].
      apply (f_equal Str.rev) in Er. rewrite rev_involutive, rev_append in Er.
      exact (H _ Er).
    - exists n. apply (f_equal Str.rev) in E.
      rewrite rev_involutive, rev_append, rev_slashes in E. exact E. }
  split; [exact H1|]. split; [exact H2|]. split; [reflexivity|].
  intros net endpoint payload requiresAuth options tr.
  destruct (Client.post_trace rt net (new rt env token (Some given)) endpoint payload
              requiresAuth options tr) as (evs & E & F & _ & _ & Hne).
  exists evs. now split.
Qed.

End ClientMore.

(** ** server.js: invariants of the ledger, the read handlers, the replies *)

Module ServerMore.
Import Server.

Lemma normalizeOptionalText_cases (v : value) :
  normalizeOptionalText v = VNull \/ Inv.text (normalizeOptionalText v).
Proof.
  destruct v; try (left; reflexivity). unfold normalizeOptionalText.
  destruct (String.eqb (Str.trim s) "") eqn:E; [left; reflexivity|].
  right. exists (Str.trim s). split; [reflexivity|]. now apply String.eqb_neq.
Qed.

Lemma text_truthy (v : value) : Inv.text v -> JS.ToBoolean v = true.
Proof. intros (s & -> & H). now apply Ledger.truthy_text. Qed.

Lemma or_text (v : value) (s : string) :
  v = VNull \/ Inv.text v -> s <> "" -> Inv.text (JS.or v (VStr s)).
Proof.
  intros [->|H] Hs; unfold JS.or.
  - simpl. now exists s.
  - now rewrite (text_truthy v H).
Qed.

Section Handlers.
Variable rt : Runtime.
Variable net : network.
Variable lib : KHQRLibrary.
Variable env : environment.
Variable toDataURL : string -> completion string.

(** The two outcomes of the generate handler. *)
Lemma generate_cases req now_bill now_qr createdAt w :
  let out := generate rt net lib env toDataURL req now_bill now_qr createdAt w in
  (http_status (fst out) <> 200%Z
   /\ JS.get (reply_body (fst out)) "success" = VBool false
   /\ payments (snd out) = payments w)
  \/ exists q img dl warn p,
       http_status (fst out) = 200%Z
       /\ JS.get (reply_body (fst out)) "success" = VBool true
       /\ JS.get (reply_body (fst out)) "data"
          = VObj [ ("billNumber", Payment.billNumber p);
                   ("qrString", VStr q);
                   ("qrCodeImage", VStr img);
                   ("md5", VStr (KHQRService.generateMD5 q));
                   ("deeplinkUrl", dl);
                   ("amount", VNum (Payment.amount p));
                   ("currency", VStr (Payment.currency p));
                   ("manualSettleEnabled", VBool (isDemoManualSettleEnabled rt env)) ]
       /\ snd out
          = {| payments := <[ KHQRService.generateMD5 q := p ]> (payments w);
               log := snd (prepare_deeplink rt net env req q (log w))
                      ++ background_start rt env req q |}
       /\ fst (prepare_deeplink rt net env req q (log w)) = Normal (dl, warn)
       /\ toDataURL q = Normal img
       /\ Payment.qrString p = q
       /\ Payment.md5 p = KHQRService.generateMD5 q
       /\ Payment.status p = "pending"
       /\ Payment.createdAt p = createdAt
       /\ Payment.deeplinkUrl p = dl
       /\ Payment.completedAt p = VUndefined
       /\ Payment.transactionHash p = VUndefined
       /\ Payment.fromAccount p = VUndefined
       /\ Payment.manualSettledAt p = VUndefined
       /\ Payment.lastProviderError p = VUndefined
       /\ In (Payment.currency p) ["USD"; "KHR"]
       /\ PrimFloat.is_finite (Payment.amount p) = true
       /\ PrimFloat.leb (Payment.amount p) 0 = false
       /\ Inv.text (Payment.billNumber p)
       /\ (Payment.description p = VNull \/ Inv.text (Payment.description p)).
Proof.
  cbv zeta. unfold generate.
  destruct (JS.member (req_body req) "amount") as [amount|e];
    [|left; repeat split; discriminate].
  destruct (JS.ToString rt amount) as [amountText|e];
    [|left; repeat split; discriminate].
  destruct (PrimFloat.is_finite _) eqn:Hfin; cbn [negb orb];
    [|left; repeat split; discriminate].
  destruct (PrimFloat.leb _ 0) eqn:Hpos; [left; repeat split; discriminate|].
  destruct (JS.ToString rt _) as [currencyText|e];
    [|left; repeat split; discriminate].
  destruct (existsb _ SUPPORTED_CURRENCIES) eqn:Hcur; cbn [negb];
    [|left; repeat split; discriminate].
  destruct (negb _ || negb _); [left; repeat split; discriminate|].
  destruct (KHQRService.generateIndividualQR _ _ _ _) as [[err|q m]|e] eqn:Hqr;
    [left; repeat split; discriminate | | left; repeat split; discriminate].
  pose proof (Khqr.generateIndividualQR_md5 _ _ _ _ _ _ Hqr) as ->.
  destruct (toDataURL q) as [img|e] eqn:Himg; [|left; repeat split; discriminate].
  destruct (prepare_deeplink rt net env req q (log w)) as [[[dl warn]|e] tr] eqn:Hprep;
    [|left; repeat split; discriminate].
  destruct (dev_warning rt env warn _) as [warning|e];
    [|left; repeat split; discriminate].
  right. exists q, img, dl, warn.
  match goal with
  | |- context [{| payments := <[ _ := ?rec ]> (payments w); log := _ |}] => exists rec
  end.
  rewrite Hprep.
  cbn [fst snd http_status reply_body].
  split; [reflexivity|]. split; [reflexivity|]. split; [reflexivity|].
  split; [reflexivity|].
  cbn [Payment.qrString Payment.md5 Payment.status Payment.createdAt
       Payment.deeplinkUrl Payment.completedAt Payment.transactionHash
       Payment.fromAccount Payment.manualSettledAt Payment.lastProviderError
       Payment.currency Payment.amount Payment.billNumber Payment.description].
  split; [reflexivity|]. split; [exact Himg|]. do 10 (split; [reflexivity|]).
  split.
  { apply existsb_exists in Hcur as (c & Hin & Hc). apply String.eqb_eq in Hc.
    now rewrite Hc. }
  split; [exact Hfin|]. split; [exact Hpos|]. split.
  - apply or_text; [apply normalizeOptionalText_cases | discriminate].
  - apply normalizeOptionalText_cases.
Qed.

(** Where a record of the ledger comes from, after one operation. *)
Lemma step_records o w k p' :
  payments (step rt net lib env toDataURL o w) !! k = Some p' ->
  payments w !! k = Some p'
  \/ (exists p,
        payments w !! k = Some p
        /\ ((exists now l, now <> ""
                           /\ JS.ToBoolean (Payment.manualSettledAt p) = false
                           /\ settle now l p = Some p')
            \/ (exists completedAt now f h,
                  completedAt <> "" /\ p' = mark rt completedAt now f h p)
            \/ (exists shortLink, p' = with_deeplink shortLink p)))
  \/ (Payment.status p' = "pending"
      /\ Payment.completedAt p' = VUndefined
      /\ Payment.transactionHash p' = VUndefined
      /\ Payment.fromAccount p' = VUndefined
      /\ Payment.manualSettledAt p' = VUndefined
      /\ Inv.validated p').
Proof.
  assert (forall (m : gmap string Payment.t) k0 (p0 q : Payment.t) (R : Prop),
            m !! k0 = Some p0 ->
            (<[ k0 := q ]> m) !! k = Some p' ->
            (k0 = k -> q = p' -> R) -> (m !! k = Some p' \/ R)) as Hins.
  { intros m k0 p0 q R H0 H HR. destruct (decide (k0 = k)) as [E|Hne].
    - subst k0. rewrite lookup_insert_eq in H. injection H as H. right. now apply HR.
    - rewrite lookup_insert_ne in H by assumption. now left. }
  destruct o as [req t1 t2 t3|req q md5 started|req t|req t1 t2]; unfold step, serve.
  - destruct (generate_cases req (Clock.now t1) (Clock.now t2)
                (Clock.toISOString t3) w) as [(_ & _ & H)|H]; cbv zeta in H;
      destruct (generate _ _ _ _ _ _ _ _ _ w) as [r w'] eqn:Hg; cbn [fst snd] in *.
    + rewrite H. now left.
    + destruct H as (q & img & dl & warn & p & _ & _ & _ & -> & _ & _ & Hq & Hm & Hst
                     & Hcr & Hdl & Hc & Hh & Hf & Hms & _ & Hcur & Hfin & Hpos & Hb & Hd).
      cbn [payments]. intros H.
      destruct (decide (KHQRService.generateMD5 q = k)) as [E|Hne].
      * rewrite E, lookup_insert_eq in H. injection H as <-.
        right. right. repeat split; try assumption.
        rewrite Hcr. apply Ledger.toISOString_not_empty.
      * rewrite lookup_insert_ne in H by assumption. now left.
  - cbn [snd].
    destruct (Ledger.background_effect rt net env req q md5 started w)
      as [->|(p & sl & Hp & ->)]; [now left|].
    intros H. destruct (Hins _ _ _ _
      (exists p0, payments w !! k = Some p0
         /\ ((exists now l, now <> ""
                /\ JS.ToBoolean (Payment.manualSettledAt p0) = false
                /\ settle now l p0 = Some p')
             \/ (exists completedAt now f h,
                   completedAt <> "" /\ p' = mark rt completedAt now f h p0)
             \/ (exists shortLink, p' = with_deeplink shortLink p0)))
      Hp H) as [H1|H1]; [| now left | right; left; exact H1].
    intros <- <-. exists p. split; [assumption|]. right. right. now exists sl.
  - destruct (Ledger.check_effect rt net env req (Clock.toISOString t) w)
      as [H|(k0 & p & l & tr & p0 & _ & _ & Hp & Hman & _ & Hs & H)];
      destruct (check rt net env req (Clock.toISOString t) w) as [r w'] eqn:Hc;
      cbn [snd] in *; rewrite H; [now left|]. cbn [payments].
    intros H1. destruct (Hins _ _ _ _
      (exists p1, payments w !! k = Some p1
         /\ ((exists now l, now <> ""
                /\ JS.ToBoolean (Payment.manualSettledAt p1) = false
                /\ settle now l p1 = Some p')
             \/ (exists completedAt now f h,
                   completedAt <> "" /\ p' = mark rt completedAt now f h p1)
             \/ (exists shortLink, p' = with_deeplink shortLink p1)))
      Hp H1) as [H2|H2]; [| now left | right; left; exact H2].
    intros <- <-. exists p. split; [assumption|]. left.
    exists (Clock.toISOString t), l.
    split; [apply Ledger.toISOString_not_empty|]. now split.
  - destruct (Ledger.markPaid_effect rt env req (Clock.toISOString t1) (Clock.now t2) w)
      as [H|(k0 & p & _ & _ & _ & Hp & H)];
      destruct (markPaid rt env req (Clock.toISOString t1) (Clock.now t2) w)
        as [r w'] eqn:Hm;
      cbn [snd] in *; rewrite H; [now left|]. cbn [payments].
    intros H1. destruct (Hins _ _ _ _
      (exists p1, payments w !! k = Some p1
         /\ ((exists now l, now <> ""
                /\ JS.ToBoolean (Payment.manualSettledAt p1) = false
                /\ settle now l p1 = Some p')
             \/ (exists completedAt now f h,
                   completedAt <> "" /\ p' = mark rt completedAt now f h p1)
             \/ (exists shortLink, p' = with_deeplink shortLink p1)))
      Hp H1) as [H2|H2]; [| now left | right; left; exact H2].
    intros <- <-. exists p. split; [assumption|]. right. left.
    eexists _, _, _, _. split; [apply Ledger.toISOString_not_empty | reflexivity].
Qed.

(** A property of records that holds of fresh ones and is kept by the
    three updates holds in every state the server can reach. *)
Lemma reachable_records (P : Payment.t -> Prop) :
  (forall p, Payment.status p = "pending" ->
             Payment.completedAt p = VUndefined ->
             Payment.transactionHash p = VUndefined ->
             Payment.fromAccount p = VUndefined ->
             Payment.manualSettledAt p = VUndefined ->
             Inv.validated p -> P p) ->
  (forall now l p p', now <> "" -> JS.ToBoolean (Payment.manualSettledAt p) = false ->
                      settle now l p = Some p' -> P p -> P p') ->
  (forall completedAt now f h p, completedAt <> "" ->
                                 P p -> P (mark rt completedAt now f h p)) ->
  (forall shortLink p, P p -> P (with_deeplink shortLink p)) ->
  forall w, reachable rt net lib env toDataURL w ->
  forall k p, payments w !! k = Some p -> P p.
Proof.
  intros Hfresh Hsettle Hmark Hlink w Hw.
  induction Hw as [|o w Hw IH]; intros k p Hk.
  - cbn [initial_world payments] in Hk. rewrite lookup_empty in Hk. discriminate.
  - destruct (step_records o w k p Hk)
      as [H|[(p0 & Hp0 & [(now & l & Hn & Hman & Hs)|[(c & now & f & h & Hc & ->)
                                                      |(sl & ->)]])
            |(H1 & H2 & H3 & H4 & H5 & H6)]].
    + exact (IH k p H).
    + exact (Hsettle now l p0 p Hn Hman Hs (IH k p0 Hp0)).
    + exact (Hmark c now f h p0 Hc (IH k p0 Hp0)).
    + exact (Hlink sl p0 (IH k p0 Hp0)).
    + now apply Hfresh.
Qed.

End Handlers.

Lemma settle_shape now l p p' :
  settle now l p = Some p' ->
  (Payment.status p' = "completed" /\ Payment.completedAt p' = VStr now
   /\ Payment.manualSettledAt p' = Payment.manualSettledAt p)
  \/ (Payment.status p' = "failed" /\ Payment.completedAt p' = Payment.completedAt p
      /\ Payment.manualSettledAt p' = Payment.manualSettledAt p)
  \/ (Payment.status p' = Payment.status p
      /\ Payment.completedAt p' = Payment.completedAt p
      /\ Payment.transactionHash p' = Payment.transactionHash p
      /\ Payment.fromAccount p' = Payment.fromAccount p
      /\ Payment.manualSettledAt p' = Payment.manualSettledAt p).
Proof.
  unfold settle.
  destruct (String.eqb (status l) "completed");
    [|destruct (String.eqb (status l) "failed");
      [|destruct (String.eqb (status l) "error"); [|discriminate]]];
    intros E; injection E as <-; simpl; tauto.
Qed.

Lemma settle_keeps_identity now l p p' :
  settle now l p = Some p' ->
  Payment.billNumber p' = Payment.billNumber p
  /\ Payment.amount p' = Payment.amount p
  /\ Payment.currency p' = Payment.currency p
  /\ Payment.qrString p' = Payment.qrString p
  /\ Payment.md5 p' = Payment.md5 p
  /\ Payment.description p' = Payment.description p
  /\ Payment.createdAt p' = Payment.createdAt p
  /\ Payment.deeplinkUrl p' = Payment.deeplinkUrl p.
Proof.
  unfold settle.
  destruct (String.eqb (status l) "completed");
    [|destruct (String.eqb (status l) "failed");
      [|destruct (String.eqb (status l) "error"); [|discriminate]]];
    intros E; injection E as <-; simpl; tauto.
Qed.

(** X10.  In every state the server can reach, each stored record is
    consistent: its status is 'pending', 'completed' or 'failed', never
    'error'; a 'completed' record has its completedAt; a record settled
    by hand has its completedAt; and a 'pending' record has no
    completedAt, transactionHash, fromAccount or manualSettledAt. *)
Theorem stored_records_consistent
    (rt : Runtime) (net : network) (lib : KHQRLibrary) (env : environment)
    (toDataURL : string -> completion string) (w : world) (k : string) (p : Payment.t) :
  reachable rt net lib env toDataURL w ->
  payments w !! k = Some p ->
  Inv.consistent p.
Proof.
  intros Hw. revert k p.
  apply (reachable_records rt net lib env toDataURL Inv.consistent); [| | | |exact Hw].
  - intros p Hst Hc Hh Hf Hm _. unfold Inv.consistent. rewrite Hst, Hm.
    split; [simpl; tauto|]. split; [discriminate|]. split; [discriminate|]. tauto.
  - intros now l p p' Hn Hman Hs (H1 & H2 & H3 & H4). unfold Inv.consistent.
    destruct (settle_shape now l p p' Hs)
      as [(Hst & Hc & Hm)|[(Hst & Hc & Hm)|(Hst & Hc & Hh & Hf & Hm)]];
      rewrite Hst, Hm, Hman.
    + split; [simpl; tauto|].
      split; [intros _; rewrite Hc; now apply Ledger.truthy_text|].
      split; discriminate.
    + split; [simpl; tauto|]. split; [discriminate|]. split; discriminate.
    + split; [assumption|]. rewrite Hc, Hh, Hf.
      split; [assumption|]. split; [discriminate|].
      intros E. destruct (H4 E) as (-> & -> & -> & ->). tauto.
  - intros c now f h p Hc _. unfold Inv.consistent.
    cbn [mark Payment.status Payment.manualSettledAt Payment.completedAt].
    split; [simpl; tauto|].
    split; [intros _; now apply Ledger.truthy_text|].
    split; [intros _; now apply Ledger.truthy_text | discriminate].
  - intros sl p H. exact H.
Qed.

Lemma stored_records_consistent_witness : Inv.consistent Demo.stored.
Proof.
  apply (stored_records_consistent Demo.rt Demo.net_failed Demo.lib Demo.env
           Demo.toDataURL (Demo.generated Demo.net_failed) Demo.key Demo.stored).
  - exact (reachable_step Demo.rt Demo.net_failed Demo.lib Demo.env Demo.toDataURL
             (OpGenerate Demo.generate_request 1793657640000 1793657640001 1793657640002)
             initial_world
             (reachable_initial Demo.rt Demo.net_failed Demo.lib Demo.env Demo.toDataURL)).
  - vm_compute. reflexivity.
Defined.

(** X11.  In every state the server can reach, each stored record went
    through the validation of the generate handler and kept what it
    checked: the currency is USD or KHR, the amount is a finite number
    above zero, the bill number is a non-empty string, the description is
    null or a non-empty string, and createdAt is set.  No later operation
    alters these fields. *)
Theorem stored_records_validated
    (rt : Runtime) (net : network) (lib : KHQRLibrary) (env : environment)
    (toDataURL : string -> completion string) (w : world) (k : string) (p : Payment.t) :
  reachable rt net lib env toDataURL w ->
  payments w !! k = Some p ->
  Inv.validated p.
Proof.
  intros Hw. revert k p.
  apply (reachable_records rt net lib env toDataURL Inv.validated); [| | | |exact Hw].
  - intros p _ _ _ _ _ H. exact H.
  - intros now l p p' _ _ Hs H. unfold Inv.validated in *.
    destruct (settle_keeps_identity now l p p' Hs)
      as (-> & -> & -> & _ & _ & -> & -> & _).
    exact H.
  - intros c now f h p _ H. exact H.
  - intros sl p H. exact H.
Qed.

Lemma stored_records_validated_witness : Inv.validated Demo.stored.
Proof.
  apply (stored_records_validated Demo.rt Demo.net_failed Demo.lib Demo.env
           Demo.toDataURL (Demo.generated Demo.net_failed) Demo.key Demo.stored).
  - exact (reachable_step Demo.rt Demo.net_failed Demo.lib Demo.env Demo.toDataURL
             (OpGenerate Demo.generate_request 1793657640000 1793657640001 1793657640002)
             initial_world
             (reachable_initial Demo.rt Demo.net_failed Demo.lib Demo.env Demo.toDataURL)).
  - vm_compute. reflexivity.
Defined.

(** What the read handlers show of a record: every field as stored.  The
    md5 shown is the one of the record, which overrides the key. *)
Lemma record_view (k : string) (p : Payment.t) :
  JS.get (with_md5 k p) "md5" = VStr (Payment.md5 p)
  /\ JS.get (with_md5 k p) "billNumber" = Payment.billNumber p
  /\ JS.get (with_md5 k p) "amount" = VNum (Payment.amount p)
  /\ JS.get (with_md5 k p) "currency" = VStr (Payment.currency p)
  /\ JS.get (with_md5 k p) "qrString" = VStr (Payment.qrString p)
  /\ JS.get (with_md5 k p) "description" = Payment.description p
  /\ JS.get (with_md5 k p) "status" = VStr (Payment.status p)
  /\ JS.get (with_md5 k p) "createdAt" = VStr (Payment.createdAt p)
  /\ JS.get (with_md5 k p) "deeplinkUrl" = Payment.deeplinkUrl p
  /\ JS.get (with_md5 k p) "completedAt" = Payment.completedAt p
  /\ JS.get (with_md5 k p) "transactionHash" = Payment.transactionHash p
  /\ JS.get (with_md5 k p) "fromAccount" = Payment.fromAccount p
  /\ JS.get (with_md5 k p) "manualSettledAt" = Payment.manualSettledAt p
  /\ JS.get (with_md5 k p) "lastProviderError" = Payment.lastProviderError p.
Proof.
  assert (forall v, v = VUndefined \/ JS.is_undefined v = false) as Hu
    by (intros []; auto).
  unfold with_md5, Payment.props. cbn [List.filter snd].
  destruct (Hu (Payment.completedAt p)) as [E1|E1];
    destruct (Hu (Payment.transactionHash p)) as [E2|E2];
    destruct (Hu (Payment.fromAccount p)) as [E3|E3];
    destruct (Hu (Payment.manualSettledAt p)) as [E4|E4];
    destruct (Hu (Payment.lastProviderError p)) as [E5|E5];
    rewrite E1, E2, E3, E4, E5; vm_compute; repeat split; reflexivity.
Qed.

(** X12.  The generate handler and the lookup by md5.  A reply other
    than 200 reports failure and leaves the ledger as it was.  A reply of
    200 stores one record, 'pending', under the md5 that the reply
    reports, replacing what was there and touching no other key; and a
    lookup of that md5 then answers 200 with the bill number, QR string,
    md5, amount, currency and deeplink of the reply. *)
Theorem generate_then_lookup
    (rt : Runtime) (net : network) (lib : KHQRLibrary) (env : environment)
    (toDataURL : string -> completion string)
    (req : http_request) (now_bill now_qr : float) (createdAt : string) (w : world) :
  let out := generate rt net lib env toDataURL req now_bill now_qr createdAt w in
  let data := JS.get (reply_body (fst out)) "data" in
  (http_status (fst out) <> 200%Z ->
   JS.get (reply_body (fst out)) "success" = VBool false
   /\ payments (snd out) = payments w)
  /\ (http_status (fst out) = 200%Z ->
      exists k p,
        JS.get data "md5" = VStr k
        /\ payments (snd out) = <[ k := p ]> (payments w)
        /\ Payment.status p = "pending"
        /\ http_status (getPaymentByMd5 k (snd out)) = 200%Z
        /\ JS.get (reply_body (getPaymentByMd5 k (snd out))) "data" = with_md5 k p
        /\ JS.get (with_md5 k p) "status" = VStr "pending"
        /\ forall field,
             In field ["billNumber"; "qrString"; "md5"; "amount"; "currency";
                       "deeplinkUrl"] ->
             JS.get (with_md5 k p) field = JS.get data field).
Proof.
  cbv zeta.
  destruct (generate_cases rt net lib env toDataURL req now_bill now_qr createdAt w)
    as [(H1 & H2 & H3)|(q & img & dl & warn & p & H1 & _ & Hdata & Hw & _ & _ & Hq & Hm
                        & Hst & _ & Hdl & _)]; cbv zeta in *.
  - split; [now split | contradiction].
  - split; [contradiction|]. intros _.
    exists (KHQRService.generateMD5 q), p.
    rewrite Hdata, Hw. cbn [payments]. unfold getPaymentByMd5. cbn [payments].
    rewrite lookup_insert_eq. cbn [http_status reply_body].
    destruct (record_view (KHQRService.generateMD5 q) p)
      as (V1 & V2 & V3 & V4 & V5 & _ & V7 & _ & V9 & _).
    split; [reflexivity|]. split; [reflexivity|]. split; [exact Hst|].
    split; [reflexivity|]. split; [reflexivity|].
    split; [now rewrite V7, Hst|].
    intros field [<-|[<-|[<-|[<-|[<-|[<-|[]]]]]]].
    + rewrite V2. reflexivity.
    + rewrite V5, Hq. reflexivity.
    + rewrite V1, Hm. reflexivity.
    + rewrite V3. reflexivity.
    + rewrite V4. reflexivity.
    + rewrite V9, Hdl. reflexivity.
Qed.

Lemma generate_then_lookup_witness :
  let out :=
    generate Demo.rt Demo.net_failed Demo.lib Demo.env Demo.toDataURL
      Demo.generate_request 0 0 "2026-11-02T22:14:00.002Z" initial_world in
  exists k p,
    JS.get (JS.get (reply_body (fst out)) "data") "md5" = VStr k
    /\ payments (snd out) = <[ k := p ]> (payments initial_world)
    /\ Payment.status p = "pending"
    /\ http_status (getPaymentByMd5 k (snd out)) = 200%Z
    /\ JS.get (reply_body (getPaymentByMd5 k (snd out))) "data" = with_md5 k p
    /\ JS.get (with_md5 k p) "status" = VStr "pending"
    /\ forall field,
         In field ["billNumber"; "qrString"; "md5"; "amount"; "currency";
                   "deeplinkUrl"] ->
         JS.get (with_md5 k p) field
         = JS.get (JS.get (reply_body (fst out)) "data") field.
Proof.
  apply (generate_then_lookup Demo.rt Demo.net_failed Demo.lib Demo.env Demo.toDataURL
           Demo.generate_request 0 0 "2026-11-02T22:14:00.002Z" initial_world).
  vm_compute. reflexivity.
Defined.

Lemma find_by_bill_spec (billNumber : string) (entries : list (string * Payment.t)) :
  (find_by_bill billNumber entries = VNull
   /\ forall k p, In (k, p) entries -> Payment.billNumber p <> VStr billNumber)
  \/ exists before k p after,
       entries = before ++ (k, p) :: after
       /\ Payment.billNumber p = VStr billNumber
       /\ (forall k' p', In (k', p') before -> Payment.billNumber p' <> VStr billNumber)
       /\ find_by_bill billNumber entries = with_md5 k p.
Proof.
  induction entries as [|[k p] entries IH]; [left; split; [reflexivity | intros ? ? []]|].
  cbn [find_by_bill].
  destruct (JS.is_string (Payment.billNumber p) billNumber) eqn:E.
  - right. exists [], k, p, entries. split; [reflexivity|]. split.
    + destruct (Payment.billNumber p); try discriminate E.
      simpl in E. apply String.eqb_eq in E. now subst.
    + split; [intros ? ? [] | reflexivity].
  - assert (Payment.billNumber p <> VStr billNumber) as Hne.
    { intros H. rewrite H in E. simpl in E. now rewrite String.eqb_refl in E. }
    destruct IH as [[H1 H2]|(before & k0 & p0 & after & -> & Hb & Hbefore & Hf)].
    + left. split; [exact H1|]. intros k' p' [H|H]; [congruence | eauto].
    + right. exists ((k, p) :: before), k0, p0, after.
      split; [reflexivity|]. split; [exact Hb|]. split; [|exact Hf].
      intros k' p' [H|H]; [congruence | eauto].
Qed.

Lemma enumerates_singleton (k : string) (p : Payment.t) :
  Inv.enumerates [(k, p)] (<[ k := p ]> ∅).
Proof.
  split.
  - constructor; [apply not_elem_of_nil | constructor].
  - intros k' p'. split.
    + intros [H|[]]. injection H as <- <-. apply lookup_insert_eq.
    + intros H. destruct (decide (k = k')) as [<-|Hne].
      * rewrite lookup_insert_eq in H. injection H as <-. now left.
      * rewrite lookup_insert_ne, lookup_empty in H by assumption. discriminate.
Qed.

(** X13.  The lookup by bill number, over any enumeration of the ledger
    (each entry once).  It answers 404 exactly when no stored record has
    that bill number.  Otherwise it answers with the first record of the
    enumeration that has it, and its reply is the one that the lookup by
    md5 gives for the key of that record. *)
Theorem lookup_by_bill_number (entries : list (string * Payment.t)) (w : world)
    (billNumber : string) :
  Inv.enumerates entries (payments w) ->
  let r := getPaymentByBillNumber entries billNumber in
  (http_status r = 404%Z \/ http_status r = 200%Z)
  /\ (http_status r = 404%Z <->
      forall k p, payments w !! k = Some p -> Payment.billNumber p <> VStr billNumber)
  /\ (http_status r = 200%Z ->
      exists before k p after,
        entries = before ++ (k, p) :: after
        /\ payments w !! k = Some p
        /\ Payment.billNumber p = VStr billNumber
        /\ (forall k' p', In (k', p') before -> Payment.billNumber p' <> VStr billNumber)
        /\ r = getPaymentByMd5 k w).
Proof.
  intros [_ Hen]. cbv zeta. unfold getPaymentByBillNumber.
  destruct (find_by_bill_spec billNumber entries)
    as [[-> Hnone]|(before & k & p & after & He & Hb & Hbefore & ->)].
  - cbn [JS.ToBoolean negb failure http_status].
    split; [now left|]. split; [|discriminate].
    split; [|reflexivity]. intros _ k p Hk. apply (Hnone k p). now apply Hen.
  - cbn [with_md5 JS.ToBoolean negb http_status].
    assert (payments w !! k = Some p) as Hk.
    { apply Hen. rewrite He. apply in_or_app. right. now left. }
    split; [now right|]. split.
    + split; [discriminate|]. intros H. now destruct (H k p Hk).
    + intros _. exists before, k, p, after.
      split; [exact He|]. split; [exact Hk|]. split; [exact Hb|].
      split; [exact Hbefore|]. unfold getPaymentByMd5. now rewrite Hk.
Qed.

Lemma lookup_by_bill_number_witness :
  let r := getPaymentByBillNumber [(Demo.key, Demo.stored)] "INV-1" in
  (http_status r = 404%Z \/ http_status r = 200%Z)
  /\ (http_status r = 404%Z <->
      forall k p, payments Sample.one_record !! k = Some p ->
                  Payment.billNumber p <> VStr "INV-1")
  /\ (http_status r = 200%Z ->
      exists before k p after,
        [(Demo.key, Demo.stored)] = before ++ (k, p) :: after
        /\ payments Sample.one_record !! k = Some p
        /\ Payment.billNumber p = VStr "INV-1"
        /\ (forall k' p', In (k', p') before -> Payment.billNumber p' <> VStr "INV-1")
        /\ r = getPaymentByMd5 k Sample.one_record).
Proof.
  apply (lookup_by_bill_number [(Demo.key, Demo.stored)] Sample.one_record "INV-1").
  exact (enumerates_singleton Demo.key Demo.stored).
Defined.


(** X15.  What a successful manual settlement stores.  The record under
    the md5 becomes 'completed'; completedAt and manualSettledAt are the
    time of the request; fromAccount and transactionHash are the trimmed
    texts of the request, or 'demo@manual' and "manual-" followed by the
    clock reading when those are missing or blank; every other field and
    every other record is as before; and the record that the reply shows
    is the one a lookup by md5 shows afterwards. *)
Theorem markPaid_settles (rt : Runtime) (env : environment) (req : http_request)
    (completedAt : string) (now : float) (w : world) (k : string) (p : Payment.t) :
  isDemoManualSettleEnabled rt env = true ->
  JS.get (JS.or (req_body req) (VObj [])) "md5" = VStr k ->
  k <> "" ->
  payments w !! k = Some p ->
  let out := markPaid rt env req completedAt now w in
  let fromAccountId :=
    normalizeOptionalText (JS.get (JS.or (req_body req) (VObj [])) "fromAccountId") in
  let transactionHash :=
    normalizeOptionalText (JS.get (JS.or (req_body req) (VObj [])) "transactionHash") in
  exists p',
    payments (snd out) = <[ k := p' ]> (payments w)
    /\ Payment.status p' = "completed"
    /\ Payment.completedAt p' = VStr completedAt
    /\ Payment.manualSettledAt p' = VStr completedAt
    /\ Payment.fromAccount p'
       = (if JS.ToBoolean fromAccountId then fromAccountId else VStr "demo@manual")
    /\ Payment.transactionHash p'
       = (if JS.ToBoolean transactionHash then transactionHash
          else VStr ("manual-" +:+ NumberToString rt now))
    /\ Inv.text (Payment.fromAccount p')
    /\ Inv.text (Payment.transactionHash p')
    /\ Payment.billNumber p' = Payment.billNumber p
    /\ Payment.amount p' = Payment.amount p
    /\ Payment.currency p' = Payment.currency p
    /\ Payment.qrString p' = Payment.qrString p
    /\ Payment.md5 p' = Payment.md5 p
    /\ Payment.description p' = Payment.description p
    /\ Payment.createdAt p' = Payment.createdAt p
    /\ Payment.lastProviderError p' = Payment.lastProviderError p
    /\ Payment.deeplinkUrl p' = Payment.deeplinkUrl p
    /\ (forall k', k' <> k -> payments (snd out) !! k' = payments w !! k')
    /\ JS.get (reply_body (fst out)) "data"
       = JS.get (reply_body (getPaymentByMd5 k (snd out))) "data".
Proof.
  intros Hen Hmd5 Hk Hp. cbv zeta. unfold markPaid.
  rewrite Hen, Hmd5. cbn [negb]. rewrite (Ledger.truthy_text k Hk).
  cbn [negb ledger_get]. rewrite Hp. cbn [fst snd payments ledger_set reply_body].
  eexists. split; [reflexivity|].
  cbn [mark Payment.status Payment.completedAt Payment.manualSettledAt
       Payment.fromAccount Payment.transactionHash Payment.lastProviderError
       Payment.deeplinkUrl].
  split; [reflexivity|]. split; [reflexivity|]. split; [reflexivity|].
  split; [reflexivity|]. split; [reflexivity|].
  split; [apply or_text; [apply normalizeOptionalText_cases | discriminate]|].
  split; [apply or_text; [apply normalizeOptionalText_cases | discriminate]|].
  do 9 (split; [reflexivity|]).
  split; [intros k' Hne; now rewrite lookup_insert_ne|].
  unfold getPaymentByMd5. cbn [payments]. rewrite lookup_insert_eq. reflexivity.
Qed.

Lemma markPaid_settles_witness :
  let out :=
    markPaid Demo.rt Demo.env Demo.key_request "2026-11-02T22:16:00.000Z" 7
      Sample.one_record in
  exists p',
    payments (snd out) = <[ Demo.key := p' ]> (payments Sample.one_record)
    /\ Payment.status p' = "completed"
    /\ Payment.fromAccount p' = VStr "demo@manual"
    /\ Payment.transactionHash p' = VStr "manual-7".
Proof.
  destruct (markPaid_settles Demo.rt Demo.env Demo.key_request
              "2026-11-02T22:16:00.000Z" 7 Sample.one_record Demo.key Demo.stored)
    as (p' & H1 & H2 & _ & _ & H5 & H6 & _).
  - vm_compute. reflexivity.
  - reflexivity.
  - vm_compute. discriminate.
  - apply lookup_insert_eq.
  - exists p'. split; [exact H1|]. split; [exact H2|]. split; [exact H5 | exact H6].
Defined.

Section Updates.
Variable rt : Runtime.
Variable net : network.
Variable lib : KHQRLibrary.
Variable env : environment.
Variable toDataURL : string -> completion string.

(** What an update does to a record that is stored. *)
Lemma update_records o w k p :
  is_update o = true ->
  payments w !! k = Some p ->
  exists p',
    payments (step rt net lib env toDataURL o w) !! k = Some p'
    /\ (p' = p
        \/ (exists now l, settle now l p = Some p')
        \/ (exists completedAt now f h, p' = mark rt completedAt now f h p)
        \/ (exists shortLink, p' = with_deeplink shortLink p)).
Proof.
  intros Hu Hk.
  destruct o as [req t1 t2 t3|req q md5 started|req t|req t1 t2]; [discriminate| | |];
    unfold step, serve.
  - cbn [snd].
    destruct (Ledger.background_effect rt net env req q md5 started w)
      as [->|(p0 & sl & Hp0 & ->)]; [exists p; split; [assumption | now left]|].
    destruct (decide (md5 = k)) as [->|Hne].
    + rewrite lookup_insert_eq. eexists. split; [reflexivity|].
      right. right. right. exists sl. congruence.
    + rewrite lookup_insert_ne by assumption. exists p. split; [assumption | now left].
  - destruct (Ledger.check_effect rt net env req (Clock.toISOString t) w)
      as [H|(k0 & p0 & l & tr & p1 & _ & _ & Hp0 & _ & _ & Hs & H)];
      destruct (check rt net env req (Clock.toISOString t) w) as [r w'] eqn:Hc;
      cbn [snd] in *; rewrite H; [exists p; split; [assumption | now left]|].
    cbn [payments]. destruct (decide (k0 = k)) as [->|Hne].
    + rewrite lookup_insert_eq. exists p1. split; [reflexivity|].
      right. left. exists (Clock.toISOString t), l. congruence.
    + rewrite lookup_insert_ne by assumption. exists p. split; [assumption | now left].
  - destruct (Ledger.markPaid_effect rt env req (Clock.toISOString t1) (Clock.now t2) w)
      as [H|(k0 & p0 & _ & _ & _ & Hp0 & H)];
      destruct (markPaid rt env req (Clock.toISOString t1) (Clock.now t2) w)
        as [r w'] eqn:Hm;
      cbn [snd] in *; rewrite H; [exists p; split; [assumption | now left]|].
    cbn [payments]. destruct (decide (k0 = k)) as [->|Hne].
    + rewrite lookup_insert_eq. eexists. split; [reflexivity|].
      assert (p0 = p) as -> by congruence.
      right. right. left. eexists _, _, _, _. reflexivity.
    + rewrite lookup_insert_ne by assumption. exists p. split; [assumption | now left].
Qed.

End Updates.

(** X16.  No status check, manual settlement or deeplink task, in any
    number and order, alters what a payment is about: the record stays in
    the ledger with its bill number, amount, currency, QR string, md5,
    description and creation time. *)
Theorem updates_keep_identity
    (rt : Runtime) (net : network) (lib : KHQRLibrary) (env : environment)
    (toDataURL : string -> completion string) (ops : list operation)
    (w : world) (k : string) (p : Payment.t) :
  Forall (fun o => is_update o = true) ops ->
  payments w !! k = Some p ->
  exists p',
    payments (run rt net lib env toDataURL ops w) !! k = Some p'
    /\ Payment.billNumber p' = Payment.billNumber p
    /\ Payment.amount p' = Payment.amount p
    /\ Payment.currency p' = Payment.currency p
    /\ Payment.qrString p' = Payment.qrString p
    /\ Payment.md5 p' = Payment.md5 p
    /\ Payment.description p' = Payment.description p
    /\ Payment.createdAt p' = Payment.createdAt p.
Proof.
  revert w p. induction ops as [|o ops IH]; intros w p Hops Hk.
  - exists p. repeat split; assumption.
  - apply Forall_cons in Hops as [Ho Hops]. cbn [run fold_left].
    destruct (update_records rt net lib env toDataURL o w k p Ho Hk) as (p1 & Hp1 & Hrel).
    destruct (IH _ p1 Hops Hp1) as (p' & Hp' & E1 & E2 & E3 & E4 & E5 & E6 & E7).
    exists p'. split; [exact Hp'|].
    rewrite E1, E2, E3, E4, E5, E6, E7.
    destruct Hrel as [->|[(now & l & Hs)|[(c & now & f & h & ->)|(sl & ->)]]];
      [repeat split | | repeat split | repeat split].
    destruct (settle_keeps_identity now l p p1 Hs) as (-> & -> & -> & -> & -> & -> & -> & _).
    repeat split.
Qed.

Lemma updates_keep_identity_witness :
  exists p',
    payments (run Demo.rt Demo.net_failed Demo.lib Demo.env Demo.toDataURL
                [OpCheck Demo.key_request 1793657760000;
                 OpMarkPaid Demo.key_request 1793657700000 1793657700001]
                Sample.one_record) !! Demo.key = Some p'
    /\ Payment.billNumber p' = Payment.billNumber Demo.stored
    /\ Payment.amount p' = Payment.amount Demo.stored
    /\ Payment.currency p' = Payment.currency Demo.stored
    /\ Payment.qrString p' = Payment.qrString Demo.stored
    /\ Payment.md5 p' = Payment.md5 Demo.stored
    /\ Payment.description p' = Payment.description Demo.stored
    /\ Payment.createdAt p' = Payment.createdAt Demo.stored.
Proof.
  apply (updates_keep_identity Demo.rt Demo.net_failed Demo.lib Demo.env Demo.toDataURL
           [OpCheck Demo.key_request 1793657760000;
            OpMarkPaid Demo.key_request 1793657700000 1793657700001]
           Sample.one_record Demo.key Demo.stored).
  - repeat constructor.
  - apply lookup_insert_eq.
Defined.

Lemma member_get (v : value) (k : string) (d : value) :
  JS.member v k = Normal d -> d = JS.get v k.
Proof. destruct v; simpl; intros E; try discriminate E; now injection E. Qed.

(** X17.  The reply of a status check agrees with what the check leaves
    in the ledger.  For a stored record that was not settled by hand, a
    reply of 200 carries the status [s] of the lookup and success exactly
    when [s] is 'completed'.  On 'completed' the record becomes
    'completed', with the time of the check and the hash and sender that
    the reply data show (null when absent); on 'failed' it becomes
    'failed'; on any other status its status and settlement fields stay,
    and on a status other than 'error' the record is untouched.  No other
    record changes. *)
Theorem check_reply_matches_ledger (rt : Runtime) (net : network) (env : environment)
    (req : http_request) (now : string) (w : world) (k : string) (p : Payment.t) :
  JS.member (req_body req) "md5" = Normal (VStr k) ->
  k <> "" ->
  payments w !! k = Some p ->
  JS.ToBoolean (Payment.manualSettledAt p) = false ->
  let out := check rt net env req now w in
  let answer := reply_body (fst out) in
  http_status (fst out) = 200%Z ->
  exists s p',
    JS.get answer "status" = VStr s
    /\ JS.get answer "success" = VBool (String.eqb s "completed")
    /\ JS.get answer "deeplinkUrl" = JS.or (Payment.deeplinkUrl p) VNull
    /\ payments (snd out) !! k = Some p'
    /\ (forall k', k' <> k -> payments (snd out) !! k' = payments w !! k')
    /\ (s = "completed" ->
        Payment.status p' = "completed"
        /\ Payment.completedAt p' = VStr now
        /\ Payment.transactionHash p'
           = JS.or (JS.opt_member (JS.get answer "data") "hash") VNull
        /\ Payment.fromAccount p'
           = JS.or (JS.opt_member (JS.get answer "data") "fromAccountId") VNull)
    /\ (s = "failed" -> Payment.status p' = "failed")
    /\ (s <> "completed" -> s <> "failed" ->
        Payment.status p' = Payment.status p
        /\ Payment.completedAt p' = Payment.completedAt p
        /\ Payment.transactionHash p' = Payment.transactionHash p
        /\ Payment.fromAccount p' = Payment.fromAccount p)
    /\ (s <> "completed" -> s <> "failed" -> s <> "error" -> p' = p).
Proof.
  intros Hmd5 Hk Hp Hman. cbv zeta. unfold check.
  rewrite Hmd5, (Ledger.truthy_text k Hk). cbn [negb ledger_get]. rewrite Hp, Hman.
  destruct (reconcile rt net env (Some p) (VStr k) (log w)) as [[l|e] tr];
    [|cbn [fst caught failure http_status]; discriminate].
  cbn [fst snd payments]. unfold check_reply.
  destruct (Fallback.check_warning_normal rt env (status l)) as [warning ->].
  destruct (JS.member (result l) "data") as [data|e] eqn:Hdata;
    [|cbn [caught failure http_status]; discriminate].
  apply member_get in Hdata. subst data.
  cbn [http_status reply_body]. intros _.
  unfold settled. cbn [ledger_get ledger_set]. rewrite Hp. unfold settle.
  exists (status l).
  destruct (String.eqb (status l) "completed") eqn:E1;
    [|destruct (String.eqb (status l) "failed") eqn:E2;
      [|destruct (String.eqb (status l) "error") eqn:E3]].
  - apply String.eqb_eq in E1. eexists. rewrite lookup_insert_eq.
    split; [reflexivity|]. split; [reflexivity|].
    split; [reflexivity|]. split; [reflexivity|].
    split; [intros k' Hne; now rewrite lookup_insert_ne|].
    split; [intros _; repeat split|].
    split; [rewrite E1; discriminate|].
    split; intros H; now contradiction H.
  - apply String.eqb_eq in E2. apply String.eqb_neq in E1. eexists.
    rewrite lookup_insert_eq.
    split; [reflexivity|]. split; [reflexivity|].
    split; [reflexivity|]. split; [reflexivity|].
    split; [intros k' Hne; now rewrite lookup_insert_ne|].
    split; [intros H; now contradiction E1|].
    split; [intros _; reflexivity|].
    split; intros _ H; now contradiction H.
  - apply String.eqb_eq in E3. apply String.eqb_neq in E1, E2. eexists.
    rewrite lookup_insert_eq.
    split; [reflexivity|]. split; [reflexivity|].
    split; [reflexivity|]. split; [reflexivity|].
    split; [intros k' Hne; now rewrite lookup_insert_ne|].
    split; [intros H; now contradiction E1|].
    split; [intros H; now contradiction E2|].
    split; [intros _ _; repeat split|].
    intros _ _ H; now contradiction H.
  - apply String.eqb_neq in E1, E2, E3. exists p. rewrite Hp.
    split; [reflexivity|].
    split; [reflexivity|].
    split; [reflexivity|]. split; [reflexivity|].
    split; [reflexivity|].
    split; [intros H; now contradiction E1|].
    split; [intros H; now contradiction E2|].
    split; [intros _ _; repeat split | reflexivity].
Qed.

Lemma check_reply_matches_ledger_witness :
  let out :=
    check Demo.rt Demo.net_paid Demo.env Demo.key_request "2026-11-02T22:15:00.000Z"
      Sample.one_record in
  exists s p',
    JS.get (reply_body (fst out)) "status" = VStr s
    /\ JS.get (reply_body (fst out)) "success" = VBool (String.eqb s "completed")
    /\ payments (snd out) !! Demo.key = Some p'.
Proof.
  destruct (check_reply_matches_ledger Demo.rt Demo.net_paid Demo.env Demo.key_request
              "2026-11-02T22:15:00.000Z" Sample.one_record Demo.key Demo.stored)
    as (s & p' & H1 & H2 & _ & H4 & _).
  - reflexivity.
  - vm_compute. discriminate.
  - apply lookup_insert_eq.
  - reflexivity.
  - vm_compute. reflexivity.
  - exists s, p'. split; [exact H1|]. split; [exact H2 | exact H4].
Defined.

Section Traffic.
Variable rt : Runtime.
Variable net : network.
Variable lib : KHQRLibrary.
Variable env : environment.
Variable toDataURL : string -> completion string.












End Traffic.


(** X19.  The account check.  It makes at most two requests, all to the
    account endpoint with the account id of the request.  Without an
    account id it answers 400 and makes none.  Without an API token it
    makes none either and reports that the account does not exist, with
    error code MISSING_TOKEN.  In every reply of 200 the fields success
    and exists agree. *)
Theorem accountCheck_replies (rt : Runtime) (net : network) (env : environment)
    (req : http_request) (tr : trace) :
  let out := accountCheck rt net env req tr in
  let accountId := JS.get (req_body req) "accountId" in
  (exists evs,
     snd out = tr ++ evs
     /\ (length evs <= 2)%nat
     /\ Forall (fetch_of (BakongAPIService.baseUrl (bakongAPI rt env)
                          +:+ "/v1/check_bakong_account")
                  (VObj [("accountId", accountId)])) evs)
  /\ (JS.nullish (req_body req) = false -> JS.ToBoolean accountId = false ->
      out = (failure 400 (VStr "Account ID is required"), tr))
  /\ (JS.ToBoolean accountId = true -> env_set env "BAKONG_API_TOKEN" = false ->
      out = ({| http_status := 200;
                reply_body :=
                  VObj [ ("success", VBool false);
                         ("exists", VBool false);
                         ("message", VStr "Bakong API token is missing");
                         ("errorCode", VStr "MISSING_TOKEN") ] |}, tr))
  /\ (http_status (fst out) = 200%Z ->
      JS.get (reply_body (fst out)) "success" = JS.get (reply_body (fst out)) "exists").
Proof.
  cbv zeta.
  assert (exists evs : trace,
            tr = tr ++ evs /\ (length evs <= 2)%nat
            /\ Forall (fetch_of (BakongAPIService.baseUrl (bakongAPI rt env)
                                 +:+ "/v1/check_bakong_account")
                         (VObj [("accountId", JS.get (req_body req) "accountId")])) evs)
    as Hnone.
  { exists []. rewrite app_nil_r. split; [reflexivity|]. split; [simpl; lia | constructor]. }
  unfold accountCheck.
  destruct (JS.member (req_body req) "accountId") as [accountId|e] eqn:Hm.
  2:{ cbn [fst snd]. split; [exact Hnone|].
      split; [intros Hn; destruct (req_body req); discriminate|].
      split; [intros Ht; destruct (req_body req); discriminate|].
      discriminate. }
  apply member_get in Hm. subst accountId.
  destruct (JS.ToBoolean (JS.get (req_body req) "accountId")) eqn:Hacc; cbn [negb].
  2:{ cbn [fst snd]. split; [exact Hnone|]. split; [reflexivity|].
      split; discriminate. }
  unfold BakongAPIService.checkBakongAccount.
  destruct (Client.post_trace rt net (bakongAPI rt env) "/v1/check_bakong_account"
              (VObj [("accountId", JS.get (req_body req) "accountId")]) true Opt.empty tr)
    as (evs & Hevs & F & Hlen & _).
  destruct (ClientMore.post_events rt net (bakongAPI rt env) "/v1/check_bakong_account"
              (VObj [("accountId", JS.get (req_body req) "accountId")]) true Opt.empty tr)
    as [[G E]|[G _]].
  - rewrite E. cbn [JS.member BakongAPIService.missing_token JS.get JS.assoc
                    String.eqb Ascii.eqb Bool.eqb fst snd].
    split; [exact Hnone|]. split; [discriminate|].
    split; [reflexivity|]. reflexivity.
  - destruct (BakongAPIService.post _ _ _ _ _ _ _ _) as [[result|e] tr1];
      cbn [snd] in Hevs; subst tr1.
    + destruct (JS.member result "responseCode") as [rc|e]; cbn [fst snd].
      * split; [exists evs; now repeat split|]. split; [discriminate|].
        split; [|reflexivity].
        intros _ Htok. rewrite (Fallback.has_token_env rt env), Htok in G. discriminate.
      * split; [exists evs; now repeat split|]. split; [discriminate|].
        split; [|discriminate].
        intros _ Htok. rewrite (Fallback.has_token_env rt env), Htok in G. discriminate.
    + cbn [fst snd]. split; [exists evs; now repeat split|]. split; [discriminate|].
      split; [|discriminate].
      intros _ Htok. rewrite (Fallback.has_token_env rt env), Htok in G. discriminate.
Qed.

End ServerMore.
